(** * LUMIX backend: controllers, data-access objects and schemas

    A shallow embedding of the Express/Mongoose backend: the schemas of
    [models/], the generic and the entity DAOs of [dao/], the controllers of
    [controllers/] and the authentication middleware.  Handlers are
    computations in a state-and-exception monad over the document store, the
    console and the outgoing mail queue. *)

From Stdlib Require Import String Ascii List ZArith Bool Lia PrimFloat.
Import ListNotations.

#[local] Open Scope string_scope.

(* ================================================================== *)
(** ** JavaScript strings and the helpers the code calls on them *)
(* ================================================================== *)

(** Strings are sequences of code units; [String.length] is [s.length].
    The classes of the password expression hold ASCII characters only. *)

Definition code (c : ascii) : nat := nat_of_ascii c.

Definition in_range (lo hi : nat) (c : ascii) : bool :=
  (Nat.leb lo (code c) && Nat.leb (code c) hi)%bool.

(** [[A-Z]], [[a-z]] and [\d] of a regular expression. *)
Definition is_upper : ascii -> bool := in_range 65 90.
Definition is_lower : ascii -> bool := in_range 97 122.
Definition is_digit : ascii -> bool := in_range 48 57.

(** The punctuation class of the password expression, character by
    character (34 is the double quote). *)
Definition special_chars : list ascii :=
  [ "!"; "@"; "#"; "$"; "%"; "^"; "&"; "*"; "("; ")"; "_"; "+"; "-"; "=";
    "["; "]"; "{"; "}"; ";"; "'"; ":"; "034"; "\"; "|"; ","; "."; "<"; ">";
    "/"; "?" ]%char.

Definition is_special (c : ascii) : bool :=
  existsb (Ascii.eqb c) special_chars.

(** The class the whole password is matched against: letters, digits and
    the punctuation class. *)
Definition is_allowed (c : ascii) : bool :=
  (is_upper c || is_lower c || is_digit c || is_special c)%bool.

(** Line terminators: the characters [.] does not match. *)
Definition is_line_terminator (c : ascii) : bool :=
  (Nat.eqb (code c) 10 || Nat.eqb (code c) 13)%bool.

(** White space removed by [String.prototype.trim]. *)
Definition is_space (c : ascii) : bool :=
  (in_range 9 13 c || Nat.eqb (code c) 32 || Nat.eqb (code c) 160)%bool.

(** The lookahead [(?=.*X)] at the start of the input: some character of
    class [X] is preceded by characters [.] matches. *)
Fixpoint lookahead_dot_star (X : ascii -> bool) (s : string) : bool :=
  match s with
  | EmptyString => false
  | String c rest =>
      (X c || (negb (is_line_terminator c) && lookahead_dot_star X rest))%bool
  end.

Fixpoint all_chars (X : ascii -> bool) (s : string) : bool :=
  match s with
  | EmptyString => true
  | String c rest => (X c && all_chars X rest)%bool
  end.

Fixpoint any_char (X : ascii -> bool) (s : string) : bool :=
  match s with
  | EmptyString => false
  | String c rest => (X c || any_char X rest)%bool
  end.

(** [passwordRegex.test]: three lookaheads at the start of the input (an
    upper-case letter, a digit, a punctuation character), then eight or more
    characters of the allowed class up to the end of the input. *)
Definition passwordRegex_test (s : string) : bool :=
  (lookahead_dot_star is_upper s
   && lookahead_dot_star is_digit s
   && lookahead_dot_star is_special s
   && all_chars is_allowed s
   && Nat.leb 8 (String.length s))%bool.

(** [s.trim()]. *)
Fixpoint trim_start (s : string) : string :=
  match s with
  | EmptyString => EmptyString
  | String c rest => if is_space c then trim_start rest else s
  end.

Fixpoint trim_end (s : string) : string :=
  match s with
  | EmptyString => EmptyString
  | String c rest =>
      match trim_end rest with
      | EmptyString => if is_space c then EmptyString else String c EmptyString
      | r => String c r
      end
  end.

Definition trim (s : string) : string := trim_end (trim_start s).

(** [s.split] on a comma. *)
Fixpoint split_comma_aux (cur : string) (s : string) : list string :=
  match s with
  | EmptyString => [cur]
  | String c rest =>
      if Ascii.eqb c ","%char
      then cur :: split_comma_aux EmptyString rest
      else split_comma_aux (cur ++ String c EmptyString) rest
  end.

Definition split_comma (s : string) : list string :=
  split_comma_aux EmptyString s.

(** Truthiness of a possibly undefined string: [!s] is its negation. *)
Definition truthy (s : option string) : bool :=
  match s with
  | Some v => negb (v =? "")
  | None => false
  end.

(** Loose equality [a == b] of two possibly undefined strings. *)
Definition loose_eq (a b : option string) : bool :=
  match a, b with
  | Some x, Some y => x =? y
  | None, None => true
  | _, _ => false
  end.

(** [String(v)] as [RegExp.prototype.test] applies it to its argument. *)
Definition to_js_string (v : option string) : string :=
  match v with
  | Some s => s
  | None => "undefined"
  end.

(* ================================================================== *)
(** ** Documents of the users, reviews and favorites collections *)
(* ================================================================== *)

(** Object identifiers are kept as their string form, the form in which
    they travel in routes, request bodies and token payloads, and are taken
    to be well formed; a [Date] is its number of milliseconds; a rating is
    the IEEE double a JavaScript number is, and its arithmetic is that of
    doubles.  Every schema sets [timestamps: true], so every document
    carries [createdAt] and [updatedAt]. *)

Module User.
(** [IUser] with the [_id] of [Document]. *)
Record Document := {
  _id : string;
  firstName : string;
  lastName : string;
  age : Z;
  email : string;
  password : string;
  resetPasswordToken : option string;
  resetPasswordExpires : option Z;
  createdAt : Z;
  updatedAt : Z
}.

(** [user.path = value], path by path. *)
Definition set_firstName (v : string) (u : Document) : Document :=
  {| _id := _id u; firstName := v; lastName := lastName u; age := age u;
     email := email u; password := password u;
     resetPasswordToken := resetPasswordToken u;
     resetPasswordExpires := resetPasswordExpires u;
     createdAt := createdAt u; updatedAt := updatedAt u |}.

Definition set_lastName (v : string) (u : Document) : Document :=
  {| _id := _id u; firstName := firstName u; lastName := v; age := age u;
     email := email u; password := password u;
     resetPasswordToken := resetPasswordToken u;
     resetPasswordExpires := resetPasswordExpires u;
     createdAt := createdAt u; updatedAt := updatedAt u |}.

Definition set_age (v : Z) (u : Document) : Document :=
  {| _id := _id u; firstName := firstName u; lastName := lastName u; age := v;
     email := email u; password := password u;
     resetPasswordToken := resetPasswordToken u;
     resetPasswordExpires := resetPasswordExpires u;
     createdAt := createdAt u; updatedAt := updatedAt u |}.

Definition set_email (v : string) (u : Document) : Document :=
  {| _id := _id u; firstName := firstName u; lastName := lastName u;
     age := age u; email := v; password := password u;
     resetPasswordToken := resetPasswordToken u;
     resetPasswordExpires := resetPasswordExpires u;
     createdAt := createdAt u; updatedAt := updatedAt u |}.

Definition set_password (v : string) (u : Document) : Document :=
  {| _id := _id u; firstName := firstName u; lastName := lastName u;
     age := age u; email := email u; password := v;
     resetPasswordToken := resetPasswordToken u;
     resetPasswordExpires := resetPasswordExpires u;
     createdAt := createdAt u; updatedAt := updatedAt u |}.

Definition set_resetPasswordToken (v : option string) (u : Document) : Document :=
  {| _id := _id u; firstName := firstName u; lastName := lastName u;
     age := age u; email := email u; password := password u;
     resetPasswordToken := v;
     resetPasswordExpires := resetPasswordExpires u;
     createdAt := createdAt u; updatedAt := updatedAt u |}.

Definition set_resetPasswordExpires (v : option Z) (u : Document) : Document :=
  {| _id := _id u; firstName := firstName u; lastName := lastName u;
     age := age u; email := email u; password := password u;
     resetPasswordToken := resetPasswordToken u;
     resetPasswordExpires := v;
     createdAt := createdAt u; updatedAt := updatedAt u |}.

(** The stamps an update leaves on a document: [createdAt] stays what the
    stored document has, [updatedAt] is the time of the update. *)
Definition restamp (now_ : Z) (old u : Document) : Document :=
  {| _id := _id u; firstName := firstName u; lastName := lastName u;
     age := age u; email := email u; password := password u;
     resetPasswordToken := resetPasswordToken u;
     resetPasswordExpires := resetPasswordExpires u;
     createdAt := createdAt old; updatedAt := now_ |}.

(** A value of a request body. *)
Inductive Value := Str (s : string) | Num (n : Z).

(** [req.body] of the user routes: the keys the handlers read and the
    remaining paths of the schema a client may add; a key is absent
    ([undefined]) or carries a value of the type of its path. *)
Record Body := {
  b_firstName : option string;
  b_lastName : option string;
  b_age : option Z;
  b_email : option string;
  b_password : option string;
  b_confirmPassword : option string;
  b_token : option string;
  b_resetPasswordToken : option string;
  b_resetPasswordExpires : option Z
}.
End User.

(** A JavaScript number, an IEEE double, or [null]. *)
Inductive JsNumber :=
| Null
| Num (value : float).

Module Review.
(** [IReview] with the [_id] of [Document]; [rating] holds [null] when an
    update that runs no validator has put it there. *)
Record Document := {
  _id : string;
  userId : string;
  movieId : string;
  comment : string;
  rating : JsNumber;
  createdAt : Z;
  updatedAt : Z
}.

Definition restamp (now_ : Z) (old r : Document) : Document :=
  {| _id := _id r; userId := userId r; movieId := movieId r;
     comment := comment r; rating := rating r;
     createdAt := createdAt old; updatedAt := now_ |}.

Record Body := {
  b_userId : option string;
  b_movieId : option string;
  b_comment : option string;
  b_rating : option JsNumber
}.
End Review.

Module Favorite.
Record Document := {
  _id : string;
  userId : string;
  movieId : string;
  createdAt : Z;
  updatedAt : Z
}.

Definition restamp (now_ : Z) (old f : Document) : Document :=
  {| _id := _id f; userId := userId f; movieId := movieId f;
     createdAt := createdAt old; updatedAt := now_ |}.

Record Body := {
  b_userId : option string;
  b_movieId : option string
}.
End Favorite.

(** A message handed to the mail service: recipient, sender and the reset
    link its HTML body embeds. *)
Record Mail := {
  mail_to : string;
  mail_from : option string;
  mail_subject : string;
  mail_resetUrl : string
}.

(** Everything a handler can read or change: the collections, the console
    (the operator's log) and the mails sent. *)
Record World := {
  users : list User.Document;
  reviews : list Review.Document;
  favorites : list Favorite.Document;
  console : list string;
  outbox : list Mail
}.

(** [process.env]. *)
Record Env := {
  JWT_SECRET : option string;
  COOKIE_CONTROL : option string;
  NODE_ENV : option string;
  ORIGIN : option string;
  EMAIL_USER : option string
}.

(** What one request takes from its host besides the store: the
    environment, the clock ([Date.now()] in milliseconds, also the time the
    store stamps documents with), the next object identifier of the driver,
    the salt [bcrypt] draws, and the error of the mail service if it
    fails. *)
Record Host := {
  env : Env;
  now : Z;
  objectId : string;
  salt : string;
  sendgrid_error : option string
}.

(* ================================================================== *)
(** ** Computations: state and exceptions *)
(* ================================================================== *)

Inductive Outcome (A : Type) : Type :=
| Ok (a : A)
| Throw (message : string).

Arguments Ok {A} a.
Arguments Throw {A} message.

(** An [async] function: it runs on the world and returns or throws; what
    it did to the world before throwing stays done. *)
Definition M (A : Type) : Type := World -> Outcome A * World.

Definition ret {A} (a : A) : M A := fun w => (Ok a, w).

Definition throw {A} (message : string) : M A := fun w => (Throw message, w).

Definition bind {A B} (m : M A) (k : A -> M B) : M B :=
  fun w =>
    match m w with
    | (Ok a, w') => k a w'
    | (Throw e, w') => (Throw e, w')
    end.

(** [try { m } catch (error) { h error.message }]. *)
Definition try_catch {A} (m : M A) (h : string -> M A) : M A :=
  fun w =>
    match m w with
    | (Ok a, w') => (Ok a, w')
    | (Throw e, w') => h e w'
    end.

(** [console.error] and [console.log]. *)
Definition console_write (line : string) : M unit :=
  fun w =>
    (Ok tt,
     {| users := users w; reviews := reviews w; favorites := favorites w;
        console := console w ++ [line]; outbox := outbox w |}).

Declare Scope js_scope.
Delimit Scope js_scope with js.
Notation "x <- m ;; k" := (bind m (fun x => k))
  (at level 61, m at next level, right associativity) : js_scope.
Notation "m ;; k" := (bind m (fun _ => k))
  (at level 61, right associativity) : js_scope.
Notation "'try' m 'catch' h" := (try_catch m h)
  (at level 62, m at level 61, h at level 61) : js_scope.
#[local] Open Scope js_scope.

(* ================================================================== *)
(** ** Mongoose models *)
(* ================================================================== *)

(** What a schema and its model give the data-access objects: the
    collection, the identifier of a document, the construction and
    validation of a new document (with the identifier and the clock of the
    host), the validators an update can be asked to run, the stamps an
    update leaves, and the key of the unique index besides [_id]. *)
Class Model (T D : Type) := {
  docs : World -> list T;
  with_docs : list T -> World -> World;
  doc_id : T -> string;
  instantiate : Host -> D -> Outcome T;
  validators : T -> option string;
  restamp : Z -> T -> T -> T;
  unique_clash : T -> T -> bool
}.

Section Mongoose.
Context {T D : Type} `{Model T D}.

Definition duplicate_key : string := "E11000 duplicate key error".

Definition has_id (id : string) (d : T) : bool := doc_id d =? id.

Fixpoint replace_first (f : T -> bool) (d : T) (l : list T) : list T :=
  match l with
  | [] => []
  | x :: rest => if f x then d :: rest else x :: replace_first f d rest
  end.

Fixpoint remove_first (f : T -> bool) (l : list T) : list T :=
  match l with
  | [] => []
  | x :: rest => if f x then rest else x :: remove_first f rest
  end.

(** [Model.find(filter)]. *)
Definition find (f : T -> bool) : M (list T) :=
  fun w => (Ok (filter f (docs w)), w).

(** [Model.findOne(filter)]. *)
Definition findOne (f : T -> bool) : M (option T) :=
  fun w => (Ok (List.find f (docs w)), w).

(** [Model.findById(id)]. *)
Definition findById (id : string) : M (option T) := findOne (has_id id).

(** [new Model(data)] then [document.save()]: the document is built and
    validated, and inserted unless an index rejects it. *)
Definition save (h : Host) (data : D) : M T :=
  fun w =>
    match instantiate h data with
    | Throw e => (Throw e, w)
    | Ok d =>
        if existsb (fun x => has_id (doc_id d) x || unique_clash x d)%bool
                   (docs w)
        then (Throw duplicate_key, w)
        else (Ok d, with_docs (docs w ++ [d]) w)
    end.

(** [Model.findOneAndUpdate(filter, update, { new: true, runValidators })]:
    the first match is updated, stamped and returned; [null] when nothing
    matches. *)
Definition findOneAndUpdate (h : Host) (f : T -> bool) (update : T -> T)
    (runValidators : bool) : M (option T) :=
  fun w =>
    match List.find f (docs w) with
    | None => (Ok None, w)
    | Some old =>
        let d := restamp (now h) old (update old) in
        match (if runValidators then validators d else None) with
        | Some e => (Throw e, w)
        | None =>
            if negb (doc_id d =? doc_id old)
            then (Throw "Performing an update on the path '_id' would modify the immutable field '_id'", w)
            else if existsb (fun x => negb (has_id (doc_id old) x)
                                      && unique_clash x d)%bool (docs w)
            then (Throw duplicate_key, w)
            else (Ok (Some d), with_docs (replace_first f d (docs w)) w)
        end
    end.

(** [Model.findByIdAndUpdate(id, update, options)]. *)
Definition findByIdAndUpdate (h : Host) (id : string) (update : T -> T)
    (runValidators : bool) : M (option T) :=
  findOneAndUpdate h (has_id id) update runValidators.

(** [Model.findByIdAndDelete(id)]. *)
Definition findByIdAndDelete (id : string) : M (option T) :=
  fun w =>
    match List.find (has_id id) (docs w) with
    | None => (Ok None, w)
    | Some old => (Ok (Some old), with_docs (remove_first (has_id id) (docs w)) w)
    end.

(* ---------------------------------------------------------------- *)
(** *** [GlobalDao<T>] (dao/GlobalDAO.ts) *)
(* ---------------------------------------------------------------- *)

Definition GlobalDao_create (h : Host) (data : D) : M T :=
  try save h data
  catch (fun e => throw ("Error creating document: " ++ e)).

Definition GlobalDao_read (id : string) : M T :=
  try (document <- findById id ;;
       match document with
       | None => throw "Document not found"
       | Some d => ret d
       end)
  catch (fun e => throw ("Error getting document by ID: " ++ e)).

Definition GlobalDao_update (h : Host) (id : string) (updateData : T -> T)
  : M T :=
  try (updatedDocument <- findByIdAndUpdate h id updateData true ;;
       match updatedDocument with
       | None => throw "Document not found"
       | Some d => ret d
       end)
  catch (fun e => throw ("Error updating document by ID: " ++ e)).

Definition GlobalDao_delete (id : string) : M T :=
  try (deletedDocument <- findByIdAndDelete id ;;
       match deletedDocument with
       | None => throw "Document not found"
       | Some d => ret d
       end)
  catch (fun e => throw ("Error deleting document by ID: " ++ e)).

Definition GlobalDao_getAll (f : T -> bool) : M (list T) :=
  try find f
  catch (fun e => throw ("Error getting documents: " ++ e)).

End Mongoose.

(* ================================================================== *)
(** ** HTTP responses *)
(* ================================================================== *)

Record Cookie := {
  cookie_name : string;
  cookie_value : string;
  httpOnly : bool;
  secure : bool;
  sameSite : string;
  maxAge : Z
}.

(** A review after [populate("userId", "firstName lastName email")]: the
    [userId] path holds the selected fields of the user with that
    identifier, or [null] when there is none. *)
Record Author := {
  author_id : string;
  author_firstName : string;
  author_lastName : string;
  author_email : string
}.

Record PopulatedReview := {
  populated_id : string;
  populated_userId : option Author;
  populated_movieId : string;
  populated_comment : string;
  populated_rating : JsNumber;
  populated_createdAt : Z;
  populated_updatedAt : Z
}.

(** The JSON bodies the handlers send. *)
Inductive Payload :=
| Message (message : string)
| Created (id : string)
| LoggedIn (message id email : string)
| AReview (review : Review.Document)
| Reviews (list_ : list Review.Document)
| PopulatedReviews (list_ : list PopulatedReview)
| AFavorite (favorite : Favorite.Document)
| Favorites (list_ : list Favorite.Document)
| Average (movieId : string) (average : JsNumber).

(** [res.cookie(..)] if any, then [res.status(..).json(..)]. *)
Record Response := {
  status : Z;
  json : Payload;
  cookie : option Cookie
}.

Definition respond (code_ : Z) (body : Payload) : Response :=
  {| status := code_; json := body; cookie := None |}.

(** Mongoose's message for a failed validator. *)
Definition validation_failed (model path reason : string) : string :=
  model ++ " validation failed: " ++ path ++ ": " ++ reason.

Definition required_message (path : string) : string :=
  "Path `" ++ path ++ "` is required.".

(** A filter entry [{ field: value }] whose value comes from a request and
    may be undefined; required string fields are never null. *)
Definition field_is (value : option string) (field : string) : bool :=
  match value with
  | Some v => field =? v
  | None => false
  end.

(* ================================================================== *)
(** ** Reviews: schema (models/Review.ts) and DAO *)
(* ================================================================== *)

(** The [comment] path: required, [minlength] 3, [maxlength] 1000. *)
Definition comment_error (c : string) : option string :=
  if c =? "" then Some (required_message "comment")
  else if Nat.ltb (String.length c) 3 then Some "El comentario es muy corto."
  else if Nat.ltb 1000 (String.length c)
       then Some "El comentario es demasiado largo."
  else None.

(** The [rating] path: required, [min] 1, [max] 5, compared as doubles. *)
Definition rating_error (r : JsNumber) : option string :=
  match r with
  | Null => Some (required_message "rating")
  | Num v =>
      if negb (1 <=? v)%float then Some "La calificación mínima es 1"
      else if negb (v <=? 5)%float then Some "La calificación máxima es 5"
      else None
  end.

Definition ReviewSchema_validators (d : Review.Document) : option string :=
  if Review.userId d =? "" then
    Some (validation_failed "Review" "userId" (required_message "userId"))
  else if Review.movieId d =? "" then
    Some (validation_failed "Review" "movieId" (required_message "movieId"))
  else match comment_error (Review.comment d) with
       | Some e => Some (validation_failed "Review" "comment" e)
       | None =>
           match rating_error (Review.rating d) with
           | Some e => Some (validation_failed "Review" "rating" e)
           | None => None
           end
       end.

(** An absent string path and an empty one both fail [required]. *)
Definition or_empty (v : option string) : string :=
  match v with
  | Some s => s
  | None => ""
  end.

(** [new Review(data)]: the paths are cast and their setters run
    ([trim] on [comment]), then the validators of [save()]. *)
Definition ReviewSchema_instantiate (h : Host) (data : Review.Body)
  : Outcome Review.Document :=
  let d := {| Review._id := objectId h;
              Review.userId := or_empty (Review.b_userId data);
              Review.movieId := or_empty (Review.b_movieId data);
              Review.comment := trim (or_empty (Review.b_comment data));
              Review.rating := match Review.b_rating data with
                               | Some r => r
                               | None => Null
                               end;
              Review.createdAt := now h;
              Review.updatedAt := now h |} in
  match ReviewSchema_validators d with
  | Some e => Throw e
  | None => Ok d
  end.

(** The unique index [{ userId: 1, movieId: 1 }]. *)
Definition Review_same_pair (a b : Review.Document) : bool :=
  ((Review.userId a =? Review.userId b)
   && (Review.movieId a =? Review.movieId b))%bool.

Definition set_reviews (l : list Review.Document) (w : World) : World :=
  {| users := users w; reviews := l; favorites := favorites w;
     console := console w; outbox := outbox w |}.

#[export] Instance ReviewModel : Model Review.Document Review.Body := {
  docs := reviews;
  with_docs := set_reviews;
  doc_id := Review._id;
  instantiate := ReviewSchema_instantiate;
  validators := ReviewSchema_validators;
  restamp := Review.restamp;
  unique_clash := Review_same_pair
}.

(** The update [data] of [findOneAndUpdate]: the paths present in the
    request body are set, through their setters. *)
Definition Review_set (data : Review.Body) (old : Review.Document)
  : Review.Document :=
  {| Review._id := Review._id old;
     Review.userId :=
       match Review.b_userId data with Some v => v | None => Review.userId old end;
     Review.movieId :=
       match Review.b_movieId data with Some v => v | None => Review.movieId old end;
     Review.comment :=
       match Review.b_comment data with Some v => trim v | None => Review.comment old end;
     Review.rating :=
       match Review.b_rating data with Some v => v | None => Review.rating old end;
     Review.createdAt := Review.createdAt old;
     Review.updatedAt := Review.updatedAt old |}.

(** The filter [{ userId, movieId }]. *)
Definition by_user_and_movie (userId movieId : option string)
    (r : Review.Document) : bool :=
  (field_is userId (Review.userId r) && field_is movieId (Review.movieId r))%bool.

Definition ReviewDAO_create : Host -> Review.Body -> M Review.Document :=
  GlobalDao_create.

Definition ReviewDAO_delete : string -> M Review.Document :=
  GlobalDao_delete.

(** [populate("userId", "firstName lastName email")] on one review, against
    the users collection. *)
Definition author_of (u : User.Document) : Author :=
  {| author_id := User._id u;
     author_firstName := User.firstName u;
     author_lastName := User.lastName u;
     author_email := User.email u |}.

Definition populate_userId (users_ : list User.Document) (r : Review.Document)
  : PopulatedReview :=
  {| populated_id := Review._id r;
     populated_userId :=
       option_map author_of
         (List.find (fun u => User._id u =? Review.userId r) users_);
     populated_movieId := Review.movieId r;
     populated_comment := Review.comment r;
     populated_rating := Review.rating r;
     populated_createdAt := Review.createdAt r;
     populated_updatedAt := Review.updatedAt r |}.

Definition populate (l : list Review.Document) : M (list PopulatedReview) :=
  fun w => (Ok (map (populate_userId (users w)) l), w).

Definition ReviewDAO_getByMovieId (movieId : string) : M (list PopulatedReview) :=
  try (found <- find (fun r => Review.movieId r =? movieId) ;;
       populate found)
  catch (fun e =>
    throw ("Error getting reviews for movie " ++ movieId ++ ": " ++ e)).

Definition ReviewDAO_getByUserId (userId : string) : M (list Review.Document) :=
  try find (fun r => Review.userId r =? userId)
  catch (fun e =>
    throw ("Error getting reviews for user " ++ userId ++ ": " ++ e)).

(** One group of [$group], with its [$avg]. *)
Record Group := {
  group_id : string;
  average : JsNumber
}.

(** The values of a group that are numbers. *)
Definition numeric (l : list JsNumber) : list float :=
  flat_map (fun r => match r with
                     | Num v => [v]
                     | Null => []
                     end) l.

(** The sum of doubles and their number as a double. *)
Definition sum_doubles (l : list float) : float :=
  fold_left PrimFloat.add l 0%float.

Definition count_doubles (l : list float) : float :=
  fold_left (fun n _ => (n + 1)%float) l 0%float.

(** [$avg]: the numeric values are added and the sum is divided by their
    number, in doubles; values that are not numbers are passed over, and
    the result is [null] when the group holds no number. *)
Definition avg (l : list JsNumber) : JsNumber :=
  match numeric l with
  | [] => Null
  | values => Num (sum_doubles values / count_doubles values)%float
  end.

(** [Review.aggregate([{ $match: { movieId } }, { $group: { _id: "$movieId",
    average: { $avg: "$rating" } } }])]: the documents that pass [$match]
    share their [movieId] and form one group, or none. *)
Definition Review_aggregate (movieId : string) : M (list Group) :=
  matched <- find (fun r => Review.movieId r =? movieId) ;;
  match matched with
  | [] => ret []
  | _ :: _ =>
      ret [ {| group_id := movieId; average := avg (map Review.rating matched) |} ]
  end.

Definition ReviewDAO_getAverageRating (movieId : string) : M JsNumber :=
  try (result <- Review_aggregate movieId ;;
       match result with
       | first :: _ => ret (average first)
       | [] => ret (Num 0)
       end)
  catch (fun e => throw ("Error calculating average rating: " ++ e)).

Definition ReviewDAO_findByUserAndMovie (userId movieId : option string)
  : M (option Review.Document) :=
  findOne (by_user_and_movie userId movieId).

Definition ReviewDAO_updateByUserAndMovie (h : Host)
    (userId movieId : option string) (data : Review.Body)
  : M (option Review.Document) :=
  try findOneAndUpdate h (by_user_and_movie userId movieId) (Review_set data) false
  catch (fun e => throw ("Error updating review: " ++ e)).

(* ================================================================== *)
(** ** ReviewController *)
(* ================================================================== *)

Definition ReviewController_create (h : Host) (body : Review.Body) : M Response :=
  try (let userId := Review.b_userId body in
       let movieId := Review.b_movieId body in
       let comment := Review.b_comment body in
       let rating := Review.b_rating body in
       if (negb (truthy userId) || negb (truthy movieId) || negb (truthy comment)
           || match rating with
              | None | Some Null => true
              | Some (Num _) => false
              end)%bool
       then ret (respond 400 (Message "Faltan campos obligatorios"))
       else
         existingReview <- ReviewDAO_findByUserAndMovie userId movieId ;;
         match existingReview with
         | Some _ => ret (respond 409 (Message "Ya has reseñado esta película"))
         | None =>
             review <- ReviewDAO_create h body ;;
             ret (respond 201 (AReview review))
         end)
  catch (fun e => ret (respond 500 (Message e))).

Definition ReviewController_getByMovie (movieId : string) : M Response :=
  try (reviews_ <- ReviewDAO_getByMovieId movieId ;;
       match reviews_ with
       | [] => ret (respond 404 (Message "No hay reseñas para esta película"))
       | _ => ret (respond 200 (PopulatedReviews reviews_))
       end)
  catch (fun e => ret (respond 500 (Message e))).

Definition ReviewController_getByUser (userId : string) : M Response :=
  try (reviews_ <- ReviewDAO_getByUserId userId ;;
       match reviews_ with
       | [] => ret (respond 404 (Message "Este usuario no ha hecho reseñas"))
       | _ => ret (respond 200 (Reviews reviews_))
       end)
  catch (fun e => ret (respond 500 (Message e))).

Definition ReviewController_getAverageRating (movieId : string) : M Response :=
  try (average_ <- ReviewDAO_getAverageRating movieId ;;
       ret (respond 200 (Average movieId average_)))
  catch (fun e => ret (respond 500 (Message e))).

Definition ReviewController_update (h : Host) (body : Review.Body)
  : M Response :=
  try (review <- ReviewDAO_updateByUserAndMovie h
                   (Review.b_userId body) (Review.b_movieId body) body ;;
       match review with
       | None => ret (respond 404 (Message "No se encontró la reseña"))
       | Some r => ret (respond 200 (AReview r))
       end)
  catch (fun e => ret (respond 500 (Message e))).

Definition ReviewController_delete (id : string) : M Response :=
  try (ReviewDAO_delete id ;;
       ret (respond 200 (Message "Reseña eliminada correctamente")))
  catch (fun e => ret (respond 500 (Message e))).

(* ================================================================== *)
(** ** Favorites: schema (models/Favorite.ts), DAO and controller *)
(* ================================================================== *)

Definition FavoriteSchema_validators (d : Favorite.Document) : option string :=
  if Favorite.userId d =? "" then
    Some (validation_failed "Favorite" "userId" (required_message "userId"))
  else if Favorite.movieId d =? "" then
    Some (validation_failed "Favorite" "movieId" (required_message "movieId"))
  else None.

Definition FavoriteSchema_instantiate (h : Host) (data : Favorite.Body)
  : Outcome Favorite.Document :=
  let d := {| Favorite._id := objectId h;
              Favorite.userId := or_empty (Favorite.b_userId data);
              Favorite.movieId := or_empty (Favorite.b_movieId data);
              Favorite.createdAt := now h;
              Favorite.updatedAt := now h |} in
  match FavoriteSchema_validators d with
  | Some e => Throw e
  | None => Ok d
  end.

Definition set_favorites (l : list Favorite.Document) (w : World) : World :=
  {| users := users w; reviews := reviews w; favorites := l;
     console := console w; outbox := outbox w |}.

(** The schema declares no unique index. *)
#[export] Instance FavoriteModel : Model Favorite.Document Favorite.Body := {
  docs := favorites;
  with_docs := set_favorites;
  doc_id := Favorite._id;
  instantiate := FavoriteSchema_instantiate;
  validators := FavoriteSchema_validators;
  restamp := Favorite.restamp;
  unique_clash := fun _ _ => false
}.

Definition FavoriteDAO_create : Host -> Favorite.Body -> M Favorite.Document :=
  GlobalDao_create.

Definition FavoriteDAO_delete : string -> M Favorite.Document :=
  GlobalDao_delete.

(** [find(query).populate("movieId")]: the [movieId] path is a string
    without [ref], there is no model to populate it from, and the
    documents come back as they are stored. *)
Definition FavoriteDAO_getByUser (userId : string) : M (list Favorite.Document) :=
  try find (fun f => Favorite.userId f =? userId)
  catch (fun e =>
    console_write ("Error in FavoriteDao.getByUser: " ++ e) ;;
    throw "Failed to get favorites by user").

(** Truthiness of a document a DAO method returned: the methods typed
    [Promise<T>] return an object, and every object is truthy. *)
Definition is_truthy {T : Type} (document : T) : bool := true.

(** [process.env.NODE_ENV === "development"]. *)
Definition development (h : Host) : bool :=
  match NODE_ENV (env h) with
  | Some v => v =? "development"
  | None => false
  end.

(** The [catch] block the favorite and user handlers share: the error goes
    to the console in development, the client gets [generic]. *)
Definition internal_error (h : Host) (label generic : string) (e : string)
  : M Response :=
  (if development h then console_write (label ++ e) else ret tt) ;;
  ret (respond 500 (Message generic)).

Definition FavoriteController_create (h : Host) (body : Favorite.Body) : M Response :=
  try (if (negb (truthy (Favorite.b_userId body))
           || negb (truthy (Favorite.b_movieId body)))%bool
       then ret (respond 400 (Message "Missing userId or movieId"))
       else
         favorite <- FavoriteDAO_create h body ;;
         ret (respond 201 (AFavorite favorite)))
  catch (internal_error h "Error creating favorite: " "Internal Server Error").

Definition FavoriteController_getByUser (h : Host) (userId : string) : M Response :=
  try (if userId =? ""
       then ret (respond 400 (Message "Missing userId parameter"))
       else
         favorites_ <- FavoriteDAO_getByUser userId ;;
         ret (respond 200 (Favorites favorites_)))
  catch (internal_error h "Error getting favorites: " "Internal Server Error").

Definition FavoriteController_delete (h : Host) (id : string) : M Response :=
  try (if id =? ""
       then ret (respond 400 (Message "Missing favorite ID"))
       else
         deleted <- FavoriteDAO_delete id ;;
         if negb (is_truthy deleted)
         then ret (respond 404 (Message "Favorite not found"))
         else ret (respond 200 (Message "Favorite deleted successfully")))
  catch (internal_error h "Error deleting favorite: " "Internal Server Error").

(* ================================================================== *)
(** ** Users: schema and DAO *)
(* ================================================================== *)

(** The [password] path: required, [minlength] 8, [match] the password
    expression. *)
Definition password_error (p : string) : option string :=
  if p =? "" then Some (required_message "password")
  else if Nat.ltb (String.length p) 8
       then Some "Path `password` is shorter than the minimum allowed length (8)."
  else if negb (passwordRegex_test p) then Some "Path `password` is invalid."
  else None.

Definition UserSchema_validators (d : User.Document) : option string :=
  if User.firstName d =? "" then
    Some (validation_failed "User" "firstName" (required_message "firstName"))
  else if User.lastName d =? "" then
    Some (validation_failed "User" "lastName" (required_message "lastName"))
  else if (User.age d <? 13)%Z then
    Some (validation_failed "User" "age"
            "Path `age` is less than minimum allowed value (13).")
  else if User.email d =? "" then
    Some (validation_failed "User" "email" (required_message "email"))
  else match password_error (User.password d) with
       | Some e => Some (validation_failed "User" "password" e)
       | None => None
       end.

(** [new User(data)]: the paths of the schema present in [data] are set,
    the reset fields default to [null]; then the validators of [save()]. *)
Definition UserSchema_instantiate (h : Host) (data : User.Body)
  : Outcome User.Document :=
  match User.b_age data with
  | None => Throw (validation_failed "User" "age" (required_message "age"))
  | Some a =>
      let d := {| User._id := objectId h;
                  User.firstName := or_empty (User.b_firstName data);
                  User.lastName := or_empty (User.b_lastName data);
                  User.age := a;
                  User.email := or_empty (User.b_email data);
                  User.password := or_empty (User.b_password data);
                  User.resetPasswordToken := User.b_resetPasswordToken data;
                  User.resetPasswordExpires := User.b_resetPasswordExpires data;
                  User.createdAt := now h;
                  User.updatedAt := now h |} in
      match UserSchema_validators d with
      | Some e => Throw e
      | None => Ok d
      end
  end.

(** The unique index on [email]. *)
Definition User_same_email (a b : User.Document) : bool :=
  User.email a =? User.email b.

Definition set_users (l : list User.Document) (w : World) : World :=
  {| users := l; reviews := reviews w; favorites := favorites w;
     console := console w; outbox := outbox w |}.

#[export] Instance UserModel : Model User.Document User.Body := {
  docs := users;
  with_docs := set_users;
  doc_id := User._id;
  instantiate := UserSchema_instantiate;
  validators := UserSchema_validators;
  restamp := User.restamp;
  unique_clash := User_same_email
}.

Definition UserDAO_create : Host -> User.Body -> M User.Document :=
  GlobalDao_create.

Definition UserDAO_read : string -> M User.Document := GlobalDao_read.

(** Every caller passes the document it read and changed as the update:
    each path is set to the value the document holds. *)
Definition UserDAO_update (h : Host) (id : string) (user : User.Document)
  : M User.Document :=
  GlobalDao_update h id (fun _ => user).

Definition UserDAO_readByEmail (emailToSearch : option string)
  : M (option User.Document) :=
  try findOne (fun u => field_is emailToSearch (User.email u))
  catch (fun e => throw ("Error getting document by Email: " ++ e)).

(** A filter entry on a path that can hold [null]: an undefined value
    reaches the store as [null]. *)
Definition nullable_is (value field : option string) : bool :=
  match value, field with
  | Some v, Some f => f =? v
  | None, None => true
  | _, _ => false
  end.

(** [{ $gt: bound }] on a date that can be [null]. *)
Definition date_gt (bound : Z) (field : option Z) : bool :=
  match field with
  | Some d => (bound <? d)%Z
  | None => false
  end.

Definition reset_filter (now_ : Z) (email token : option string)
    (u : User.Document) : bool :=
  (field_is email (User.email u)
   && nullable_is token (User.resetPasswordToken u)
   && date_gt now_ (User.resetPasswordExpires u))%bool.

Definition UserDAO_readByResetToken (h : Host) (email token : option string)
  : M (option User.Document) :=
  try findOne (reset_filter (now h) email token)
  catch (fun e => throw ("Error getting document by reset token: " ++ e)).

(* ================================================================== *)
(** ** The libraries the authentication code calls *)
(* ================================================================== *)

(** [bcrypt] and [jsonwebtoken], as the code uses them.
    - [bcrypt_hash password salt] is [bcrypt.hash(password, 10)] with the
      salt it drew; [bcrypt_compare password hash] is [bcrypt.compare].
    - [jwt_sign userId secret expiresIn clock] is
      [jwt.sign({ userId }, secret, { expiresIn })] at [Date.now() = clock],
      [expiresIn] in seconds; [jwt_verify token secret clock] is the
      [userId] of the payload [jwt.verify(token, secret)] returns, [None]
      when it throws. *)
Class Crypto := {
  bcrypt_hash : string -> string -> string;
  bcrypt_compare : string -> string -> bool;
  jwt_sign : string -> string -> Z -> Z -> string;
  jwt_verify : string -> string -> Z -> option string
}.

(** What the two libraries promise: a password matches its own hash; a
    token verifies under the secret that signed it until the second it
    expires in, and yields the payload signed; a token is not the empty
    string. *)
Class CryptoLaws (C : Crypto) : Prop := {
  compare_hash : forall password salt_,
    bcrypt_compare password (bcrypt_hash password salt_) = true;
  verify_sign : forall userId secret expiresIn clock clock',
    (clock' / 1000 < clock / 1000 + expiresIn)%Z ->
    jwt_verify (jwt_sign userId secret expiresIn clock) secret clock'
    = Some userId;
  sign_not_empty : forall userId secret expiresIn clock,
    jwt_sign userId secret expiresIn clock <> ""
}.

Section Authentication.
Context {C : Crypto}.

(* ------------------------------------------------------------------ *)
(** *** middlewares/authMiddleware.ts *)
(* ------------------------------------------------------------------ *)

(** The middleware answers itself or calls [next()] with [req.userId]. *)
Inductive Authenticated :=
| Rejected (response : Response)
| Next (userId : string).

(** The [try] block throws when the secret is missing and when
    [jwt.verify] throws; the [catch] block answers both the same way. *)
Definition authenticateToken (h : Host) (token : option string) : Authenticated :=
  if negb (truthy token)
  then Rejected (respond 401 (Message "No se proporcionó token de autenticación"))
  else
    let jwtSecret := JWT_SECRET (env h) in
    if negb (truthy jwtSecret)
    then Rejected (respond 401 (Message "Token inválido o expirado"))
    else
      match jwt_verify (or_empty token) (or_empty jwtSecret) (now h) with
      | Some userId => Next userId
      | None => Rejected (respond 401 (Message "Token inválido o expirado"))
      end.

(* ------------------------------------------------------------------ *)
(** *** UserController *)
(* ------------------------------------------------------------------ *)

Definition delete_confirmPassword (body : User.Body) : User.Body :=
  {| User.b_firstName := User.b_firstName body;
     User.b_lastName := User.b_lastName body;
     User.b_age := User.b_age body;
     User.b_email := User.b_email body;
     User.b_password := User.b_password body;
     User.b_confirmPassword := None;
     User.b_token := User.b_token body;
     User.b_resetPasswordToken := User.b_resetPasswordToken body;
     User.b_resetPasswordExpires := User.b_resetPasswordExpires body |}.

Definition set_body_password (body : User.Body) (p : string) : User.Body :=
  {| User.b_firstName := User.b_firstName body;
     User.b_lastName := User.b_lastName body;
     User.b_age := User.b_age body;
     User.b_email := User.b_email body;
     User.b_password := Some p;
     User.b_confirmPassword := User.b_confirmPassword body;
     User.b_token := User.b_token body;
     User.b_resetPasswordToken := User.b_resetPasswordToken body;
     User.b_resetPasswordExpires := User.b_resetPasswordExpires body |}.

(** [passwordValidation(req)]: the message, or [null], and the request
    body as the call leaves it. *)
Definition passwordValidation (body : User.Body) : option string * User.Body :=
  if negb (loose_eq (User.b_password body) (User.b_confirmPassword body))
  then (Some "La contraseña y la confirmación de contraseña no coinciden", body)
  else
    let body := delete_confirmPassword body in
    if negb (passwordRegex_test (to_js_string (User.b_password body)))
    then (Some "La contraseña no es válida", body)
    else (None, body).

(** [hashPassword(req)]; [bcrypt.hash] throws on an undefined password. *)
Definition hashPassword (h : Host) (body : User.Body) : M User.Body :=
  match User.b_password body with
  | Some p => ret (set_body_password body (bcrypt_hash p (salt h)))
  | None => throw "data and salt arguments required"
  end.

(** [bcrypt.compare(data, hash)]; it throws on undefined [data]. *)
Definition compare_password (data : option string) (hash : string) : M bool :=
  match data with
  | Some p => ret (bcrypt_compare p hash)
  | None => throw "data and hash arguments required"
  end.

Definition UserController_create (h : Host) (body : User.Body) : M Response :=
  try (let (passwordError, body) := passwordValidation body in
       match passwordError with
       | Some e => ret (respond 400 (Message e))
       | None =>
           existingUser <- UserDAO_readByEmail (User.b_email body) ;;
           match existingUser with
           | Some _ => ret (respond 409 (Message "Correo electrónico ya en uso"))
           | None =>
               body <- hashPassword h body ;;
               newUser <- UserDAO_create h body ;;
               ret (respond 201 (Created (User._id newUser)))
           end
       end)
  catch (internal_error h "" "Internal Server Error").

(** [String.prototype.toLowerCase] on the letters A to Z. *)
Definition lower (c : ascii) : ascii :=
  if is_upper c then ascii_of_nat (code c + 32) else c.

Fixpoint toLowerCase (s : string) : string :=
  match s with
  | EmptyString => EmptyString
  | String c rest => String (lower c) (toLowerCase rest)
  end.

(** The [sameSite] option as the cookie serializer of Express takes it: a
    string is accepted when, in lower case, it is strict, lax or none; on
    any other it throws. *)
Definition sameSite_valid (v : string) : bool :=
  ((toLowerCase v =? "strict") || (toLowerCase v =? "lax")
   || (toLowerCase v =? "none"))%bool.

(** [res.cookie(name, value, options)]: the cookie is serialized and set,
    or the serializer throws. *)
Definition res_cookie (c : Cookie) : M Cookie :=
  if sameSite_valid (sameSite c) then ret c
  else throw "option sameSite is invalid".

Definition token_cookie (h : Host) (token sameSite_ : string) : Cookie :=
  {| cookie_name := "token";
     cookie_value := token;
     httpOnly := true;
     secure := match NODE_ENV (env h) with
               | Some v => v =? "production"
               | None => false
               end;
     sameSite := sameSite_;
     maxAge := 2 * 60 * 60 * 1000 |}.

Definition UserController_login (h : Host) (body : User.Body) : M Response :=
  try (user <- UserDAO_readByEmail (User.b_email body) ;;
       match user with
       | None => ret (respond 401 (Message "Correo electrónico o contraseña inválidos"))
       | Some user =>
           passwordMatch <- compare_password (User.b_password body)
                              (User.password user) ;;
           if negb passwordMatch
           then ret (respond 401 (Message "Correo electrónico o contraseña inválidos"))
           else if negb (truthy (JWT_SECRET (env h)))
           then throw "JWT_SECRET no está definido en las variables de entorno"
           else
             let token := jwt_sign (User._id user) (or_empty (JWT_SECRET (env h)))
                            (2 * 3600) (now h) in
             if negb (truthy (COOKIE_CONTROL (env h)))
             then throw "COOKIE_CONTROL no está definido en las variables de entorno"
             else
               set_ <- res_cookie (token_cookie h token
                                     (or_empty (COOKIE_CONTROL (env h)))) ;;
               ret {| status := 200;
                      json := LoggedIn "Login successful" (User._id user)
                                (User.email user);
                      cookie := Some set_ |}
       end)
  catch (internal_error h "" "Internal Server Error").

(** [process.env.ORIGIN?.split(",").map(url => url.trim()).filter(Boolean)];
    an undefined [ORIGIN] gives no origin at all. *)
Definition origins (h : Host) : list string :=
  match ORIGIN (env h) with
  | Some o => filter (fun url => negb (url =? "")) (map trim (split_comma o))
  | None => []
  end.

(** [sgMail.send(msg)]. *)
Definition sgMail_send (h : Host) (msg : Mail) : M unit :=
  fun w =>
    match sendgrid_error h with
    | Some e => (Throw e, w)
    | None =>
        (Ok tt,
         {| users := users w; reviews := reviews w; favorites := favorites w;
            console := console w; outbox := outbox w ++ [msg] |})
    end.

Definition UserController_forgotPassword (h : Host) (body : User.Body)
  : M Response :=
  try (user <- UserDAO_readByEmail (User.b_email body) ;;
       match user with
       | None =>
           ret (respond 202
                  (Message "If the email is registered, you will receive a password reset email"))
       | Some user =>
           if negb (truthy (JWT_SECRET (env h)))
           then throw "JWT_SECRET no está definido en las variables de entorno"
           else
             let token := jwt_sign (User._id user) (or_empty (JWT_SECRET (env h)))
                            3600 (now h) in
             let user := User.set_resetPasswordToken (Some token) user in
             let user := User.set_resetPasswordExpires
                           (Some (now h + 3600000)%Z) user in
             UserDAO_update h (User._id user) user ;;
             match origins h with
             | [] => throw "No se encontró ninguna URL válida en la variable ORIGIN"
             | baseUrl :: _ =>
                 let resetUrl := baseUrl ++ "/#/recover-password?token=" ++ token
                                 ++ "&email=" ++ User.email user in
                 sgMail_send h {| mail_to := User.email user;
                                  mail_from := EMAIL_USER (env h);
                                  mail_subject := "Recuperar contraseña - Lumix";
                                  mail_resetUrl := resetUrl |} ;;
                 console_write (" Correo enviado exitosamente a: " ++ User.email user) ;;
                 ret (respond 200 (Message "Password reset email sent"))
             end
       end)
  catch (fun e =>
    console_write ("Forgot password error: " ++ e) ;;
    ret (respond 500 (Message "Internal Server Error"))).

Definition UserController_resetPassword (h : Host) (body : User.Body)
  : M Response :=
  try (user <- UserDAO_readByResetToken h (User.b_email body) (User.b_token body) ;;
       match user with
       | None => ret (respond 400 (Message "Token inválido o expirado"))
       | Some user =>
           let (passwordError, body) := passwordValidation body in
           match passwordError with
           | Some e => ret (respond 400 (Message e))
           | None =>
               body <- hashPassword h body ;;
               let user := User.set_password (or_empty (User.b_password body))
                             user in
               let user := User.set_resetPasswordToken None user in
               let user := User.set_resetPasswordExpires None user in
               UserDAO_update h (User._id user) user ;;
               ret (respond 200 (Message "Password has been reset successfully"))
           end
       end)
  catch (internal_error h "" "Inténtalo de nuevo más tarde").

(** [req.body[field]]. *)
Definition body_get (body : User.Body) (field : string) : option User.Value :=
  if field =? "firstName" then option_map User.Str (User.b_firstName body)
  else if field =? "lastName" then option_map User.Str (User.b_lastName body)
  else if field =? "age" then option_map User.Num (User.b_age body)
  else if field =? "email" then option_map User.Str (User.b_email body)
  else if field =? "password" then option_map User.Str (User.b_password body)
  else if field =? "confirmPassword"
       then option_map User.Str (User.b_confirmPassword body)
  else if field =? "token" then option_map User.Str (User.b_token body)
  else if field =? "resetPasswordToken"
       then option_map User.Str (User.b_resetPasswordToken body)
  else if field =? "resetPasswordExpires"
       then option_map User.Num (User.b_resetPasswordExpires body)
  else None.

(** [user[field] = value] on a user document: a path of the schema takes
    the value, any other key is not part of the document. *)
Definition set_path (user : User.Document) (field : string)
    (value : option User.Value) : User.Document :=
  match value with
  | Some (User.Str s) =>
      if field =? "firstName" then User.set_firstName s user
      else if field =? "lastName" then User.set_lastName s user
      else if field =? "email" then User.set_email s user
      else if field =? "password" then User.set_password s user
      else if field =? "resetPasswordToken"
           then User.set_resetPasswordToken (Some s) user
      else user
  | Some (User.Num n) =>
      if field =? "age" then User.set_age n user
      else if field =? "resetPasswordExpires"
           then User.set_resetPasswordExpires (Some n) user
      else user
  | None => user
  end.

(** [Object.assign(user, updates)], [updates] as its list of entries. *)
Definition Object_assign (user : User.Document)
    (updates : list (string * option User.Value)) : User.Document :=
  fold_left (fun u entry => set_path u (fst entry) (snd entry)) updates user.

Definition allowedFields : list string :=
  ["firstName"; "lastName"; "age"; "email"].

(** [req.userId] is what the middleware left on the request, if it ran. *)
Definition UserController_editLoggedUser (h : Host) (userId : option string)
    (body : User.Body) : M Response :=
  try (if negb (truthy userId)
       then ret (respond 401 (Message "No token provided"))
       else
         user <- UserDAO_read (or_empty userId) ;;
         if negb (is_truthy user)
         then ret (respond 404 (Message "User not found"))
         else
           let updates :=
             map (fun field => (field, body_get body field))
                 (filter (fun field =>
                            match body_get body field with
                            | Some _ => true
                            | None => false
                            end) allowedFields) in
           let user := Object_assign user updates in
           UserDAO_update h (User._id user) user ;;
           ret (respond 200 (Message "User information updated successfully")))
  catch (fun e =>
    console_write e ;;
    ret (respond 500 (Message "Error getting user information"))).

End Authentication.

(* ================================================================== *)
(** ** A reference implementation of the two libraries *)
(* ================================================================== *)

(** An executable stand-in for [bcrypt] and [jsonwebtoken], used to run the
    handlers on concrete requests: a hash is the salt followed by the
    password, a token is the secret, the expiry second in unary and the
    user id, separated by dots. *)
Module Reference.

Fixpoint strip_prefix (p s : string) : option string :=
  match p, s with
  | EmptyString, _ => Some s
  | String a p', String b s' => if Ascii.eqb a b then strip_prefix p' s' else None
  | String _ _, EmptyString => None
  end.

Fixpoint strip_any_prefix (n : nat) (s : string) : string :=
  match n, s with
  | S n', String _ s' => strip_any_prefix n' s'
  | _, _ => s
  end.

Definition hash (password salt_ : string) : string := salt_ ++ password.

Definition compare (password hash_ : string) : bool :=
  strip_any_prefix (String.length hash_ - String.length password) hash_ =? password.

Fixpoint unary (n : nat) : string :=
  match n with
  | O => EmptyString
  | S n' => String "1" (unary n')
  end.

Fixpoint read_unary (s : string) : nat * string :=
  match s with
  | String "1" rest => let (n, tail) := read_unary rest in (S n, tail)
  | _ => (O, s)
  end.

Definition sign (userId secret : string) (expiresIn clock : Z) : string :=
  secret ++ "." ++ unary (Z.to_nat (clock / 1000 + expiresIn)) ++ "." ++ userId.

Definition verify (token secret : string) (clock : Z) : option string :=
  match strip_prefix (secret ++ ".") token with
  | Some rest =>
      match read_unary rest with
      | (exp, String "." userId) =>
          if (clock / 1000 <? Z.of_nat exp)%Z then Some userId else None
      | _ => None
      end
  | None => None
  end.

#[export] Instance crypto : Crypto := {
  bcrypt_hash := hash;
  bcrypt_compare := compare;
  jwt_sign := sign;
  jwt_verify := verify
}.

End Reference.

(* ================================================================== *)
(** ** Sample data *)
(* ================================================================== *)

(** A small store, a host and a few requests on which the handlers are
    run. *)
Module Sample.

Definition ana : User.Document :=
  {| User._id := "u1"; User.firstName := "Ana"; User.lastName := "Diaz";
     User.age := 30; User.email := "ana@lumix.co";
     User.password := Reference.hash "Secret123!" "$2b$10$";
     User.resetPasswordToken := None; User.resetPasswordExpires := None;
     User.createdAt := 1000; User.updatedAt := 1000 |}.

Definition luis : User.Document :=
  {| User._id := "u2"; User.firstName := "Luis"; User.lastName := "Mora";
     User.age := 41; User.email := "luis@lumix.co";
     User.password := Reference.hash "Otr0Secreto?" "$2b$10$";
     User.resetPasswordToken := None; User.resetPasswordExpires := None;
     User.createdAt := 1000; User.updatedAt := 1000 |}.

(** Ana after she asked for a password reset at [now = 5000]. *)
Definition ana_pending : User.Document :=
  {| User._id := "u1"; User.firstName := "Ana"; User.lastName := "Diaz";
     User.age := 30; User.email := "ana@lumix.co";
     User.password := Reference.hash "Secret123!" "$2b$10$";
     User.resetPasswordToken := Some "reset-token-1";
     User.resetPasswordExpires := Some 3605000%Z;
     User.createdAt := 1000; User.updatedAt := 5000 |}.

Definition review1 : Review.Document :=
  {| Review._id := "r1"; Review.userId := "u1"; Review.movieId := "m1";
     Review.comment := "Great movie"; Review.rating := Num 3;
     Review.createdAt := 2000; Review.updatedAt := 2000 |}.

Definition review2 : Review.Document :=
  {| Review._id := "r2"; Review.userId := "u2"; Review.movieId := "m1";
     Review.comment := "Loved it"; Review.rating := Num 5;
     Review.createdAt := 3000; Review.updatedAt := 3000 |}.

Definition review3 : Review.Document :=
  {| Review._id := "r3"; Review.userId := "u1"; Review.movieId := "m2";
     Review.comment := "Too long"; Review.rating := Num 2;
     Review.createdAt := 4000; Review.updatedAt := 4000 |}.

Definition favorite1 : Favorite.Document :=
  {| Favorite._id := "f1"; Favorite.userId := "u1"; Favorite.movieId := "m2";
     Favorite.createdAt := 4500; Favorite.updatedAt := 4500 |}.

Definition world : World :=
  {| users := [ana; luis];
     reviews := [review1; review2; review3];
     favorites := [favorite1];
     console := [];
     outbox := [] |}.

Definition world_pending : World :=
  {| users := [ana_pending; luis];
     reviews := [review1; review2; review3];
     favorites := [favorite1];
     console := [];
     outbox := [] |}.

Definition host : Host :=
  {| env := {| JWT_SECRET := Some "s3cret";
               COOKIE_CONTROL := Some "lax";
               NODE_ENV := Some "production";
               ORIGIN := Some "http://localhost:5173, https://lumix.app";
               EMAIL_USER := Some "no-reply@lumix.app" |};
     now := 5000;
     objectId := "x1";
     salt := "$2b$10$";
     sendgrid_error := None |}.

(** A host on which [COOKIE_CONTROL] is not set. *)
Definition host_without_cookie_mode : Host :=
  {| env := {| JWT_SECRET := Some "s3cret";
               COOKIE_CONTROL := None;
               NODE_ENV := Some "production";
               ORIGIN := Some "http://localhost:5173, https://lumix.app";
               EMAIL_USER := Some "no-reply@lumix.app" |};
     now := 5000;
     objectId := "x1";
     salt := "$2b$10$";
     sendgrid_error := None |}.

(** The same host one second later. *)
Definition host_later : Host :=
  {| env := env host; now := 6000; objectId := "x2"; salt := "$2b$11$";
     sendgrid_error := None |}.

Definition user_request (email_ password_ : string) (token : option string)
  : User.Body :=
  {| User.b_firstName := None; User.b_lastName := None; User.b_age := None;
     User.b_email := Some email_;
     User.b_password := Some password_;
     User.b_confirmPassword := Some password_;
     User.b_token := token;
     User.b_resetPasswordToken := None;
     User.b_resetPasswordExpires := None |}.

Definition review_request (userId movieId comment : string) (rating : float)
  : Review.Body :=
  {| Review.b_userId := Some userId; Review.b_movieId := Some movieId;
     Review.b_comment := Some comment; Review.b_rating := Some (Num rating) |}.

(** A request to edit the profile that carries a first name only. *)
Definition new_first_name : User.Body :=
  {| User.b_firstName := Some "Anita"; User.b_lastName := None;
     User.b_age := None; User.b_email := None; User.b_password := None;
     User.b_confirmPassword := None; User.b_token := None;
     User.b_resetPasswordToken := None; User.b_resetPasswordExpires := None |}.

(** A request to create a review that carries no comment. *)
Definition review_request_without_comment (userId movieId : string)
    (rating : float)
  : Review.Body :=
  {| Review.b_userId := Some userId; Review.b_movieId := Some movieId;
     Review.b_comment := None; Review.b_rating := Some (Num rating) |}.

(** A patch that only carries a rating. *)
Definition rating_patch (userId movieId : string) (rating : float)
  : Review.Body :=
  {| Review.b_userId := Some userId; Review.b_movieId := Some movieId;
     Review.b_comment := None; Review.b_rating := Some (Num rating) |}.

End Sample.

(** The ratings [$match] lets through for a movie. *)
Definition ratings_of (movieId : string) (w : World) : list JsNumber :=
  map Review.rating (filter (fun r => Review.movieId r =? movieId) (reviews w)).

(** The guard of [ReviewController.create]: the four required keys are
    present (and the three strings are not empty). *)
Definition required_fields_present (body : Review.Body) : bool :=
  (truthy (Review.b_userId body) && truthy (Review.b_movieId body)
   && truthy (Review.b_comment body)
   && match Review.b_rating body with
      | Some (Num _) => true
      | Some Null | None => false
      end)%bool.

(** The bounds of the data model on a review: a rating from 1 to 5 and a
    comment of 3 to 1000 characters. *)
Definition review_invariant (r : Review.Document) : Prop :=
  (exists v, Review.rating r = Num v
             /\ (1 <=? v)%float = true /\ (v <=? 5)%float = true)
  /\ (3 <= String.length (Review.comment r))%nat
  /\ (String.length (Review.comment r) <= 1000)%nat.

(** The arithmetic mean of numbers, in the arithmetic of doubles: their
    sum divided by their number. *)
Definition arithmetic_mean (values : list float) : float :=
  (fold_left PrimFloat.add values 0 / fold_left (fun n _ => n + 1) values 0)%float.

(** A password the policy refuses: under eight characters, or without an
    upper-case letter, a digit or a symbol of the punctuation class. *)
Definition weak_password (p : string) : Prop :=
  (String.length p < 8)%nat
  \/ any_char is_upper p = false
  \/ any_char is_digit p = false
  \/ any_char is_special p = false.

(** What an edit of the profile must leave alone in a user record. *)
Definition same_protected (old new : User.Document) : Prop :=
  User._id new = User._id old
  /\ User.password new = User.password old
  /\ User.resetPasswordToken new = User.resetPasswordToken old
  /\ User.resetPasswordExpires new = User.resetPasswordExpires old
  /\ User.createdAt new = User.createdAt old.

(** The fields an edit of the profile may change, and the stamp of the
    last update, erased. *)
Definition without_profile (u : User.Document) : User.Document :=
  {| User._id := User._id u; User.firstName := ""; User.lastName := "";
     User.age := 0; User.email := ""; User.password := User.password u;
     User.resetPasswordToken := User.resetPasswordToken u;
     User.resetPasswordExpires := User.resetPasswordExpires u;
     User.createdAt := User.createdAt u; User.updatedAt := 0 |}.

(** The two unique indexes of the users collection: [_id] and [email]. *)
Definition unique_users (l : list User.Document) : Prop :=
  NoDup (map User._id l) /\ NoDup (map User.email l).

(** The two answers of [forgotPassword] to a well-formed request. *)
Definition answer_unregistered : Response :=
  respond 202
    (Message "If the email is registered, you will receive a password reset email").

Definition answer_registered : Response :=
  respond 200 (Message "Password reset email sent").

(* ================================================================== *)
(** ** The routes as one server *)
(* ================================================================== *)

(** A request to one of the routes modelled, with what its handler takes
    from the host; [EditLoggedUser] carries the [userId] the middleware
    left on the request. *)
Inductive Call :=
| Register (h : Host) (body : User.Body)
| Login (h : Host) (body : User.Body)
| ForgotPassword (h : Host) (body : User.Body)
| ResetPassword (h : Host) (body : User.Body)
| EditLoggedUser (h : Host) (userId : option string) (body : User.Body)
| CreateReview (h : Host) (body : Review.Body)
| ReviewsByMovie (movieId : string)
| ReviewsByUser (userId : string)
| AverageRating (movieId : string)
| UpdateReview (h : Host) (body : Review.Body)
| DeleteReview (id : string)
| CreateFavorite (h : Host) (body : Favorite.Body)
| FavoritesByUser (h : Host) (userId : string)
| DeleteFavorite (h : Host) (id : string).

Definition serve {C : Crypto} (c : Call) : M Response :=
  match c with
  | Register h body => UserController_create h body
  | Login h body => UserController_login h body
  | ForgotPassword h body => UserController_forgotPassword h body
  | ResetPassword h body => UserController_resetPassword h body
  | EditLoggedUser h userId body => UserController_editLoggedUser h userId body
  | CreateReview h body => ReviewController_create h body
  | ReviewsByMovie movieId => ReviewController_getByMovie movieId
  | ReviewsByUser userId => ReviewController_getByUser userId
  | AverageRating movieId => ReviewController_getAverageRating movieId
  | UpdateReview h body => ReviewController_update h body
  | DeleteReview id => ReviewController_delete id
  | CreateFavorite h body => FavoriteController_create h body
  | FavoritesByUser h userId => FavoriteController_getByUser h userId
  | DeleteFavorite h id => FavoriteController_delete h id
  end.

(** The world after a sequence of requests, served one after the other. *)
Fixpoint serve_all {C : Crypto} (calls : list Call) (w : World) : World :=
  match calls with
  | [] => w
  | c :: rest => serve_all rest (snd (serve c w))
  end.

Definition empty_world : World :=
  {| users := []; reviews := []; favorites := []; console := []; outbox := [] |}.

(** A computation keeps a property of the world. *)
Definition keeps {A : Type} (P : World -> Prop) (m : M A) : Prop :=
  forall w, P w -> P (snd (m w)).

(** The store respects the unique indexes of the users collection. *)
Definition users_indexed (w : World) : Prop := unique_users (users w).

(** A model whose collection is not the users collection. *)
Definition leaves_users {T D : Type} `{Model T D} : Prop :=
  forall l w, users (with_docs l w) = users w.

(* ================================================================== *)
(** ** UserController: the session and the account *)
(* ================================================================== *)

(** The options of [res.clearCookie]. *)
Record CookieOptions := {
  opt_httpOnly : bool;
  opt_secure : bool;
  opt_sameSite : string
}.

(** The options a cookie was set with, [maxAge] apart. *)
Definition options_of (c : Cookie) : CookieOptions :=
  {| opt_httpOnly := httpOnly c; opt_secure := secure c;
     opt_sameSite := sameSite c |}.

(** What [getLoggedUser] sends of a user: the document without
    [password], [resetPasswordToken] and [resetPasswordExpires], and its
    [_id] once more as [id]. *)
Record Profile := {
  p_id : string;
  p__id : string;
  p_firstName : string;
  p_lastName : string;
  p_age : Z;
  p_email : string;
  p_createdAt : Z;
  p_updatedAt : Z
}.

Inductive AccountJson :=
| AMessage (message : string)
| AUser (user : Profile).

(** An answer of the handlers below: the status, the body and the cookie
    cleared, if one is. *)
Record Reply := {
  r_status : Z;
  r_json : AccountJson;
  r_clearCookie : option (string * CookieOptions)
}.

Definition reply (code_ : Z) (message : string) : Reply :=
  {| r_status := code_; r_json := AMessage message; r_clearCookie := None |}.

(** [const { password, resetPasswordToken, resetPasswordExpires, ...safe }
    = user] and [{ id: safe._id, ...safe }]. *)
Definition safe_profile (user : User.Document) : Profile :=
  {| p_id := User._id user;
     p__id := User._id user;
     p_firstName := User.firstName user;
     p_lastName := User.lastName user;
     p_age := User.age user;
     p_email := User.email user;
     p_createdAt := User.createdAt user;
     p_updatedAt := User.updatedAt user |}.

Definition UserDAO_delete : string -> M User.Document := GlobalDao_delete.

(** [logout] has no [try]: what it throws, and what [res.clearCookie]
    throws on an invalid [sameSite], leaves the handler. *)
Definition UserController_logout (h : Host) : Outcome Reply :=
  if negb (truthy (COOKIE_CONTROL (env h)))
  then Throw "COOKIE_CONTROL no está definido en las variables de entorno"
  else if negb (sameSite_valid (or_empty (COOKIE_CONTROL (env h))))
  then Throw "option sameSite is invalid"
  else
    Ok {| r_status := 200;
          r_json := AMessage "Logged out successfully";
          r_clearCookie :=
            Some ("token",
                  {| opt_httpOnly := true;
                     opt_secure := match NODE_ENV (env h) with
                                   | Some v => v =? "production"
                                   | None => false
                                   end;
                     opt_sameSite := or_empty (COOKIE_CONTROL (env h)) |}) |}.

Definition UserController_getLoggedUser (userId : option string) : M Reply :=
  try (if negb (truthy userId)
       then ret (reply 401 "No se proporcionó un token")
       else
         user <- UserDAO_read (or_empty userId) ;;
         if negb (is_truthy user)
         then ret (reply 404 "User not found")
         else ret {| r_status := 200; r_json := AUser (safe_profile user);
                     r_clearCookie := None |})
  catch (fun e =>
    console_write e ;;
    ret (reply 500 "Error getting user information")).

Section Account.
Context {C : Crypto}.

Definition UserController_deleteLoggedUser (h : Host) (userId : option string)
    (body : User.Body) : M Reply :=
  try (if negb (truthy userId)
       then ret (reply 401 "No token provided")
       else
         user <- UserDAO_read (or_empty userId) ;;
         if negb (is_truthy user)
         then ret (reply 404 "Usuario no encontrado")
         else
           passwordMatch <- compare_password (User.b_password body)
                              (User.password user) ;;
           if negb passwordMatch
           then ret (reply 401 "Contraseña incorrecta")
           else
             UserDAO_delete (User._id user) ;;
             ret {| r_status := 200;
                    r_json := AMessage "Usuario eliminado";
                    r_clearCookie :=
                      Some ("token",
                            {| opt_httpOnly := true;
                               opt_secure := match NODE_ENV (env h) with
                                             | Some v => v =? "production"
                                             | None => false
                                             end;
                               opt_sameSite := "none" |}) |})
  catch (fun e =>
    console_write e ;;
    ret (reply 500 "Error al eliminar el usuario")).

(* ------------------------------------------------------------------ *)
(** *** The review routes (routes/reviewRoutes.ts) *)
(* ------------------------------------------------------------------ *)

(** A request to one of the six routes of the router. *)
Inductive ReviewRoute :=
| PostReview (body : Review.Body)
| GetReviewsOfMovie (movieId : string)
| GetReviewsOfUser (userId : string)
| GetAverage (movieId : string)
| PutReview (body : Review.Body)
| DeleteReviewById (id : string).

(** [router.METHOD(path, authenticateToken, handler)]: the handler runs
    when the middleware calls [next()]. *)
Definition behind_token (h : Host) (token : option string)
    (handler : M Response) : M Response :=
  match authenticateToken h token with
  | Rejected response => ret response
  | Next _ => handler
  end.

(** The router, on a request and the [token] cookie it carries. *)
Definition reviewRoutes (h : Host) (token : option string) (r : ReviewRoute)
  : M Response :=
  match r with
  | PostReview body => behind_token h token (ReviewController_create h body)
  | GetReviewsOfMovie movieId => ReviewController_getByMovie movieId
  | GetReviewsOfUser userId =>
      behind_token h token (ReviewController_getByUser userId)
  | GetAverage movieId => ReviewController_getAverageRating movieId
  | PutReview body => behind_token h token (ReviewController_update h body)
  | DeleteReviewById id => behind_token h token (ReviewController_delete id)
  end.

End Account.

(* ------------------------------------------------------------------ *)
(** *** What [forgotPassword] stores *)
(* ------------------------------------------------------------------ *)

Section ResetFlow.
Context {C : Crypto}.

(** The token [forgotPassword] signs for a user, and the record it stores:
    the user with that token, its expiry an hour ahead, and the stamp of
    the update. *)
Definition reset_token (h : Host) (u : User.Document) : string :=
  jwt_sign (User._id u) (or_empty (JWT_SECRET (env h))) 3600 (now h).

Definition pending_reset (h : Host) (u : User.Document) : User.Document :=
  User.restamp (now h) u
    (User.set_resetPasswordExpires (Some (now h + 3600000)%Z)
       (User.set_resetPasswordToken (Some (reset_token h u)) u)).

End ResetFlow.

(* ================================================================== *)
(** ** Movies: schema (models/Movie.ts), DAO, Pexels and controller *)
(* ================================================================== *)

Module Movie.
(** [IMovie] with the [_id] of [Document] and the stamps. *)
Record Document := {
  _id : string;
  pexelsId : Z;
  title : string;
  imageUrl : string;
  videoUrl : string;
  duration : Z;
  author : string;
  description : string;
  createdAt : Z;
  updatedAt : Z
}.

(** The object [createMovieFromPexelsData] hands to [MovieDAO.create];
    [videoUrl] is undefined when the video has no file. *)
Record Data := {
  d_pexelsId : Z;
  d_title : string;
  d_imageUrl : string;
  d_videoUrl : option string;
  d_duration : Z;
  d_author : string;
  d_description : string
}.
End Movie.

(** A video as the Pexels client returns it, with the fields the
    controller reads. *)
Record VideoFile := { link : string }.

Record Video := {
  video_id : Z;
  video_url : option string;
  video_image : string;
  video_files : list VideoFile;
  video_duration : Z;
  video_user_name : string
}.

(** What [client.videos.popular] and [client.videos.search] resolve to, or
    the error they reject with. *)
Inductive PexelsResult :=
| Videos (videos : list Video)
| ErrorResponse (error : string)
| Rejects (message : string).

(** What a movie request takes from outside the program: the host, the
    ObjectId the driver generates for the n-th document built, and the
    answers of Pexels ([per_page] is [Number] of the text given). *)
Record MovieHost := {
  host : Host;
  objectId_at : nat -> string;
  videos_popular : string -> PexelsResult;
  videos_search : string -> option string -> PexelsResult
}.

(** The world with the movies collection and the number of documents
    built so far. *)
Record Library := {
  world : World;
  movies : list Movie.Document;
  built : nat
}.

Definition L (A : Type) : Type := Library -> Outcome A * Library.

Definition lret {A} (a : A) : L A := fun s => (Ok a, s).

Definition lthrow {A} (message : string) : L A := fun s => (Throw message, s).

Definition lbind {A B} (m : L A) (k : A -> L B) : L B :=
  fun s =>
    match m s with
    | (Ok a, s') => k a s'
    | (Throw e, s') => (Throw e, s')
    end.

Definition ltry_catch {A} (m : L A) (h : string -> L A) : L A :=
  fun s =>
    match m s with
    | (Ok a, s') => (Ok a, s')
    | (Throw e, s') => h e s'
    end.

(** [console.error]. *)
Definition console_error (line : string) : L unit :=
  fun s =>
    (Ok tt,
     {| world := snd (console_write line (world s)); movies := movies s;
        built := built s |}).

Declare Scope movie_scope.
Delimit Scope movie_scope with movie.
Notation "x <- m ;; k" := (lbind m (fun x => k))
  (at level 61, m at next level, right associativity) : movie_scope.
Notation "m ;; k" := (lbind m (fun _ => k))
  (at level 61, right associativity) : movie_scope.
Notation "'try' m 'catch' h" := (ltry_catch m h)
  (at level 62, m at level 61, h at level 61) : movie_scope.

(** [new Movie(data)]: every path is required. *)
Definition MovieSchema_validators (d : Movie.Document) : option string :=
  if Movie.title d =? "" then
    Some (validation_failed "Movie" "title" (required_message "title"))
  else if Movie.imageUrl d =? "" then
    Some (validation_failed "Movie" "imageUrl" (required_message "imageUrl"))
  else if Movie.videoUrl d =? "" then
    Some (validation_failed "Movie" "videoUrl" (required_message "videoUrl"))
  else if Movie.author d =? "" then
    Some (validation_failed "Movie" "author" (required_message "author"))
  else if Movie.description d =? "" then
    Some (validation_failed "Movie" "description" (required_message "description"))
  else None.

Definition MovieSchema_instantiate (h : MovieHost) (n : nat) (data : Movie.Data)
  : Outcome Movie.Document :=
  let d := {| Movie._id := objectId_at h n;
              Movie.pexelsId := Movie.d_pexelsId data;
              Movie.title := Movie.d_title data;
              Movie.imageUrl := Movie.d_imageUrl data;
              Movie.videoUrl := or_empty (Movie.d_videoUrl data);
              Movie.duration := Movie.d_duration data;
              Movie.author := Movie.d_author data;
              Movie.description := Movie.d_description data;
              Movie.createdAt := now (host h);
              Movie.updatedAt := now (host h) |} in
  match MovieSchema_validators d with
  | Some e => Throw e
  | None => Ok d
  end.

(** [new Movie(data)] then [save()], as [save] above on the movies
    collection; the schema declares no index, the only unique key is
    [_id]. *)
Definition Movie_save (h : MovieHost) (data : Movie.Data) : L Movie.Document :=
  fun s =>
    let s' := {| world := world s; movies := movies s; built := S (built s) |} in
    match MovieSchema_instantiate h (built s) data with
    | Throw e => (Throw e, s')
    | Ok d =>
        if existsb (fun x => Movie._id x =? Movie._id d) (movies s)
        then (Throw duplicate_key, s')
        else (Ok d, {| world := world s; movies := movies s ++ [d];
                       built := S (built s) |})
    end.

Definition Movie_findOne (f : Movie.Document -> bool) : L (option Movie.Document) :=
  fun s => (Ok (List.find f (movies s)), s).

Definition Movie_find (f : Movie.Document -> bool) : L (list Movie.Document) :=
  fun s => (Ok (filter f (movies s)), s).

#[local] Open Scope movie_scope.

(** [MovieDao extends GlobalDao<IMovieDocument>]: the methods of
    [GlobalDao] the controller calls, on the movies collection. *)
Definition MovieDAO_create (h : MovieHost) (data : Movie.Data) : L Movie.Document :=
  try Movie_save h data
  catch (fun e => lthrow ("Error creating document: " ++ e)).

Definition MovieDAO_read (id : string) : L Movie.Document :=
  try (document <- Movie_findOne (fun m => Movie._id m =? id) ;;
       match document with
       | None => lthrow "Document not found"
       | Some d => lret d
       end)
  catch (fun e => lthrow ("Error getting document by ID: " ++ e)).

Definition MovieDAO_getAll : L (list Movie.Document) :=
  try Movie_find (fun _ => true)
  catch (fun e => lthrow ("Error getting documents: " ++ e)).

Definition MovieDAO_findByPexelsId (id : Z) : L (option Movie.Document) :=
  try Movie_findOne (fun m => (Movie.pexelsId m =? id)%Z)
  catch (fun e => lthrow ("Error getting document by pexelsId: " ++ e)).

(* ------------------------------------------------------------------ *)
(** *** services/pexelsService.ts *)
(* ------------------------------------------------------------------ *)

Definition searchVideos (h : MovieHost) (query : string) (perPage : option string)
  : L (list Video) :=
  match videos_search h query perPage with
  | Videos videos => lret videos
  | ErrorResponse error =>
      console_error ("Error al buscar videos en Pexels: " ++ error) ;;
      lthrow error
  | Rejects message => lthrow message
  end.

Definition getPopularVideos (h : MovieHost) (perPage : string) : L (list Video) :=
  match videos_popular h perPage with
  | Videos videos => lret videos
  | ErrorResponse error =>
      console_error ("Error al obtener videos populares de Pexels: " ++ error) ;;
      lthrow error
  | Rejects message => lthrow message
  end.

(* ------------------------------------------------------------------ *)
(** *** MovieController *)
(* ------------------------------------------------------------------ *)

Fixpoint starts_with (p s : string) : bool :=
  match p, s with
  | EmptyString, _ => true
  | String a p', String b s' => (Ascii.eqb a b && starts_with p' s')%bool
  | String _ _, EmptyString => false
  end.

(** [s.split(sep)] for a separator that is not empty: the pieces between
    its occurrences, found from the left; [skip] characters of an
    occurrence are still to be passed over. *)
Fixpoint split_aux (sep : string) (skip : nat) (cur : string) (s : string)
  : list string :=
  match s with
  | EmptyString => [cur]
  | String c rest =>
      match skip with
      | S n => split_aux sep n cur rest
      | O =>
          if starts_with sep s
          then cur :: split_aux sep (String.length sep - 1) EmptyString rest
          else split_aux sep O (cur ++ String c EmptyString) rest
      end
  end.

Definition split_string (sep s : string) : list string :=
  split_aux sep O EmptyString s.

(** [s.replace(/-/g, " ")]. *)
Fixpoint replace_dashes (s : string) : string :=
  match s with
  | EmptyString => EmptyString
  | String c rest =>
      String (if Ascii.eqb c "-"%char then " "%char else c) (replace_dashes rest)
  end.

(** [\d+\/?$] matched against the whole of [s]; [seen] tells that a digit
    has been read. *)
Fixpoint digits_to_end (seen : bool) (s : string) : bool :=
  match s with
  | EmptyString => seen
  | String c rest =>
      if is_digit c then digits_to_end true rest
      else (seen && Ascii.eqb c "/"%char
            && match rest with EmptyString => true | _ => false end)%bool
  end.

(** [s.replace(/\d+\/?$/, "")]: the match that starts first is removed. *)
Fixpoint strip_trailing_number (s : string) : string :=
  match s with
  | EmptyString => EmptyString
  | String c rest =>
      if digits_to_end false s then EmptyString
      else String c (strip_trailing_number rest)
  end.

(** The optional chain of [formatTitleFromUrl], [undefined] as [None]. *)
Definition title_of_url (url : option string) : option string :=
  match url with
  | None => None
  | Some u =>
      match nth_error (split_string "/video/" u) 1 with
      | None => None
      | Some piece => Some (trim (strip_trailing_number (replace_dashes piece)))
      end
  end.

Definition formatTitleFromUrl (url : option string) : string :=
  match title_of_url url with
  | Some t => if t =? "" then "Sin título" else t
  | None => "Sin título"
  end.

(** The object literal of [createMovieFromPexelsData]. *)
Definition movie_data (pexelsData : Video) : Movie.Data :=
  {| Movie.d_pexelsId := video_id pexelsData;
     Movie.d_title := formatTitleFromUrl (video_url pexelsData);
     Movie.d_imageUrl := video_image pexelsData;
     Movie.d_videoUrl := match video_files pexelsData with
                         | [] => None
                         | file :: _ => Some (link file)
                         end;
     Movie.d_duration := video_duration pexelsData;
     Movie.d_author := video_user_name pexelsData;
     Movie.d_description := "Video creado por " ++ video_user_name pexelsData
                            ++ " traído de Pexels" |}.

Definition createMovieFromPexelsData (h : MovieHost) (pexelsData : Video)
  : L (option Movie.Document) :=
  try (existing <- MovieDAO_findByPexelsId (video_id pexelsData) ;;
       match existing with
       | Some movie => lret (Some movie)
       | None =>
           movie <- MovieDAO_create h (movie_data pexelsData) ;;
           lret (Some movie)
       end)
  catch (fun e =>
    console_error ("Error al crear película desde datos de Pexels: " ++ e) ;;
    lret None).

(** [for (const video of videos) { ... if (movie) movies.push(movie) }]. *)
Fixpoint store_videos (h : MovieHost) (videos : list Video)
    (movies_ : list Movie.Document) : L (list Movie.Document) :=
  match videos with
  | [] => lret movies_
  | video :: rest =>
      movie <- createMovieFromPexelsData h video ;;
      store_videos h rest
        (match movie with
         | Some m => movies_ ++ [m]
         | None => movies_
         end)
  end.

Inductive MovieJson :=
| MMessage (message : string)
| AMovie (movie : Movie.Document)
| MovieList (movies_ : list Movie.Document).

Record MovieResponse := {
  m_status : Z;
  m_json : MovieJson
}.

Definition MovieController_getPopularMovies (h : MovieHost) (pages : string)
  : L MovieResponse :=
  try (videos <- getPopularVideos h pages ;;
       movies_ <- store_videos h videos [] ;;
       lret {| m_status := 200; m_json := MovieList movies_ |})
  catch (fun e =>
    console_error ("Error al obtener películas populares: " ++ e) ;;
    lret {| m_status := 500;
            m_json := MMessage "Error al obtener películas populares." |}).

(** [req.body] of a search: [category] and [pages], each a string or
    absent. *)
Record SearchBody := {
  b_category : option string;
  b_pages : option string
}.

Definition MovieController_searchMoviesByCategory (h : MovieHost)
    (body : SearchBody) : L MovieResponse :=
  try (let category := to_js_string (b_category body) in
       if category =? ""
       then lret {| m_status := 400;
                    m_json := MMessage "Debes proporcionar una categoría o término de búsqueda." |}
       else
         videos <- searchVideos h category (b_pages body) ;;
         movies_ <- store_videos h videos [] ;;
         lret {| m_status := 200; m_json := MovieList movies_ |})
  catch (fun e =>
    console_error ("Error al buscar películas: " ++ e) ;;
    lret {| m_status := 500; m_json := MMessage "Error al buscar películas." |}).

Definition MovieController_getAllMovies : L MovieResponse :=
  try (movies_ <- MovieDAO_getAll ;;
       lret {| m_status := 200; m_json := MovieList movies_ |})
  catch (fun e =>
    console_error ("Error al obtener películas: " ++ e) ;;
    lret {| m_status := 500;
            m_json := MMessage "Error al obtener las películas locales." |}).

Definition MovieController_getMovieById (id : string) : L MovieResponse :=
  try (movie <- MovieDAO_read id ;;
       if negb (is_truthy movie)
       then lret {| m_status := 404; m_json := MMessage "Película no encontrada." |}
       else lret {| m_status := 200; m_json := AMovie movie |})
  catch (fun e =>
    console_error ("Error al obtener película por ID: " ++ e) ;;
    lret {| m_status := 500; m_json := MMessage "Error al obtener la película." |}).

#[local] Close Scope movie_scope.

(* ================================================================== *)
(** ** Statements about the handlers *)
(* ================================================================== *)

(** The review routes registered without [authenticateToken]. *)
Definition is_public (r : ReviewRoute) : bool :=
  match r with
  | GetReviewsOfMovie _ | GetAverage _ => true
  | _ => false
  end.

(** The statuses a handler sends, read off its [res.status] calls that can
    be reached. *)
Definition statuses (c : Call) : list Z :=
  match c with
  | Register _ _ => [201; 400; 409; 500]
  | Login _ _ => [200; 401; 500]
  | ForgotPassword _ _ => [200; 202; 500]
  | ResetPassword _ _ => [200; 400; 500]
  | EditLoggedUser _ _ _ => [200; 401; 500]
  | CreateReview _ _ => [201; 400; 409; 500]
  | ReviewsByMovie _ => [200; 404; 500]
  | ReviewsByUser _ => [200; 404; 500]
  | AverageRating _ => [200; 500]
  | UpdateReview _ _ => [200; 404; 500]
  | DeleteReview _ => [200; 500]
  | CreateFavorite _ _ => [201; 400; 500]
  | FavoritesByUser _ _ => [200; 400; 500]
  | DeleteFavorite _ _ => [200; 400; 500]
  end%Z.

(** A computation that, when it returns, returns an answer with a status
    of [S]; and one that always returns such an answer. *)
Definition may_answer (S : list Z) (m : M Response) : Prop :=
  forall w, match m w with
            | (Ok r, _) => In (status r) S
            | (Throw _, _) => True
            end.

Definition answers (S : list Z) (m : M Response) : Prop :=
  forall w, exists r w', m w = (Ok r, w') /\ In (status r) S.

(** A string that does not start with white space. *)
Definition no_leading_space (s : string) : Prop :=
  match s with
  | EmptyString => True
  | String c _ => is_space c = false
  end.

(* ================================================================== *)
(** ** More sample data *)
(* ================================================================== *)

Module Scenario.

(** A registration. *)
Definition eva : User.Body :=
  {| User.b_firstName := Some "Eva"; User.b_lastName := Some "Rojas";
     User.b_age := Some 27%Z; User.b_email := Some "eva@lumix.co";
     User.b_password := Some "Secret123!";
     User.b_confirmPassword := Some "Secret123!"; User.b_token := None;
     User.b_resetPasswordToken := None;
     User.b_resetPasswordExpires := None |}.

(** The sample store after Eva registered on the sample host. *)
Definition world_with_eva : World :=
  snd (UserController_create (C := Reference.crypto) Sample.host eva
         Sample.world).

(** A host whose [COOKIE_CONTROL] is set, to a value that is no mode of
    [sameSite]. *)
Definition host_with_invalid_cookie_mode : Host :=
  {| env := {| JWT_SECRET := Some "s3cret";
               COOKIE_CONTROL := Some "true";
               NODE_ENV := Some "production";
               ORIGIN := Some "http://localhost:5173, https://lumix.app";
               EMAIL_USER := Some "no-reply@lumix.app" |};
     now := 5000;
     objectId := "x1";
     salt := "$2b$10$";
     sendgrid_error := None |}.

(** Logins that carry no password. *)
Definition ana_without_password : User.Body :=
  {| User.b_firstName := None; User.b_lastName := None; User.b_age := None;
     User.b_email := Some "ana@lumix.co"; User.b_password := None;
     User.b_confirmPassword := None; User.b_token := None;
     User.b_resetPasswordToken := None; User.b_resetPasswordExpires := None |}.

Definition nobody_without_password : User.Body :=
  {| User.b_firstName := None; User.b_lastName := None; User.b_age := None;
     User.b_email := Some "nobody@lumix.co"; User.b_password := None;
     User.b_confirmPassword := None; User.b_token := None;
     User.b_resetPasswordToken := None; User.b_resetPasswordExpires := None |}.

(** A patch that sets the rating of Ana's review of movie [m2] to
    [null]. *)
Definition rating_erased : Review.Body :=
  {| Review.b_userId := Some "u1"; Review.b_movieId := Some "m2";
     Review.b_comment := None; Review.b_rating := Some Null |}.

(** Ana rates movie [m1] again, a second later. *)
Definition rerated : Response * World :=
  match ReviewController_update Sample.host_later
          (Sample.rating_patch "u1" "m1" 4) Sample.world with
  | (Ok r, w) => (r, w)
  | (Throw e, w) => (respond 500 (Message e), w)
  end.

(** Luis deletes his account, giving his password. *)
Definition luis_leaves : User.Body :=
  Sample.user_request "luis@lumix.co" "Otr0Secreto?" None.

Definition world_without_luis : World :=
  {| users := [Sample.ana];
     reviews := reviews Sample.world;
     favorites := favorites Sample.world;
     console := [];
     outbox := [] |}.

Definition account_deleted : Reply :=
  {| r_status := 200;
     r_json := AMessage "Usuario eliminado";
     r_clearCookie :=
       Some ("token",
             {| opt_httpOnly := true; opt_secure := true;
                opt_sameSite := "none" |}) |}.

(** Ana asks for a reset on the sample host, and answers the mail a second
    later with a new password. *)
Definition ana_asks : User.Body := Sample.user_request "ana@lumix.co" "" None.

Definition world_asked : World :=
  snd (UserController_forgotPassword (C := Reference.crypto) Sample.host
         ana_asks Sample.world).

Definition ana_resets : User.Body :=
  Sample.user_request "ana@lumix.co" "NewSecret1!"
    (Some (reset_token (C := Reference.crypto) Sample.host Sample.ana)).

(** Luis reviews movie [m2]. *)
Definition worth_it : Review.Document :=
  {| Review._id := "x1"; Review.userId := "u2"; Review.movieId := "m2";
     Review.comment := "Worth it"; Review.rating := Num 4;
     Review.createdAt := 5000; Review.updatedAt := 5000 |}.

Definition world_reviewed : World :=
  set_reviews (reviews Sample.world ++ [worth_it]) Sample.world.

End Scenario.

Module Cinema.

Definition walk_video : Video :=
  {| video_id := 857251;
     video_url := Some "https://www.pexels.com/video/a-man-walking-857251/";
     video_image := "https://images.pexels.com/videos/857251/walk.jpeg";
     video_files := [ {| link := "https://videos.pexels.com/857251.mp4" |} ];
     video_duration := 14;
     video_user_name := "Pixabay" |}.

(** A video without files. *)
Definition bare_video : Video :=
  {| video_id := 1093662;
     video_url := Some "https://www.pexels.com/video/1093662/";
     video_image := "https://images.pexels.com/videos/1093662/sea.jpeg";
     video_files := [];
     video_duration := 8;
     video_user_name := "Ana" |}.

Definition id_names : list string := ["k0"; "k1"; "k2"; "k3"; "k4"; "k5"].

Definition pexels : MovieHost :=
  {| host := Sample.host;
     objectId_at := fun n => nth n id_names "k";
     videos_popular := fun _ => Videos [walk_video; bare_video; walk_video];
     videos_search := fun query _ =>
                        if query =? "walk" then Videos [walk_video]
                        else ErrorResponse "Too Many Requests" |}.

Definition empty_library : Library :=
  {| world := empty_world; movies := []; built := 0 |}.

End Cinema.

(* ================================================================== *)
(** * Properties *)
(* ================================================================== *)

(** ** Lists and lookups *)

Lemma find_none_iff {A} (f : A -> bool) (l : list A) :
  List.find f l = None <-> (forall x, In x l -> f x = false).
Proof.
  induction l as [|a l IH]; simpl.
  - split; [intros _ x [] | reflexivity].
  - destruct (f a) eqn:Fa.
    + split; [discriminate |].
      intros Hall. rewrite (Hall a (or_introl eq_refl)) in Fa. discriminate.
    + rewrite IH. split.
      * intros Hall x [<- | Hx]; auto.
      * intros Hall x Hx. apply Hall. now right.
Qed.

Lemma find_some_in {A} (f : A -> bool) (l : list A) (a : A) :
  List.find f l = Some a -> In a l /\ f a = true.
Proof. apply find_some. Qed.

Lemma has_id_absent {T D} `{Model T D} (id : string) (l : list T) :
  (forall d, In d l -> doc_id d <> id) -> List.find (has_id id) l = None.
Proof.
  intros Habs. apply find_none_iff. intros d Hd.
  unfold has_id. apply String.eqb_neq. now apply Habs.
Qed.

(** ** The generic DAO *)

(** [GlobalDao.delete] never returns [null]: on an identifier no document
    carries it throws, and leaves the world as it was. *)
Lemma GlobalDao_delete_missing {T D} `{Model T D} (id : string) (w : World) :
  List.find (has_id id) (docs w) = None ->
  GlobalDao_delete id w
  = (Throw "Error deleting document by ID: Document not found", w).
Proof.
  intros Hnone.
  unfold GlobalDao_delete, try_catch, bind, findByIdAndDelete, throw.
  now rewrite Hnone.
Qed.

(** C6 (code side). Deleting by an identifier that no stored favorite, and
    no stored review, carries is answered with status 500 by both handlers:
    the DAO throws where the favorite handler tests its result for
    [null], so the 404 answer cannot be reached. *)
Theorem delete_missing_id_is_500 (h : Host) (id : string) (w : World) :
  id <> "" ->
  (forall f, In f (favorites w) -> Favorite._id f <> id) ->
  (forall r, In r (reviews w) -> Review._id r <> id) ->
  (exists w',
      FavoriteController_delete h id w
      = (Ok (respond 500 (Message "Internal Server Error")), w')
      /\ favorites w' = favorites w)
  /\ ReviewController_delete id w
     = (Ok (respond 500
              (Message "Error deleting document by ID: Document not found")), w).
Proof.
  intros Hid Hfav Hrev. split.
  - unfold FavoriteController_delete, try_catch, bind.
    apply String.eqb_neq in Hid. rewrite Hid.
    unfold FavoriteDAO_delete.
    rewrite (GlobalDao_delete_missing (T := Favorite.Document) id w)
      by (apply has_id_absent; exact Hfav).
    unfold internal_error, bind.
    destruct (development h); simpl; eexists; split; reflexivity.
  - unfold ReviewController_delete, try_catch, bind, ReviewDAO_delete.
    rewrite (GlobalDao_delete_missing (T := Review.Document) id w)
      by (apply has_id_absent; exact Hrev).
    reflexivity.
Qed.

Lemma delete_missing_id_is_500_witness :
  (exists w',
      FavoriteController_delete Sample.host "f9" Sample.world
      = (Ok (respond 500 (Message "Internal Server Error")), w')
      /\ favorites w' = favorites Sample.world)
  /\ ReviewController_delete "f9" Sample.world
     = (Ok (respond 500
              (Message "Error deleting document by ID: Document not found")),
        Sample.world).
Proof.
  apply (delete_missing_id_is_500 Sample.host "f9" Sample.world).
  - discriminate.
  - simpl. intros f [<- | []]. discriminate.
  - simpl. intros r [<- | [<- | [<- | []]]]; discriminate.
Defined.

(** ** Reviews *)


Lemma Review_aggregate_run (movieId : string) (w : World) :
  Review_aggregate movieId w
  = (Ok (match ratings_of movieId w with
         | [] => []
         | _ :: _ =>
             [ {| group_id := movieId; average := avg (ratings_of movieId w) |} ]
         end), w).
Proof.
  unfold Review_aggregate, ratings_of, bind, find, ret. cbn [docs ReviewModel].
  destruct (filter _ (reviews w)); reflexivity.
Qed.




(** A rating that is [null] is passed over by [$avg], and a movie whose
    reviews all hold [null] gets [null] for its average. *)
Lemma getAverageRating_passes_over_null (movieId : string) (w : World) :
  ratings_of movieId w <> [] ->
  ReviewController_getAverageRating movieId w
  = (Ok (respond 200
           (Average movieId
              (match numeric (ratings_of movieId w) with
               | [] => Null
               | values => Num (arithmetic_mean values)
               end))), w).
Proof.
  intros Hne.
  unfold ReviewController_getAverageRating, ReviewDAO_getAverageRating,
    try_catch, bind.
  rewrite Review_aggregate_run.
  destruct (ratings_of movieId w) as [|q qs] eqn:Hq;
    [now contradiction Hne | reflexivity].
Qed.

(** On the sample store: the one review of movie [m2] is given the rating
    [null] by an update, which runs no validator, and the average of the
    movie is then [null]. *)
Example average_of_null_rating_sample :
  fst (ReviewController_getAverageRating "m2"
         (snd (ReviewController_update Sample.host_later
                 Scenario.rating_erased Sample.world)))
  = Ok (respond 200 (Average "m2" Null)).
Proof. vm_compute. reflexivity. Qed.

Lemma find_finds {A} (f : A -> bool) (l : list A) (a : A) :
  In a l -> f a = true -> exists b, List.find f l = Some b.
Proof.
  intros Hin Hf. destruct (List.find f l) eqn:Hfind; [eauto |].
  rewrite find_none_iff in Hfind. rewrite (Hfind a Hin) in Hf. discriminate.
Qed.

Lemma guard_of_complete (body : Review.Body) :
  required_fields_present body = true ->
  (negb (truthy (Review.b_userId body)) || negb (truthy (Review.b_movieId body))
   || negb (truthy (Review.b_comment body))
   || match Review.b_rating body with
      | None | Some Null => true
      | Some (Num _) => false
      end)%bool
  = false.
Proof.
  unfold required_fields_present.
  destruct (truthy (Review.b_userId body)), (truthy (Review.b_movieId body)),
    (truthy (Review.b_comment body)), (Review.b_rating body) as [[| v] |];
    simpl; congruence.
Qed.

(** The handler on a pair that has a review: the guard on the required
    fields, then the lookup, and nothing written. *)
Lemma create_on_reviewed_pair (h : Host) (body : Review.Body)
    (w : World) (r : Review.Document) :
  In r (reviews w) ->
  Review.b_userId body = Some (Review.userId r) ->
  Review.b_movieId body = Some (Review.movieId r) ->
  ReviewController_create h body w
  = (Ok (if required_fields_present body
         then respond 409 (Message "Ya has reseñado esta película")
         else respond 400 (Message "Faltan campos obligatorios")), w).
Proof.
  intros Hin Hu Hm.
  unfold ReviewController_create. cbv zeta.
  destruct (required_fields_present body) eqn:Hreq.
  - rewrite (guard_of_complete body Hreq).
    unfold try_catch, bind, ReviewDAO_findByUserAndMovie, findOne.
    cbn [docs ReviewModel].
    destruct (find_finds (by_user_and_movie (Review.b_userId body)
                            (Review.b_movieId body)) (reviews w) r Hin)
      as [r' Hr'].
    { unfold by_user_and_movie, field_is. rewrite Hu, Hm.
      now rewrite !String.eqb_refl. }
    rewrite Hr'. reflexivity.
  - unfold required_fields_present in Hreq.
    destruct (truthy (Review.b_userId body)), (truthy (Review.b_movieId body)),
      (truthy (Review.b_comment body)), (Review.b_rating body) as [[| v] |];
      simpl in Hreq; try discriminate; reflexivity.
Qed.

(** The guard on the required fields comes first: on the sample store,
    which holds a review of movie [m1] by user [u2], a request for that
    pair sent without a comment is answered 400, the answer of the
    handler to a request that lacks a field. *)
Lemma create_second_review_without_comment :
  In Sample.review2 (reviews Sample.world)
  /\ Review.userId Sample.review2 = "u2"
  /\ Review.movieId Sample.review2 = "m1"
  /\ ReviewController_create Sample.host
       (Sample.review_request_without_comment "u2" "m1" 4) Sample.world
     = (Ok (respond 400 (Message "Faltan campos obligatorios")), Sample.world).
Proof.
  split; [simpl; auto |]. split; [reflexivity |]. split; reflexivity.
Qed.

(** C5. A request to create a review (one that passes the check of the
    required fields, which the handler answers 400) for a user and a movie
    of which the store holds a review is answered 409 and leaves the store
    as it was: no second review is created. *)
Theorem create_second_review_conflict (h : Host) (body : Review.Body)
    (w : World) (r : Review.Document) :
  In r (reviews w) ->
  Review.b_userId body = Some (Review.userId r) ->
  Review.b_movieId body = Some (Review.movieId r) ->
  required_fields_present body = true ->
  ReviewController_create h body w
  = (Ok (respond 409 (Message "Ya has reseñado esta película")), w).
Proof.
  intros Hin Hu Hm Hreq.
  rewrite (create_on_reviewed_pair h body w r Hin Hu Hm). now rewrite Hreq.
Qed.

Lemma create_second_review_conflict_witness :
  ReviewController_create Sample.host
    (Sample.review_request "u2" "m1" "Once more" 4) Sample.world
  = (Ok (respond 409 (Message "Ya has reseñado esta película")), Sample.world).
Proof.
  apply (create_second_review_conflict Sample.host _ Sample.world Sample.review2).
  - simpl. auto.
  - reflexivity.
  - reflexivity.
  - reflexivity.
Defined.

(** Whatever else the request carries, no review is added for a pair that
    has one. *)
Lemma create_never_adds_second_review (h : Host) (body : Review.Body)
    (w : World) (r : Review.Document) :
  In r (reviews w) ->
  Review.b_userId body = Some (Review.userId r) ->
  Review.b_movieId body = Some (Review.movieId r) ->
  snd (ReviewController_create h body w) = w.
Proof.
  intros Hin Hu Hm. now rewrite (create_on_reviewed_pair h body w r Hin Hu Hm).
Qed.

(** The validators of the schema enforce the bounds of the data model. *)
Lemma validators_give_invariant (d : Review.Document) :
  ReviewSchema_validators d = None -> review_invariant d.
Proof.
  unfold ReviewSchema_validators, comment_error, rating_error, review_invariant.
  destruct (Review.userId d =? ""); [discriminate |].
  destruct (Review.movieId d =? ""); [discriminate |].
  destruct (Review.comment d =? ""); [discriminate |].
  destruct (Nat.ltb_spec (String.length (Review.comment d)) 3); [discriminate |].
  destruct (Nat.ltb_spec 1000 (String.length (Review.comment d))); [discriminate |].
  destruct (Review.rating d) as [| v]; [discriminate |].
  destruct (1 <=? v)%float eqn:H1; [| discriminate].
  destruct (v <=? 5)%float eqn:H5; [| discriminate].
  intros _. split; [exists v; auto |]. split; lia.
Qed.

(** Creation goes through [save()] and its validators: it keeps the bounds
    on every stored review. *)
Lemma create_keeps_review_invariant (h : Host) (body : Review.Body) (w : World) :
  Forall review_invariant (reviews w) ->
  Forall review_invariant (reviews (snd (ReviewController_create h body w))).
Proof.
  intros Hall. unfold ReviewController_create. cbv zeta.
  match goal with |- context [if ?g then _ else _] => destruct g end;
    [exact Hall |].
  unfold try_catch, bind, ReviewDAO_findByUserAndMovie, findOne.
  cbn [docs ReviewModel].
  destruct (List.find _ (reviews w)); [exact Hall |].
  unfold ReviewDAO_create, GlobalDao_create, try_catch, save.
  cbn [docs with_docs instantiate doc_id unique_clash ReviewModel].
  unfold ReviewSchema_instantiate.
  match goal with
  | |- context [ReviewSchema_validators ?d] =>
      destruct (ReviewSchema_validators d) eqn:Hv; [exact Hall |]
  end.
  match goal with |- context [existsb ?f ?l] => destruct (existsb f l) end;
    [exact Hall |].
  cbn. apply Forall_app. split; [exact Hall |].
  constructor; [| constructor]. now apply validators_give_invariant.
Qed.

(** C7 (code side). From the empty store, a review within the bounds of
    the data model is created (201); the update by user and movie, which
    runs no validator, then answers 200 to a patch with the rating 99 and
    stores it: the one stored review is out of bounds. *)
Theorem update_stores_rating_out_of_range :
  exists r1 w1 r2 w2,
    ReviewController_create Sample.host
      (Sample.review_request "u1" "m1" "Great movie" 3) empty_world
    = (Ok (respond 201 (AReview r1)), w1)
    /\ Forall review_invariant (reviews w1)
    /\ ReviewController_update Sample.host_later
         (Sample.rating_patch "u1" "m1" 99) w1
       = (Ok (respond 200 (AReview r2)), w2)
    /\ reviews w2 = [r2]
    /\ Review.rating r2 = Num 99
    /\ ~ review_invariant r2.
Proof.
  do 4 eexists.
  split; [vm_compute; reflexivity |].
  split.
  { constructor; [| constructor]. unfold review_invariant. simpl.
    split; [exists 3%float; repeat split; reflexivity | lia]. }
  split; [vm_compute; reflexivity |].
  split; [reflexivity |].
  split; [reflexivity |].
  unfold review_invariant. simpl. intros ((v & [= <-] & _ & H5) & _).
  vm_compute in H5. discriminate.
Qed.

(** An update by user and movie stores any rating the patch carries. *)
Lemma update_by_pair_sets_rating (h : Host) (w : World)
    (old : Review.Document) (body : Review.Body) (q : JsNumber) :
  List.find (by_user_and_movie (Review.b_userId body) (Review.b_movieId body))
            (reviews w) = Some old ->
  Review.b_rating body = Some q ->
  forall r w',
  ReviewController_update h body w = (Ok (respond 200 (AReview r)), w') ->
  Review.rating r = q.
Proof.
  intros Hfind Hq r w'.
  unfold ReviewController_update, ReviewDAO_updateByUserAndMovie,
    try_catch, bind, findOneAndUpdate.
  cbn [docs with_docs doc_id unique_clash validators restamp ReviewModel].
  rewrite Hfind. cbn.
  rewrite String.eqb_refl. cbn.
  match goal with |- context [existsb ?f ?l] => destruct (existsb f l) end.
  - cbn. discriminate.
  - cbn. intros [= <- _]. cbn. now rewrite Hq.
Qed.

(** C9 (code side). When the creation of a review fails in the DAO, the
    handler sends the message of the error, as thrown, in the body of its
    500 answer. *)
Theorem review_create_sends_error_detail (h : Host) (body : Review.Body)
    (w w' : World) (e : string) :
  required_fields_present body = true ->
  List.find (by_user_and_movie (Review.b_userId body) (Review.b_movieId body))
            (reviews w) = None ->
  ReviewDAO_create h body w = (Throw e, w') ->
  ReviewController_create h body w = (Ok (respond 500 (Message e)), w').
Proof.
  intros Hreq Hnone Hthrow.
  unfold ReviewController_create. cbv zeta.
  rewrite (guard_of_complete body Hreq).
  unfold try_catch, bind, ReviewDAO_findByUserAndMovie, findOne.
  cbn [docs ReviewModel]. rewrite Hnone, Hthrow. reflexivity.
Qed.

Lemma review_create_sends_error_detail_witness :
  ReviewController_create Sample.host
    (Sample.review_request "u2" "m2" "Fine" 7) Sample.world
  = (Ok (respond 500
           (Message "Error creating document: Review validation failed: rating: La calificación máxima es 5")),
     Sample.world).
Proof.
  apply (review_create_sends_error_detail Sample.host _ Sample.world).
  - reflexivity.
  - reflexivity.
  - reflexivity.
Defined.

(** The favorite handler, on the same failure, sends a fixed message. *)
Lemma favorite_create_hides_error_detail (h : Host) (body : Favorite.Body)
    (w w' : World) (e : string) :
  truthy (Favorite.b_userId body) = true ->
  truthy (Favorite.b_movieId body) = true ->
  FavoriteDAO_create h body w = (Throw e, w') ->
  exists w'',
    FavoriteController_create h body w
    = (Ok (respond 500 (Message "Internal Server Error")), w'').
Proof.
  intros Hu Hm Hthrow.
  unfold FavoriteController_create, try_catch, bind.
  rewrite Hu, Hm. cbn. rewrite Hthrow.
  unfold internal_error, bind.
  destruct (development h); cbn; eexists; reflexivity.
Qed.

(** ** Passwords *)

Lemma lookahead_needs_char (X : ascii -> bool) (s : string) :
  lookahead_dot_star X s = true -> any_char X s = true.
Proof.
  induction s as [|c s IH]; simpl; [discriminate |].
  destruct (X c); simpl; [reflexivity |].
  intros H. apply andb_true_iff in H. now apply IH.
Qed.

Lemma weak_password_fails_regex (p : string) :
  weak_password p -> passwordRegex_test p = false.
Proof.
  unfold passwordRegex_test.
  intros [Hlen | [Hup | [Hdig | Hsym]]].
  - destruct (Nat.leb_spec 8 (String.length p)); [lia |].
    now rewrite !andb_false_r.
  - destruct (lookahead_dot_star is_upper p) eqn:L; [| reflexivity].
    apply lookahead_needs_char in L. congruence.
  - destruct (lookahead_dot_star is_digit p) eqn:L;
      [| now rewrite andb_false_r].
    apply lookahead_needs_char in L. congruence.
  - destruct (lookahead_dot_star is_special p) eqn:L;
      [| now rewrite !andb_false_r].
    apply lookahead_needs_char in L. congruence.
Qed.

Lemma weak_password_message (body : User.Body) (p : string) :
  User.b_password body = Some p -> weak_password p ->
  exists m body', passwordValidation body = (Some m, body').
Proof.
  intros Hp Hweak. unfold passwordValidation.
  destruct (loose_eq _ _); simpl; [| eauto].
  rewrite Hp. simpl. rewrite (weak_password_fails_regex p Hweak). simpl. eauto.
Qed.

(** C4. A registration or a password reset whose password is under eight
    characters, or has no upper-case letter, no digit or no symbol, is
    refused by [passwordValidation]; both handlers answer 400 and leave the
    store as it was. *)
Theorem weak_password_rejected {C : Crypto} (h : Host) (body : User.Body)
    (w : World) (p : string) :
  User.b_password body = Some p ->
  weak_password p ->
  fst (passwordValidation body) <> None
  /\ (exists m,
        UserController_create h body w = (Ok (respond 400 (Message m)), w))
  /\ (exists m,
        UserController_resetPassword h body w
        = (Ok (respond 400 (Message m)), w)).
Proof.
  intros Hp Hweak.
  destruct (weak_password_message body p Hp Hweak) as (m & body' & Hval).
  split; [| split].
  - rewrite Hval. discriminate.
  - exists m. unfold UserController_create. rewrite Hval. reflexivity.
  - unfold UserController_resetPassword, try_catch, bind,
      UserDAO_readByResetToken, try_catch, findOne.
    cbn [docs UserModel].
    destruct (List.find _ (users w)).
    + exists m. rewrite Hval. reflexivity.
    + eexists. reflexivity.
Qed.

Lemma weak_password_rejected_witness :
  fst (passwordValidation (Sample.user_request "eva@lumix.co" "secret123!" None))
  <> None
  /\ (exists m,
        UserController_create (C := Reference.crypto) Sample.host
          (Sample.user_request "eva@lumix.co" "secret123!" None) Sample.world
        = (Ok (respond 400 (Message m)), Sample.world))
  /\ (exists m,
        UserController_resetPassword (C := Reference.crypto) Sample.host
          (Sample.user_request "eva@lumix.co" "secret123!" None) Sample.world
        = (Ok (respond 400 (Message m)), Sample.world)).
Proof.
  apply (weak_password_rejected (C := Reference.crypto) Sample.host _
           Sample.world "secret123!").
  - reflexivity.
  - right. left. reflexivity.
Defined.

(** ** The profile of the logged user *)

Lemma set_path_allowed (u : User.Document) (field : string)
    (v : option User.Value) :
  In field allowedFields ->
  without_profile (set_path u field v) = without_profile u.
Proof.
  unfold allowedFields.
  intros [<- | [<- | [<- | [<- | []]]]]; destruct v as [[s | n] |]; reflexivity.
Qed.

Lemma Object_assign_allowed (updates : list (string * option User.Value)) :
  Forall (fun entry => In (fst entry) allowedFields) updates ->
  forall u, without_profile (Object_assign u updates) = without_profile u.
Proof.
  unfold Object_assign.
  induction 1 as [|entry updates Hentry _ IH]; intros u; simpl; [reflexivity |].
  rewrite IH. now apply set_path_allowed.
Qed.

Lemma same_protected_of_erasure (old new : User.Document) :
  without_profile new = without_profile old -> same_protected old new.
Proof.
  intros E. unfold same_protected.
  repeat split;
    [ exact (f_equal User._id E) | exact (f_equal User.password E)
    | exact (f_equal User.resetPasswordToken E)
    | exact (f_equal User.resetPasswordExpires E)
    | exact (f_equal User.createdAt E) ].
Qed.

Lemma restamp_keeps_erasure (now_ : Z) (old d : User.Document) :
  without_profile d = without_profile old ->
  without_profile (User.restamp now_ old d) = without_profile old.
Proof.
  unfold without_profile, User.restamp. cbn. intros [= -> -> -> -> _].
  reflexivity.
Qed.

Lemma Forall2_same {A} (R : A -> A -> Prop) (l : list A) :
  (forall x, R x x) -> Forall2 R l l.
Proof. intros Hrefl. induction l; constructor; auto. Qed.

Lemma replace_first_pointwise {T D} `{Model T D} (R : T -> T -> Prop)
    (f : T -> bool) (d old : T) (l : list T) :
  (forall x, R x x) ->
  List.find f l = Some old ->
  R old d ->
  Forall2 R l (replace_first f d l).
Proof.
  intros Hrefl. induction l as [|x l IH]; simpl; [discriminate |].
  destruct (f x).
  - intros [= ->] Hr. constructor; [exact Hr |].
    now apply Forall2_same.
  - intros Hfind Hr. constructor; auto.
Qed.

(** C10 (as stated, refuted). Ana changes her first name: the answer is 200
    and, besides the first name, the [updatedAt] stamp of her record has
    moved from 1000 to the time of the request. *)
Lemma editLoggedUser_moves_updatedAt :
  let result :=
    UserController_editLoggedUser Sample.host (Some "u1")
      Sample.new_first_name Sample.world in
  fst result = Ok (respond 200 (Message "User information updated successfully"))
  /\ map User.updatedAt (users Sample.world) = [1000; 1000]%Z
  /\ map User.updatedAt (users (snd result)) = [5000; 1000]%Z.
Proof. vm_compute. repeat split. Qed.

(** C10 (amended). An edit of the profile changes at most the record of
    the logged user, and in it at most [firstName], [lastName], [age],
    [email] and the [updatedAt] stamp of the store: record by record, the
    users after the call have the [_id], [password], [resetPasswordToken],
    [resetPasswordExpires] and [createdAt] they had before it, whatever the
    request body carries, and the records of other users are the same;
    reviews and favorites are untouched. *)
Theorem editLoggedUser_frame (h : Host) (userId : option string)
    (body : User.Body) (w : World) :
  let w' := snd (UserController_editLoggedUser h userId body w) in
  Forall2 (fun old new =>
             same_protected old new
             /\ (User._id old <> or_empty userId -> new = old))
          (users w) (users w')
  /\ reviews w' = reviews w
  /\ favorites w' = favorites w.
Proof.
  set (R := fun old new : User.Document =>
              same_protected old new
              /\ (User._id old <> or_empty userId -> new = old)).
  assert (Hrefl : forall x, R x x)
    by (intros x; split; [now apply same_protected_of_erasure | auto]).
  assert (Hsame : Forall2 R (users w) (users w)) by now apply Forall2_same.
  cbv zeta. unfold UserController_editLoggedUser.
  destruct (truthy userId); cbn [negb]; [| cbn; auto].
  unfold try_catch, bind, UserDAO_read, GlobalDao_read, try_catch, bind,
    findById, findOne.
  cbn [docs UserModel].
  destruct (List.find (has_id (or_empty userId)) (users w)) as [u |] eqn:Hfind;
    [| cbn; auto].
  cbn [ret throw is_truthy negb].
  match goal with
  | |- context [Object_assign u ?ups] => set (updates := ups)
  end.
  assert (Hkeep : without_profile (Object_assign u updates) = without_profile u).
  { apply Object_assign_allowed. subst updates.
    apply Forall_forall. intros entry Hentry.
    apply in_map_iff in Hentry. destruct Hentry as (field & <- & Hfield).
    apply filter_In in Hfield. exact (proj1 Hfield). }
  assert (Hid : User._id (Object_assign u updates) = User._id u).
  { now apply (f_equal User._id) in Hkeep. }
  destruct (find_some_in _ _ _ Hfind) as [_ Hu].
  unfold has_id in Hu. cbn [doc_id UserModel] in Hu. apply String.eqb_eq in Hu.
  unfold UserDAO_update, GlobalDao_update, try_catch, bind,
    findByIdAndUpdate, findOneAndUpdate.
  cbn [docs with_docs doc_id validators unique_clash restamp UserModel].
  rewrite Hid, Hu, Hfind.
  destruct (UserSchema_validators _); [cbn; auto |].
  destruct (negb _); [cbn; auto |].
  destruct (existsb _ _); [cbn; auto |].
  cbn. split; [| auto].
  apply (replace_first_pointwise R _ _ u); auto.
  split; [now apply same_protected_of_erasure, restamp_keeps_erasure |].
  intros Hne. now contradiction Hne.
Qed.

(** The edit does change the profile: a first name and a password sent
    together give a record with the new first name and the old password. *)
Example editLoggedUser_sample :
  let body := {| User.b_firstName := Some "Anita"; User.b_lastName := None;
                 User.b_age := None; User.b_email := None;
                 User.b_password := Some "Hacked123!";
                 User.b_confirmPassword := None; User.b_token := None;
                 User.b_resetPasswordToken := Some "forged";
                 User.b_resetPasswordExpires := Some 9999999%Z |} in
  let result := UserController_editLoggedUser Sample.host (Some "u1") body
                  Sample.world in
  fst result = Ok (respond 200 (Message "User information updated successfully"))
  /\ map User.firstName (users (snd result)) = ["Anita"; "Luis"]
  /\ map User.password (users (snd result))
     = map User.password (users Sample.world)
  /\ map User.resetPasswordToken (users (snd result)) = [None; None].
Proof. vm_compute. repeat split. Qed.

(** ** The reference libraries keep the promises of [CryptoLaws] *)

Lemma strip_any_prefix_app (s t : string) :
  Reference.strip_any_prefix (String.length s) (s ++ t) = t.
Proof. induction s as [|c s IH]; simpl; [now destruct t | exact IH]. Qed.

Lemma strip_prefix_app (p s : string) :
  Reference.strip_prefix p (p ++ s) = Some s.
Proof.
  induction p as [|c p IH]; simpl; [reflexivity |].
  now rewrite Ascii.eqb_refl.
Qed.

Lemma length_app (s t : string) :
  String.length (s ++ t) = (String.length s + String.length t)%nat.
Proof. induction s; simpl; auto. Qed.

Lemma app_assoc_string (s t r : string) : (s ++ t) ++ r = s ++ t ++ r.
Proof. induction s as [|c s IH]; simpl; [reflexivity | now rewrite IH]. Qed.

Lemma read_unary_unary (n : nat) (s : string) :
  Reference.read_unary (Reference.unary n ++ String "." s) = (n, String "." s).
Proof. induction n as [|n IH]; simpl; [reflexivity | now rewrite IH]. Qed.

Lemma reference_laws : CryptoLaws Reference.crypto.
Proof.
  constructor; cbn [bcrypt_hash bcrypt_compare jwt_sign jwt_verify Reference.crypto].
  - intros password salt_. unfold Reference.compare, Reference.hash.
    rewrite length_app, Nat.add_sub, strip_any_prefix_app.
    apply String.eqb_refl.
  - intros userId secret expiresIn clock clock' Hlt.
    unfold Reference.verify, Reference.sign.
    rewrite <- (app_assoc_string secret "."), strip_prefix_app.
    change ("." ++ userId) with (String "." userId).
    rewrite read_unary_unary.
    destruct (Z.ltb_spec (clock' / 1000)
                (Z.of_nat (Z.to_nat (clock / 1000 + expiresIn)))); [reflexivity | lia].
  - intros userId secret expiresIn clock. unfold Reference.sign.
    destruct secret; discriminate.
Qed.

(** ** Login and the verification of its token *)

Lemma find_by_unique_key {A} (key : A -> string) (f : A -> bool)
    (l : list A) (a : A) :
  NoDup (map key l) ->
  In a l ->
  (forall x, f x = (key x =? key a)) ->
  List.find f l = Some a.
Proof.
  intros Hnd Hin Hf. induction l as [|x l IH]; simpl in *; [contradiction |].
  inversion Hnd as [|k ks Hnotin Hnd']; subst.
  rewrite Hf. destruct (String.eqb_spec (key x) (key a)) as [E | NE].
  - destruct Hin as [-> | Hin]; [reflexivity |].
    exfalso. apply Hnotin. rewrite E. now apply in_map.
  - destruct Hin as [-> | Hin]; [now contradiction NE |]. now apply IH.
Qed.

(** C1 (as stated, refuted). Ana is a stored user and her record holds the
    [bcrypt] hash of her password; on a host where [COOKIE_CONTROL] is not
    set, her login with that password is answered 500 and sets no cookie:
    no token is issued. *)
Lemma login_without_cookie_mode :
  In Sample.ana (users Sample.world)
  /\ User.password Sample.ana
     = bcrypt_hash (Crypto := Reference.crypto) "Secret123!" "$2b$10$"
  /\ UserController_login (C := Reference.crypto) Sample.host_without_cookie_mode
       (Sample.user_request "ana@lumix.co" "Secret123!" None) Sample.world
     = (Ok {| status := 500; json := Message "Internal Server Error";
              cookie := None |}, Sample.world).
Proof.
  split; [simpl; auto |]. split; [reflexivity |]. vm_compute. reflexivity.
Qed.

(** A cookie mode the serializer accepts is a cookie mode that is set. *)
Lemma valid_sameSite_is_set (v : option string) :
  sameSite_valid (or_empty v) = true -> truthy v = true.
Proof.
  destruct v as [s |]; cbn [or_empty truthy]; [| discriminate].
  destruct (String.eqb_spec s "") as [-> | _]; [discriminate | reflexivity].
Qed.

(** C1 (amended). With the signing secret configured and the cookie mode
    set to one the cookie serializer accepts (strict, lax or none), a login
    with the email of a stored user and the password whose [bcrypt] hash
    the record holds is answered 200 with a [token] cookie, and the
    middleware, given that cookie on a host with the same environment at
    once, or at any time before the second the token expires in (two hours
    after the second of its issue), hands on the identifier of that
    user. *)
Theorem login_then_authenticate {C : Crypto} (L : CryptoLaws C)
    (h h' : Host) (w : World) (u : User.Document) (plain salt_ : string)
    (body : User.Body) :
  NoDup (map User.email (users w)) ->
  In u (users w) ->
  User.password u = bcrypt_hash plain salt_ ->
  User.b_email body = Some (User.email u) ->
  User.b_password body = Some plain ->
  truthy (JWT_SECRET (env h)) = true ->
  sameSite_valid (or_empty (COOKIE_CONTROL (env h))) = true ->
  env h' = env h ->
  (now h' / 1000 < now h / 1000 + 2 * 3600)%Z ->
  exists c,
    UserController_login h body w
    = (Ok {| status := 200;
             json := LoggedIn "Login successful" (User._id u) (User.email u);
             cookie := Some c |}, w)
    /\ cookie_name c = "token"
    /\ authenticateToken h' (Some (cookie_value c)) = Next (User._id u).
Proof.
  intros Hnd Hin Hhash Hemail Hpw Hsecret Hcookie Henv Htime.
  unfold UserController_login, try_catch, bind, UserDAO_readByEmail,
    try_catch, findOne.
  cbn [docs UserModel].
  rewrite (find_by_unique_key User.email _ (users w) u Hnd Hin)
    by (intros x; rewrite Hemail; reflexivity).
  rewrite Hpw. cbn [compare_password ret].
  rewrite Hhash, compare_hash. cbn [negb].
  rewrite Hsecret, (valid_sameSite_is_set _ Hcookie). cbn [negb].
  unfold res_cookie. cbn [sameSite token_cookie]. rewrite Hcookie. cbn [ret].
  eexists. split; [reflexivity |]. split; [reflexivity |].
  cbn [cookie_value token_cookie].
  unfold authenticateToken. rewrite Henv, Hsecret.
  assert (Hne : truthy (Some (jwt_sign (User._id u)
                                (or_empty (JWT_SECRET (env h))) (2 * 3600) (now h)))
                = true).
  { cbn [truthy]. apply negb_true_iff, String.eqb_neq, sign_not_empty. }
  rewrite Hne. cbn [negb or_empty].
  rewrite verify_sign; [reflexivity | exact Htime].
Qed.

Lemma login_then_authenticate_witness :
  exists c,
    UserController_login (C := Reference.crypto) Sample.host
      (Sample.user_request "ana@lumix.co" "Secret123!" None) Sample.world
    = (Ok {| status := 200;
             json := LoggedIn "Login successful" "u1" "ana@lumix.co";
             cookie := Some c |}, Sample.world)
    /\ cookie_name c = "token"
    /\ authenticateToken (C := Reference.crypto) Sample.host_later
         (Some (cookie_value c)) = Next "u1".
Proof.
  apply (login_then_authenticate reference_laws Sample.host Sample.host_later
           Sample.world Sample.ana "Secret123!" "$2b$10$").
  - simpl. repeat constructor; simpl; intuition discriminate.
  - simpl. auto.
  - reflexivity.
  - reflexivity.
  - reflexivity.
  - reflexivity.
  - reflexivity.
  - reflexivity.
  - vm_compute. reflexivity.
Defined.

(** ** Password reset *)

Lemma NoDup_map_inj {A} (key : A -> string) (l : list A) (a b : A) :
  NoDup (map key l) -> In a l -> In b l -> key a = key b -> a = b.
Proof.
  induction l as [|x l IH]; simpl; [contradiction |].
  intros Hnd Ha Hb E. inversion Hnd as [|k ks Hnotin Hnd']; subst.
  destruct Ha as [-> | Ha], Hb as [-> | Hb]; auto.
  - exfalso. apply Hnotin. rewrite E. now apply in_map.
  - exfalso. apply Hnotin. rewrite <- E. now apply in_map.
Qed.

Lemma replace_first_elements {T D} `{Model T D} (id : string) (d : T)
    (l : list T) (x : T) :
  NoDup (map doc_id l) ->
  In x (replace_first (has_id id) d l) ->
  x = d \/ (In x l /\ doc_id x <> id).
Proof.
  induction l as [|a l IH]; simpl; [contradiction |].
  intros Hnd Hx. inversion Hnd as [|k ks Hnotin Hnd']; subst.
  unfold has_id in Hx at 1.
  destruct (String.eqb_spec (doc_id a) id) as [E | NE].
  - destruct Hx as [<- | Hx]; [now left |].
    right. split; [now right |].
    intros E'. apply Hnotin. rewrite E, <- E'. now apply in_map.
  - destruct Hx as [<- | Hx]; [right; split; auto |].
    destruct (IH Hnd' Hx) as [-> | [Hin Hne]]; [now left |].
    right. split; [now right | exact Hne].
Qed.

(** A branch of a handler that ends in an answer other than 200. *)
Ltac not_200 :=
  cbn; unfold internal_error, bind;
  match goal with
  | |- context [development ?h] => destruct (development h)
  | _ => idtac
  end;
  cbn; intros [= <- <-]; discriminate.

(** What a successful reset did: the record the filter found now holds a
    new password and neither token nor expiry; nothing else changed. *)
Lemma resetPassword_success {C : Crypto} (h : Host) (body : User.Body)
    (w w1 : World) (r : Response) :
  UserController_resetPassword h body w = (Ok r, w1) ->
  status r = 200%Z ->
  exists u d,
    List.find (reset_filter (now h) (User.b_email body) (User.b_token body))
              (users w) = Some u
    /\ users w1 = replace_first (has_id (User._id u)) d (users w)
    /\ User.resetPasswordToken d = None
    /\ User.resetPasswordExpires d = None.
Proof.
  unfold UserController_resetPassword, try_catch, bind,
    UserDAO_readByResetToken, try_catch, findOne.
  cbn [docs UserModel].
  destruct (List.find _ (users w)) as [u |] eqn:Hfind; [| not_200].
  destruct (passwordValidation body) as [[m |] body']; [not_200 |].
  unfold hashPassword.
  destruct (User.b_password body') as [p |]; [| not_200].
  cbn [ret set_body_password User.b_password or_empty].
  unfold UserDAO_update, GlobalDao_update, try_catch, bind,
    findByIdAndUpdate, findOneAndUpdate.
  cbn [docs with_docs doc_id validators unique_clash restamp UserModel
       User.set_password User.set_resetPasswordToken
       User.set_resetPasswordExpires User._id].
  destruct (List.find (has_id (User._id u)) (users w)) as [old |]; [| not_200].
  destruct (UserSchema_validators _); [not_200 |].
  destruct (negb _); [not_200 |].
  destruct (existsb _ _); [not_200 |].
  cbn. intros [= <- <-] _. eexists u, _.
  split; [reflexivity |]. split; [reflexivity |]. split; reflexivity.
Qed.

(** After a successful reset no record matches the email and the token it
    was made with, at any time. *)
Lemma second_reset_finds_nothing {C : Crypto} (h1 : Host) (w w1 : World)
    (email_ token : string) (body1 : User.Body) (r1 : Response) (now2 : Z) :
  unique_users (users w) ->
  User.b_email body1 = Some email_ -> User.b_token body1 = Some token ->
  UserController_resetPassword h1 body1 w = (Ok r1, w1) ->
  status r1 = 200%Z ->
  List.find (reset_filter now2 (Some email_) (Some token)) (users w1) = None.
Proof.
  intros [Hids Hemails] He1 Ht1 Hrun Hok.
  destruct (resetPassword_success h1 body1 w w1 r1 Hrun Hok)
    as (u & d & Hfind & Husers & _ & Hexpires).
  rewrite He1, Ht1 in Hfind.
  destruct (find_some_in _ _ _ Hfind) as [Hin Hmatch].
  unfold reset_filter in Hmatch.
  apply andb_true_iff in Hmatch. destruct Hmatch as [Hmatch _].
  apply andb_true_iff in Hmatch. destruct Hmatch as [Hmail _].
  cbn [field_is] in Hmail. apply String.eqb_eq in Hmail.
  apply find_none_iff. intros x Hx.
  rewrite Husers in Hx.
  apply (replace_first_elements (T := User.Document)) in Hx; [| exact Hids].
  unfold reset_filter.
  destruct Hx as [-> | [Hxin Hxid]].
  - rewrite Hexpires. cbn. now rewrite !andb_false_r.
  - replace (field_is (Some email_) (User.email x)) with false; [reflexivity |].
    symmetry. cbn [field_is]. apply String.eqb_neq. intros E.
    apply Hxid. cbn [doc_id UserModel]. f_equal.
    apply (NoDup_map_inj User.email (users w)); auto. congruence.
Qed.

(** C2. In a store whose users have distinct identifiers and distinct
    emails, once a reset with an email and a token has succeeded, a reset
    with the same email and token, whenever it comes and whatever password
    it carries, is answered 400 with the message of the invalid or expired
    token, and the store, passwords included, stays as the first reset left
    it. *)
Theorem reset_token_single_use {C : Crypto} (h1 h2 : Host) (w w1 : World)
    (email_ token : string) (body1 body2 : User.Body) (r1 : Response) :
  unique_users (users w) ->
  User.b_email body1 = Some email_ -> User.b_token body1 = Some token ->
  User.b_email body2 = Some email_ -> User.b_token body2 = Some token ->
  UserController_resetPassword h1 body1 w = (Ok r1, w1) ->
  status r1 = 200%Z ->
  UserController_resetPassword h2 body2 w1
  = (Ok (respond 400 (Message "Token inválido o expirado")), w1).
Proof.
  intros Huniq He1 Ht1 He2 Ht2 Hrun Hok.
  unfold UserController_resetPassword, try_catch, bind,
    UserDAO_readByResetToken, try_catch, findOne.
  cbn [docs UserModel].
  rewrite He2, Ht2.
  rewrite (second_reset_finds_nothing h1 w w1 email_ token body1 r1 (now h2))
    by assumption.
  reflexivity.
Qed.

Lemma reset_token_single_use_witness :
  exists w1,
    UserController_resetPassword (C := Reference.crypto) Sample.host
      (Sample.user_request "ana@lumix.co" "NewSecret1!" (Some "reset-token-1"))
      Sample.world_pending
    = (Ok (respond 200 (Message "Password has been reset successfully")), w1)
    /\ UserController_resetPassword (C := Reference.crypto) Sample.host_later
         (Sample.user_request "ana@lumix.co" "Another2?x" (Some "reset-token-1"))
         w1
       = (Ok (respond 400 (Message "Token inválido o expirado")), w1).
Proof.
  eexists. split; [vm_compute; reflexivity |].
  apply (reset_token_single_use (C := Reference.crypto)
           Sample.host Sample.host_later Sample.world_pending _
           "ana@lumix.co" "reset-token-1"
           (Sample.user_request "ana@lumix.co" "NewSecret1!" (Some "reset-token-1"))
           (Sample.user_request "ana@lumix.co" "Another2?x" (Some "reset-token-1"))
           (respond 200 (Message "Password has been reset successfully"))).
  - split; simpl; repeat constructor; simpl; intuition discriminate.
  - reflexivity.
  - reflexivity.
  - reflexivity.
  - reflexivity.
  - vm_compute. reflexivity.
  - reflexivity.
Defined.

(** ** Forgotten passwords *)

(** C3 (as stated, refuted). On the sample store the request for the
    email of a stored user is answered 200 with one message, the request
    for an email no user has 202 with another: the answer tells the two
    apart. *)
Lemma forgotPassword_reveals_registration :
  In Sample.ana (users Sample.world)
  /\ User.email Sample.ana = "ana@lumix.co"
  /\ (forall u, In u (users Sample.world) -> User.email u <> "nobody@lumix.co")
  /\ fst (UserController_forgotPassword (C := Reference.crypto) Sample.host
            (Sample.user_request "ana@lumix.co" "" None) Sample.world)
     = Ok (respond 200 (Message "Password reset email sent"))
  /\ fst (UserController_forgotPassword (C := Reference.crypto) Sample.host
            (Sample.user_request "nobody@lumix.co" "" None) Sample.world)
     = Ok (respond 202
             (Message "If the email is registered, you will receive a password reset email")).
Proof.
  split; [simpl; auto |]. split; [reflexivity |]. split.
  - simpl. intros u [<- | [<- | []]]; discriminate.
  - split; vm_compute; reflexivity.
Qed.

Lemma no_other_user_with_email (l : list User.Document) (u d : User.Document) :
  NoDup (map User.email l) ->
  In u l ->
  User.email d = User.email u ->
  existsb (fun x => negb (has_id (User._id u) x) && User_same_email x d)%bool l
  = false.
Proof.
  intros Hnd Hin Hd.
  destruct (existsb _ l) eqn:Hex; [| reflexivity].
  apply existsb_exists in Hex. destruct Hex as (x & Hx & Hc).
  apply andb_true_iff in Hc. destruct Hc as [Hid Hmail].
  unfold User_same_email in Hmail. apply String.eqb_eq in Hmail.
  assert (x = u) as -> by (apply (NoDup_map_inj User.email l); auto; congruence).
  unfold has_id in Hid. cbn [doc_id UserModel] in Hid.
  now rewrite String.eqb_refl in Hid.
Qed.

(** A branch of [forgotPassword] that ends in the fixed 500 answer. *)
Ltac answered_500 :=
  cbn; eexists; eexists; split; [reflexivity | now right].

(** C3 (amended). A request with an email no stored user has is answered
    202 with the generic message and changes nothing.  A request with the
    email of a stored user is answered 200 with the message that the mail
    was sent, or 500 with a fixed message, never 202; it is 200 when the
    secret and an origin are configured, the record passes the validators
    of the schema and the mail service accepts the message. *)
Theorem forgotPassword_answers {C : Crypto} (h : Host) (body : User.Body)
    (w : World) (e : string) :
  User.b_email body = Some e ->
  ((forall u, In u (users w) -> User.email u <> e) ->
   UserController_forgotPassword h body w = (Ok answer_unregistered, w))
  /\ (forall u, In u (users w) -> User.email u = e ->
      exists r w',
        UserController_forgotPassword h body w = (Ok r, w')
        /\ (r = answer_registered
            \/ r = respond 500 (Message "Internal Server Error")))
  /\ (forall u, In u (users w) -> User.email u = e ->
      unique_users (users w) ->
      UserSchema_validators u = None ->
      truthy (JWT_SECRET (env h)) = true ->
      origins h <> [] ->
      sendgrid_error h = None ->
      exists w',
        UserController_forgotPassword h body w = (Ok answer_registered, w')).
Proof.
  intros He.
  unfold UserController_forgotPassword, try_catch, bind,
    UserDAO_readByEmail, try_catch, findOne.
  cbn [docs UserModel]. rewrite He.
  split; [| split].
  - intros Hnone.
    replace (List.find (fun u => field_is (Some e) (User.email u)) (users w))
      with (@None User.Document); [reflexivity |].
    symmetry. apply find_none_iff. intros x Hx. cbn [field_is].
    apply String.eqb_neq. now apply Hnone.
  - intros u Hin Hmail.
    destruct (find_finds (fun u => field_is (Some e) (User.email u))
                (users w) u Hin) as [u' ->].
    { cbn [field_is]. now apply String.eqb_eq. }
    destruct (truthy (JWT_SECRET (env h))); cbn [negb]; [| answered_500].
    unfold UserDAO_update, GlobalDao_update, try_catch, bind,
      findByIdAndUpdate, findOneAndUpdate.
    cbn [docs with_docs doc_id validators unique_clash restamp UserModel
         User.set_resetPasswordToken User.set_resetPasswordExpires
         User.restamp User._id User.email].
    destruct (List.find (has_id (User._id u')) (users w)); [| answered_500].
    destruct (UserSchema_validators _); [answered_500 |].
    destruct (negb _); [answered_500 |].
    destruct (existsb _ _); [answered_500 |].
    cbn [ret throw].
    destruct (origins h); [answered_500 |].
    unfold sgMail_send.
    destruct (sendgrid_error h);
      cbn; eexists; eexists; (split; [reflexivity |]); [now right | now left].
  - intros u Hin Hmail [Hids Hemails] Hvalid Hsecret Horigin Hmailer.
    rewrite (find_by_unique_key User.email _ (users w) u Hemails Hin)
      by (intros x; cbn [field_is]; now rewrite Hmail).
    rewrite Hsecret. cbn [negb].
    unfold UserDAO_update, GlobalDao_update, try_catch, bind,
      findByIdAndUpdate, findOneAndUpdate.
    cbn [docs with_docs doc_id validators unique_clash restamp UserModel
         User.set_resetPasswordToken User.set_resetPasswordExpires
         User.restamp User._id User.email].
    rewrite (find_by_unique_key User._id _ (users w) u Hids Hin)
      by (intros x; reflexivity).
    change (UserSchema_validators _) with (UserSchema_validators u).
    rewrite Hvalid. rewrite String.eqb_refl. cbn [negb].
    rewrite (no_other_user_with_email (users w) u) by auto.
    cbn [ret throw].
    destruct (origins h) as [|baseUrl rest]; [now contradiction Horigin |].
    unfold sgMail_send. rewrite Hmailer. cbn. eexists. reflexivity.
Qed.

Lemma forgotPassword_answers_witness :
  UserController_forgotPassword (C := Reference.crypto) Sample.host
    (Sample.user_request "nobody@lumix.co" "" None) Sample.world
  = (Ok answer_unregistered, Sample.world)
  /\ exists w',
       UserController_forgotPassword (C := Reference.crypto) Sample.host
         (Sample.user_request "ana@lumix.co" "" None) Sample.world
       = (Ok answer_registered, w').
Proof.
  split.
  - apply (forgotPassword_answers (C := Reference.crypto) Sample.host
             (Sample.user_request "nobody@lumix.co" "" None) Sample.world
             "nobody@lumix.co" eq_refl).
    simpl. intros u [<- | [<- | []]]; discriminate.
  - apply (proj2 (proj2 (forgotPassword_answers (C := Reference.crypto)
             Sample.host (Sample.user_request "ana@lumix.co" "" None)
             Sample.world "ana@lumix.co" eq_refl)) Sample.ana).
    + simpl. auto.
    + reflexivity.
    + split; simpl; repeat constructor; simpl; intuition discriminate.
    + reflexivity.
    + reflexivity.
    + discriminate.
    + reflexivity.
Defined.

(** ** The unique indexes of the users are an invariant of the server *)

Lemma keeps_ret {A} (P : World -> Prop) (a : A) : keeps P (ret a).
Proof. intros w Hw. exact Hw. Qed.

Lemma keeps_throw {A} (P : World -> Prop) (e : string) : keeps P (@throw A e).
Proof. intros w Hw. exact Hw. Qed.

Lemma keeps_bind {A B} (P : World -> Prop) (m : M A) (k : A -> M B) :
  keeps P m -> (forall a, keeps P (k a)) -> keeps P (bind m k).
Proof.
  intros Hm Hk w Hw. unfold bind. specialize (Hm w Hw).
  destruct (m w) as [[a | e] w1]; simpl in *; [now apply Hk | exact Hm].
Qed.

Lemma keeps_try_catch {A} (P : World -> Prop) (m : M A) (h : string -> M A) :
  keeps P m -> (forall e, keeps P (h e)) -> keeps P (try_catch m h).
Proof.
  intros Hm Hh w Hw. unfold try_catch. specialize (Hm w Hw).
  destruct (m w) as [[a | e] w1]; simpl in *; [exact Hm | now apply Hh].
Qed.

Lemma keeps_console_write (line : string) : keeps users_indexed (console_write line).
Proof. intros w Hw. exact Hw. Qed.

Lemma keeps_sgMail_send (h : Host) (msg : Mail) :
  keeps users_indexed (sgMail_send h msg).
Proof.
  intros w Hw. unfold sgMail_send. destruct (sendgrid_error h); exact Hw.
Qed.

Lemma keeps_internal_error (h : Host) (label generic e : string) :
  keeps users_indexed (internal_error h label generic e).
Proof.
  unfold internal_error. apply keeps_bind; [| intros; apply keeps_ret].
  destruct (development h); [apply keeps_console_write | apply keeps_ret].
Qed.

Lemma keeps_findOne {T D} `{Model T D} (P : World -> Prop) (f : T -> bool) :
  keeps P (findOne f).
Proof. intros w Hw. exact Hw. Qed.

Lemma keeps_find {T D} `{Model T D} (P : World -> Prop) (f : T -> bool) :
  keeps P (find f).
Proof. intros w Hw. exact Hw. Qed.

Lemma keeps_save_elsewhere {T D} `{Model T D} (h : Host) (data : D) :
  leaves_users -> keeps users_indexed (save h data).
Proof.
  intros Hl w Hw. unfold save.
  destruct (instantiate h data); [| exact Hw].
  destruct (existsb _ _); [exact Hw |].
  unfold users_indexed. simpl. now rewrite Hl.
Qed.

Lemma keeps_findOneAndUpdate_elsewhere {T D} `{Model T D} (h : Host)
    (f : T -> bool) (update : T -> T) (v : bool) :
  leaves_users -> keeps users_indexed (findOneAndUpdate h f update v).
Proof.
  intros Hl w Hw. unfold findOneAndUpdate.
  destruct (List.find f (docs w)); [| exact Hw].
  destruct (if v then _ else _); [exact Hw |].
  destruct (negb _); [exact Hw |].
  destruct (existsb _ _); [exact Hw |].
  unfold users_indexed. simpl. now rewrite Hl.
Qed.

Lemma keeps_findByIdAndDelete_elsewhere {T D} `{Model T D} (id : string) :
  leaves_users -> keeps users_indexed (findByIdAndDelete id).
Proof.
  intros Hl w Hw. unfold findByIdAndDelete.
  destruct (List.find _ (docs w)); [| exact Hw].
  unfold users_indexed. simpl. now rewrite Hl.
Qed.

Lemma reviews_leave_users : leaves_users (T := Review.Document).
Proof. intros l w. reflexivity. Qed.

Lemma favorites_leave_users : leaves_users (T := Favorite.Document).
Proof. intros l w. reflexivity. Qed.

(** Insertion into the users collection is refused on a clash with either
    index. *)
Lemma NoDup_map_snoc {A} (key : A -> string) (l : list A) (d : A) :
  NoDup (map key l) ->
  (forall x, In x l -> key x <> key d) ->
  NoDup (map key (l ++ [d])).
Proof.
  induction l as [|a l IH]; simpl; intros Hnd Hfresh.
  - repeat constructor. intros [].
  - inversion Hnd as [|k ks Hnotin Hnd']; subst. constructor.
    + rewrite map_app, in_app_iff. simpl.
      intros [Hin | [E | []]]; [now apply Hnotin |].
      apply (Hfresh a); auto.
    + apply IH; auto.
Qed.

Lemma keeps_save_user (h : Host) (data : User.Body) :
  keeps users_indexed (save (T := User.Document) h data).
Proof.
  intros w [Hids Hemails]. unfold save.
  destruct (instantiate h data) as [d |]; [| now split].
  destruct (existsb _ (docs w)) eqn:Hex; [now split |].
  cbn [docs with_docs doc_id unique_clash UserModel] in *.
  assert (Hfresh : forall x, In x (users w) ->
            User._id x <> User._id d /\ User.email x <> User.email d).
  { intros x Hx.
    destruct (existsb_exists
                (fun x => (has_id (User._id d) x || User_same_email x d)%bool)
                (users w)) as [_ Hback].
    split; intros E; (assert (existsb
        (fun x => (has_id (User._id d) x || User_same_email x d)%bool)
        (users w) = true) as Habs; [| congruence]);
      apply Hback; exists x; (split; [exact Hx |]);
      unfold has_id, User_same_email; cbn [doc_id UserModel]; rewrite E;
      rewrite String.eqb_refl; [reflexivity | apply orb_true_r]. }
  split; simpl; apply NoDup_map_snoc; auto; intros x Hx;
    now destruct (Hfresh x Hx).
Qed.

Lemma replace_first_in {A} (f : A -> bool) (d : A) (l : list A) (x : A) :
  In x (replace_first (T := A) f d l) -> x = d \/ In x l.
Proof.
  induction l as [|a l IH]; simpl; [contradiction |].
  destruct (f a); simpl; intros [<- | Hx]; auto.
  destruct (IH Hx); auto.
Qed.

Lemma replace_first_same_key {A} (key : A -> string) (f : A -> bool)
    (d old : A) (l : list A) :
  List.find f l = Some old ->
  key d = key old ->
  map key (replace_first f d l) = map key l.
Proof.
  induction l as [|a l IH]; simpl; [discriminate |].
  destruct (f a); simpl.
  - intros [= ->] E. now rewrite E.
  - intros Hfind E. now rewrite IH.
Qed.

Lemma replace_first_other_key (l : list User.Document) (f : User.Document -> bool)
    (d old : User.Document) :
  NoDup (map User._id l) ->
  NoDup (map User.email l) ->
  List.find f l = Some old ->
  (forall x, In x l -> User._id x <> User._id old -> User.email x <> User.email d) ->
  NoDup (map User.email (replace_first f d l)).
Proof.
  induction l as [|a l IH]; simpl; [discriminate |].
  intros Hids Hemails Hfind Hother.
  inversion Hids as [|k ks Hid_notin Hids']; subst.
  inversion Hemails as [|k ks Hmail_notin Hemails']; subst.
  destruct (f a); simpl.
  - injection Hfind as ->. constructor; [| exact Hemails'].
    intros Hin. apply in_map_iff in Hin. destruct Hin as (x & E & Hx).
    apply (Hother x); auto.
    intros E'. apply Hid_notin. rewrite <- E'. now apply in_map.
  - constructor.
    + intros Hin. apply in_map_iff in Hin. destruct Hin as (x & E & Hx).
      destruct (replace_first_in _ _ _ _ Hx) as [-> | Hx'].
      * apply (Hother a); auto.
        intros E'. apply Hid_notin. rewrite E'.
        apply in_map. now destruct (find_some_in _ _ _ Hfind).
      * apply Hmail_notin. rewrite <- E. now apply in_map.
    + apply IH; auto.
Qed.

Lemma keeps_update_user (h : Host) (f : User.Document -> bool)
    (update : User.Document -> User.Document) (v : bool) :
  keeps users_indexed (findOneAndUpdate h f update v).
Proof.
  intros w [Hids Hemails]. unfold findOneAndUpdate.
  cbn [docs with_docs doc_id unique_clash validators restamp UserModel].
  destruct (List.find f (users w)) as [old |] eqn:Hfind; [| now split].
  set (d := User.restamp (now h) old (update old)).
  destruct (if v then _ else _); [now split |].
  destruct (String.eqb_spec (User._id d) (User._id old)) as [Eid | NE];
    cbn [negb]; [| now split].
  destruct (existsb _ (users w)) eqn:Hex; [now split |].
  split; simpl.
  - now rewrite (replace_first_same_key User._id f _ old).
  - apply (replace_first_other_key (users w) f _ old); auto.
    intros x Hx Hne E.
    assert (existsb
              (fun x => (negb (has_id (User._id old) x)
                         && User_same_email x d)%bool) (users w)
            = true) as Habs; [| congruence].
    apply existsb_exists. exists x. split; [exact Hx |].
    unfold has_id, User_same_email. cbn [doc_id UserModel].
    rewrite E, String.eqb_refl, andb_true_r.
    apply negb_true_iff, String.eqb_neq. exact Hne.
Qed.

Lemma keeps_UserDAO_update (h : Host) (id : string) (user : User.Document) :
  keeps users_indexed (UserDAO_update h id user).
Proof.
  unfold UserDAO_update, GlobalDao_update, findByIdAndUpdate.
  apply keeps_try_catch; [| intros; apply keeps_throw].
  apply keeps_bind; [apply keeps_update_user |].
  intros [d |]; [apply keeps_ret | apply keeps_throw].
Qed.

Lemma keeps_UserDAO_readByEmail (e : option string) :
  keeps users_indexed (UserDAO_readByEmail e).
Proof.
  unfold UserDAO_readByEmail.
  apply keeps_try_catch; [apply keeps_findOne | intros; apply keeps_throw].
Qed.

Section Handlers.
Context {C : Crypto}.

Lemma keeps_register (h : Host) (body : User.Body) :
  keeps users_indexed (UserController_create h body).
Proof.
  unfold UserController_create.
  apply keeps_try_catch; [| intros; apply keeps_internal_error].
  destruct (passwordValidation body) as [[m |] body']; [apply keeps_ret |].
  apply keeps_bind; [apply keeps_UserDAO_readByEmail |].
  intros [u |]; [apply keeps_ret |].
  apply keeps_bind.
  { unfold hashPassword. destruct (User.b_password body');
      [apply keeps_ret | apply keeps_throw]. }
  intros hashed. apply keeps_bind; [| intros; apply keeps_ret].
  unfold UserDAO_create, GlobalDao_create.
  apply keeps_try_catch; [apply keeps_save_user | intros; apply keeps_throw].
Qed.

Lemma keeps_login (h : Host) (body : User.Body) :
  keeps users_indexed (UserController_login h body).
Proof.
  unfold UserController_login.
  apply keeps_try_catch; [| intros; apply keeps_internal_error].
  apply keeps_bind; [apply keeps_UserDAO_readByEmail |].
  intros [u |]; [| apply keeps_ret].
  apply keeps_bind.
  { unfold compare_password. destruct (User.b_password body);
      [apply keeps_ret | apply keeps_throw]. }
  intros matches. destruct (negb matches); [apply keeps_ret |].
  destruct (negb (truthy (JWT_SECRET (env h)))); [apply keeps_throw |].
  destruct (negb (truthy (COOKIE_CONTROL (env h)))); [apply keeps_throw |].
  apply keeps_bind; [| intros; apply keeps_ret].
  unfold res_cookie. destruct (sameSite_valid _);
    [apply keeps_ret | apply keeps_throw].
Qed.

Lemma keeps_forgotPassword (h : Host) (body : User.Body) :
  keeps users_indexed (UserController_forgotPassword h body).
Proof.
  unfold UserController_forgotPassword.
  apply keeps_try_catch.
  2:{ intros e. apply keeps_bind;
        [apply keeps_console_write | intros; apply keeps_ret]. }
  apply keeps_bind; [apply keeps_UserDAO_readByEmail |].
  intros [u |]; [| apply keeps_ret].
  destruct (negb (truthy (JWT_SECRET (env h)))); [apply keeps_throw |].
  apply keeps_bind; [apply keeps_UserDAO_update |]. intros _.
  destruct (origins h); [apply keeps_throw |].
  apply keeps_bind; [apply keeps_sgMail_send |]. intros _.
  apply keeps_bind; [apply keeps_console_write | intros; apply keeps_ret].
Qed.

Lemma keeps_resetPassword (h : Host) (body : User.Body) :
  keeps users_indexed (UserController_resetPassword h body).
Proof.
  unfold UserController_resetPassword.
  apply keeps_try_catch; [| intros; apply keeps_internal_error].
  apply keeps_bind.
  { unfold UserDAO_readByResetToken.
    apply keeps_try_catch; [apply keeps_findOne | intros; apply keeps_throw]. }
  intros [u |]; [| apply keeps_ret].
  destruct (passwordValidation body) as [[m |] body']; [apply keeps_ret |].
  apply keeps_bind.
  { unfold hashPassword. destruct (User.b_password body');
      [apply keeps_ret | apply keeps_throw]. }
  intros hashed.
  apply keeps_bind; [apply keeps_UserDAO_update | intros; apply keeps_ret].
Qed.

Lemma keeps_editLoggedUser (h : Host) (userId : option string)
    (body : User.Body) :
  keeps users_indexed (UserController_editLoggedUser h userId body).
Proof.
  unfold UserController_editLoggedUser.
  apply keeps_try_catch.
  2:{ intros e. apply keeps_bind;
        [apply keeps_console_write | intros; apply keeps_ret]. }
  destruct (negb (truthy userId)); [apply keeps_ret |].
  apply keeps_bind.
  { unfold UserDAO_read, GlobalDao_read, findById.
    apply keeps_try_catch; [| intros; apply keeps_throw].
    apply keeps_bind; [apply keeps_findOne |].
    intros [d |]; [apply keeps_ret | apply keeps_throw]. }
  intros u. destruct (negb (is_truthy u)); [apply keeps_ret |].
  apply keeps_bind; [apply keeps_UserDAO_update | intros; apply keeps_ret].
Qed.

End Handlers.

Lemma keeps_review_handlers (h : Host) (body : Review.Body) (id : string) :
  keeps users_indexed (ReviewController_create h body)
  /\ keeps users_indexed (ReviewController_update h body)
  /\ keeps users_indexed (ReviewController_delete id)
  /\ keeps users_indexed (ReviewController_getByMovie id)
  /\ keeps users_indexed (ReviewController_getByUser id)
  /\ keeps users_indexed (ReviewController_getAverageRating id).
Proof.
  refine (conj _ (conj _ (conj _ (conj _ (conj _ _))))).
  - unfold ReviewController_create. cbv zeta.
    apply keeps_try_catch; [| intros; apply keeps_ret].
    match goal with |- context [if ?g then _ else _] => destruct g end;
      [apply keeps_ret |].
    apply keeps_bind; [apply keeps_findOne |].
    intros [r |]; [apply keeps_ret |].
    apply keeps_bind; [| intros; apply keeps_ret].
    unfold ReviewDAO_create, GlobalDao_create.
    apply keeps_try_catch; [| intros; apply keeps_throw].
    apply keeps_save_elsewhere, reviews_leave_users.
  - unfold ReviewController_update, ReviewDAO_updateByUserAndMovie.
    apply keeps_try_catch; [| intros; apply keeps_ret].
    apply keeps_bind; [| intros [r |]; apply keeps_ret].
    apply keeps_try_catch; [| intros; apply keeps_throw].
    apply keeps_findOneAndUpdate_elsewhere, reviews_leave_users.
  - unfold ReviewController_delete, ReviewDAO_delete, GlobalDao_delete.
    apply keeps_try_catch; [| intros; apply keeps_ret].
    apply keeps_bind; [| intros; apply keeps_ret].
    apply keeps_try_catch; [| intros; apply keeps_throw].
    apply keeps_bind;
      [apply keeps_findByIdAndDelete_elsewhere, reviews_leave_users |].
    intros [d |]; [apply keeps_ret | apply keeps_throw].
  - unfold ReviewController_getByMovie, ReviewDAO_getByMovieId.
    apply keeps_try_catch; [| intros; apply keeps_ret].
    apply keeps_bind; [| intros [| r l]; apply keeps_ret].
    apply keeps_try_catch; [| intros; apply keeps_throw].
    apply keeps_bind; [apply keeps_find |].
    intros found w Hw. exact Hw.
  - unfold ReviewController_getByUser, ReviewDAO_getByUserId.
    apply keeps_try_catch; [| intros; apply keeps_ret].
    apply keeps_bind; [| intros [| r l]; apply keeps_ret].
    apply keeps_try_catch; [apply keeps_find | intros; apply keeps_throw].
  - unfold ReviewController_getAverageRating, ReviewDAO_getAverageRating,
      Review_aggregate.
    apply keeps_try_catch; [| intros; apply keeps_ret].
    apply keeps_bind; [| intros; apply keeps_ret].
    apply keeps_try_catch; [| intros; apply keeps_throw].
    apply keeps_bind; [| intros [| g l]; apply keeps_ret].
    apply keeps_bind; [apply keeps_find | intros [| r l]; apply keeps_ret].
Qed.

Lemma keeps_favorite_handlers (h : Host) (body : Favorite.Body) (id : string) :
  keeps users_indexed (FavoriteController_create h body)
  /\ keeps users_indexed (FavoriteController_getByUser h id)
  /\ keeps users_indexed (FavoriteController_delete h id).
Proof.
  refine (conj _ (conj _ _)).
  - unfold FavoriteController_create.
    apply keeps_try_catch; [| intros; apply keeps_internal_error].
    match goal with |- context [if ?g then _ else _] => destruct g end;
      [apply keeps_ret |].
    apply keeps_bind; [| intros; apply keeps_ret].
    unfold FavoriteDAO_create, GlobalDao_create.
    apply keeps_try_catch; [| intros; apply keeps_throw].
    apply keeps_save_elsewhere, favorites_leave_users.
  - unfold FavoriteController_getByUser, FavoriteDAO_getByUser.
    apply keeps_try_catch; [| intros; apply keeps_internal_error].
    destruct (id =? ""); [apply keeps_ret |].
    apply keeps_bind; [| intros; apply keeps_ret].
    apply keeps_try_catch; [apply keeps_find |].
    intros e. apply keeps_bind;
      [apply keeps_console_write | intros; apply keeps_throw].
  - unfold FavoriteController_delete, FavoriteDAO_delete, GlobalDao_delete.
    apply keeps_try_catch; [| intros; apply keeps_internal_error].
    destruct (id =? ""); [apply keeps_ret |].
    apply keeps_bind.
    + apply keeps_try_catch; [| intros; apply keeps_throw].
      apply keeps_bind;
        [apply keeps_findByIdAndDelete_elsewhere, favorites_leave_users |].
      intros [d |]; [apply keeps_ret | apply keeps_throw].
    + intros d. destruct (negb (is_truthy d)); apply keeps_ret.
Qed.

(** Whatever the requests served since the store was empty, no two users
    share an identifier or an email. *)
Lemma served_users_indexed {C : Crypto} (calls : list Call) (w : World) :
  users_indexed w -> users_indexed (serve_all calls w).
Proof.
  revert w. induction calls as [|c calls IH]; intros w Hw; simpl; [exact Hw |].
  apply IH. clear IH.
  destruct c; cbn [serve].
  - now apply keeps_register.
  - now apply keeps_login.
  - now apply keeps_forgotPassword.
  - now apply keeps_resetPassword.
  - now apply keeps_editLoggedUser.
  - destruct (keeps_review_handlers h body "") as (K & _). now apply K.
  - destruct (keeps_review_handlers Sample.host (Sample.rating_patch "" "" 0)
                movieId) as (_ & _ & _ & K & _). now apply K.
  - destruct (keeps_review_handlers Sample.host (Sample.rating_patch "" "" 0)
                userId) as (_ & _ & _ & _ & K & _). now apply K.
  - destruct (keeps_review_handlers Sample.host (Sample.rating_patch "" "" 0)
                movieId) as (_ & _ & _ & _ & _ & K). now apply K.
  - destruct (keeps_review_handlers h body "") as (_ & K & _).
    now apply K.
  - destruct (keeps_review_handlers Sample.host (Sample.rating_patch "" "" 0)
                id) as (_ & _ & K & _). now apply K.
  - destruct (keeps_favorite_handlers h body "") as (K & _). now apply K.
  - destruct (keeps_favorite_handlers h
                {| Favorite.b_userId := None; Favorite.b_movieId := None |}
                userId) as (_ & K & _). now apply K.
  - destruct (keeps_favorite_handlers h
                {| Favorite.b_userId := None; Favorite.b_movieId := None |}
                id) as (_ & _ & K). now apply K.
Qed.

Lemma empty_world_indexed : users_indexed empty_world.
Proof. split; constructor. Qed.

(** ** The reset flow on the sample store *)

(** Ana asks for a reset, resets her password with the token mailed to her,
    and tries the same token again. *)
Example forgot_reset_reset_sample :
  let token := Reference.sign "u1" "s3cret" 3600 5000 in
  let ask :=
    UserController_forgotPassword (C := Reference.crypto) Sample.host
      (Sample.user_request "ana@lumix.co" "" None) in
  let reset :=
    UserController_resetPassword (C := Reference.crypto) Sample.host_later
      (Sample.user_request "ana@lumix.co" "NewSecret1!" (Some token)) in
  let (r1, w1) := ask Sample.world in
  let (r2, w2) := reset w1 in
  let (r3, w3) := reset w2 in
  (r1, r2, r3)
  = (Ok answer_registered,
     Ok (respond 200 (Message "Password has been reset successfully")),
     Ok (respond 400 (Message "Token inválido o expirado")))
  /\ w3 = w2
  /\ map mail_to (outbox w3) = ["ana@lumix.co"]
  /\ map User.password (users w3)
     = [Reference.hash "NewSecret1!" "$2b$11$"; User.password Sample.luis].
Proof. vm_compute. repeat split. Qed.

(** ** What the guards of the handlers exclude *)

(** [login] sets a cookie only when the secret is configured and the
    cookie mode is one the cookie serializer accepts. *)
Lemma login_cookie_needs_configuration {C : Crypto} (h : Host)
    (body : User.Body) (w w' : World) (r : Response) (c : Cookie) :
  UserController_login h body w = (Ok r, w') ->
  cookie r = Some c ->
  truthy (JWT_SECRET (env h)) = true
  /\ sameSite_valid (or_empty (COOKIE_CONTROL (env h))) = true.
Proof.
  unfold UserController_login, try_catch, bind, UserDAO_readByEmail,
    try_catch, findOne, compare_password, internal_error, bind.
  cbn [docs UserModel].
  destruct (List.find _ (users w)) as [u |];
    [| cbn; intros [= <- <-]; discriminate].
  destruct (User.b_password body) as [p |];
    [| destruct (development h); cbn; intros [= <- <-]; discriminate].
  cbn [ret]. destruct (bcrypt_compare p (User.password u));
    cbn [negb]; [| cbn; intros [= <- <-]; discriminate].
  destruct (truthy (JWT_SECRET (env h))); cbn [negb];
    [| destruct (development h); cbn; intros [= <- <-]; discriminate].
  destruct (truthy (COOKIE_CONTROL (env h))); cbn [negb];
    [| destruct (development h); cbn; intros [= <- <-]; discriminate].
  unfold res_cookie. cbn [sameSite token_cookie].
  destruct (sameSite_valid (or_empty (COOKIE_CONTROL (env h))));
    [| destruct (development h); cbn; intros [= <- <-]; discriminate].
  auto.
Qed.

(** A cookie mode that is set but is none of strict, lax and none: the
    serializer throws inside the [try] of [login], and the correct
    password is answered 500 without a cookie. *)
Example login_with_invalid_cookie_mode :
  UserController_login (C := Reference.crypto) Scenario.host_with_invalid_cookie_mode
    (Sample.user_request "ana@lumix.co" "Secret123!" None) Sample.world
  = (Ok {| status := 500; json := Message "Internal Server Error";
           cookie := None |}, Sample.world).
Proof. vm_compute. reflexivity. Qed.

(** The handler that deletes a favorite answers 400, 200 or 500: the
    answer 404 it holds for a missing favorite is never sent. *)
Lemma favorite_delete_statuses (h : Host) (id : string) (w : World) :
  exists r w',
    FavoriteController_delete h id w = (Ok r, w')
    /\ (status r = 400 \/ status r = 200 \/ status r = 500)%Z.
Proof.
  unfold FavoriteController_delete, try_catch, bind, FavoriteDAO_delete,
    GlobalDao_delete, try_catch, bind, findByIdAndDelete, internal_error, bind.
  destruct (id =? ""); [cbn; eauto 6 |].
  destruct (List.find _ (docs w)).
  - cbn. eexists. eexists. split; [reflexivity | auto].
  - destruct (development h); cbn; eexists; eexists;
      (split; [reflexivity | auto]).
Qed.

(** ** Requests served from the empty store *)

(** The same, for the store any sequence of requests has left. *)
Lemma reset_token_single_use_served {C : Crypto} (calls : list Call)
    (h1 h2 : Host) (w1 : World) (email_ token : string)
    (body1 body2 : User.Body) (r1 : Response) :
  User.b_email body1 = Some email_ -> User.b_token body1 = Some token ->
  User.b_email body2 = Some email_ -> User.b_token body2 = Some token ->
  serve (ResetPassword h1 body1) (serve_all calls empty_world) = (Ok r1, w1) ->
  status r1 = 200%Z ->
  serve (ResetPassword h2 body2) w1
  = (Ok (respond 400 (Message "Token inválido o expirado")), w1).
Proof.
  intros He1 Ht1 He2 Ht2 Hrun Hok. cbn [serve] in *.
  unfold UserController_resetPassword, try_catch, bind,
    UserDAO_readByResetToken, try_catch, findOne.
  cbn [docs UserModel].
  rewrite He2, Ht2.
  rewrite (second_reset_finds_nothing h1 (serve_all calls empty_world) w1
             email_ token body1 r1 (now h2)); auto.
  apply served_users_indexed, empty_world_indexed.
Qed.

(** Eva registers, logs in and presents her cookie to the middleware. *)
Example register_login_authenticate_sample :
  let eva :=
    {| User.b_firstName := Some "Eva"; User.b_lastName := Some "Rojas";
       User.b_age := Some 27%Z; User.b_email := Some "eva@lumix.co";
       User.b_password := Some "Secret123!";
       User.b_confirmPassword := Some "Secret123!"; User.b_token := None;
       User.b_resetPasswordToken := None;
       User.b_resetPasswordExpires := None |} in
  let (r1, w1) :=
    UserController_create (C := Reference.crypto) Sample.host eva empty_world in
  let (r2, w2) :=
    UserController_login (C := Reference.crypto) Sample.host_later eva w1 in
  r1 = Ok (respond 201 (Created "x1"))
  /\ match r2 with
     | Ok {| status := 200; cookie := Some c |} =>
         authenticateToken (C := Reference.crypto) Sample.host_later
           (Some (cookie_value c)) = Next "x1"
     | _ => False
     end.
Proof. vm_compute. split; reflexivity. Qed.

(* ================================================================== *)
(** * Further properties of the handlers *)
(* ================================================================== *)

(** ** The password policy *)

Lemma allowed_not_terminator (c : ascii) :
  is_allowed c = true -> is_line_terminator c = false.
Proof.
  destruct c as [[] [] [] [] [] [] [] []]; vm_compute; congruence.
Qed.

(** On a string of the allowed class no line terminator stops [.*]: the
    lookahead finds a character of class [X] wherever it stands. *)
Lemma lookahead_on_allowed (X : ascii -> bool) (s : string) :
  all_chars is_allowed s = true ->
  lookahead_dot_star X s = any_char X s.
Proof.
  induction s as [|c s IH]; simpl; [reflexivity |].
  intros Hall. apply andb_true_iff in Hall. destruct Hall as [Hc Hs].
  rewrite (allowed_not_terminator c Hc), IH by exact Hs. reflexivity.
Qed.

Lemma passwordRegex_test_iff (s : string) :
  passwordRegex_test s = true
  <-> (8 <= String.length s)%nat
      /\ all_chars is_allowed s = true
      /\ any_char is_upper s = true
      /\ any_char is_digit s = true
      /\ any_char is_special s = true.
Proof.
  unfold passwordRegex_test. split.
  - intros Hre.
    apply andb_true_iff in Hre. destruct Hre as [Hre Hlen].
    apply andb_true_iff in Hre. destruct Hre as [Hre Hall].
    apply andb_true_iff in Hre. destruct Hre as [Hre Hsp].
    apply andb_true_iff in Hre. destruct Hre as [Hup Hdi].
    rewrite lookahead_on_allowed in Hup, Hdi, Hsp by exact Hall.
    apply Nat.leb_le in Hlen. auto.
  - intros (Hlen & Hall & Hup & Hdi & Hsp).
    rewrite !lookahead_on_allowed by exact Hall.
    rewrite Hup, Hdi, Hsp, Hall. apply Nat.leb_le in Hlen. now rewrite Hlen.
Qed.

(** X1. [passwordValidation] accepts a request (returns [null]) exactly
    when the body carries a password and an equal confirmation, and the
    password has eight characters or more, all of them letters, digits or
    characters of the punctuation class, among them an upper-case letter,
    a digit and a punctuation character. *)
Theorem passwordValidation_accepts_iff (body : User.Body) :
  fst (passwordValidation body) = None
  <-> exists p,
        User.b_password body = Some p
        /\ User.b_confirmPassword body = Some p
        /\ (8 <= String.length p)%nat
        /\ all_chars is_allowed p = true
        /\ any_char is_upper p = true
        /\ any_char is_digit p = true
        /\ any_char is_special p = true.
Proof.
  unfold passwordValidation. split.
  - destruct (User.b_password body) as [p |] eqn:Hp;
      destruct (User.b_confirmPassword body) as [q |] eqn:Hq;
      cbn [loose_eq negb]; try discriminate.
    + destruct (String.eqb_spec p q) as [-> | NE]; cbn [negb]; [| discriminate].
      cbn [delete_confirmPassword User.b_password]. rewrite Hp.
      cbn [to_js_string].
      destruct (passwordRegex_test q) eqn:Hre; cbn [negb fst]; [| discriminate].
      intros _. exists q. split; [reflexivity |]. split; [reflexivity |].
      now apply passwordRegex_test_iff.
    + cbn [delete_confirmPassword User.b_password]. rewrite Hp.
      vm_compute. discriminate.
  - intros (p & Hp & Hq & Hpolicy).
    rewrite Hp, Hq. cbn [loose_eq]. rewrite String.eqb_refl. cbn [negb].
    cbn [delete_confirmPassword User.b_password]. rewrite Hp.
    cbn [to_js_string].
    apply passwordRegex_test_iff in Hpolicy. now rewrite Hpolicy.
Qed.

(** ** Registration *)

Lemma passwordValidation_body (body : User.Body) :
  snd (passwordValidation body) = body
  \/ snd (passwordValidation body) = delete_confirmPassword body.
Proof.
  unfold passwordValidation.
  destruct (negb (loose_eq _ _)); [now left |].
  destruct (negb (passwordRegex_test _)); now right.
Qed.

Lemma passwordValidation_keeps_email (body : User.Body) :
  User.b_email (snd (passwordValidation body)) = User.b_email body.
Proof. destruct (passwordValidation_body body) as [-> | ->]; reflexivity. Qed.

Lemma existsb_false_forall {A} (f : A -> bool) (l : list A) :
  existsb f l = false -> forall x, In x l -> f x = false.
Proof.
  intros Hex x Hx. destruct (f x) eqn:Fx; [| reflexivity].
  rewrite <- Hex. symmetry. apply existsb_exists. now exists x.
Qed.

Lemma find_app_fresh {A} (f : A -> bool) (l : list A) (d : A) :
  (forall x, In x l -> f x = false) -> f d = true ->
  List.find f (l ++ [d]) = Some d.
Proof.
  intros Hl Hd. induction l as [|x l IH]; simpl.
  - now rewrite Hd.
  - rewrite (Hl x (or_introl eq_refl)). apply IH. intros y Hy. apply Hl. now right.
Qed.

(** What a registration answered 201 did: one record was appended, with
    a fresh identifier, an email no other record has and the hash of the
    password in place of the password. *)
Lemma register_success {C : Crypto} (h : Host) (body : User.Body)
    (w w1 : World) (r : Response) :
  UserController_create h body w = (Ok r, w1) ->
  status r = 201%Z ->
  exists p d,
    User.b_password body = Some p
    /\ fst (passwordValidation body) = None
    /\ r = respond 201 (Created (User._id d))
    /\ w1 = set_users (users w ++ [d]) w
    /\ User._id d = objectId h
    /\ User.email d = or_empty (User.b_email body)
    /\ User.email d <> ""
    /\ User.password d = bcrypt_hash p (salt h)
    /\ (forall x, In x (users w) ->
          User._id x <> User._id d /\ User.email x <> User.email d).
Proof.
  unfold UserController_create, try_catch, bind.
  pose proof (passwordValidation_keeps_email body) as Hmail.
  assert (Hpw : fst (passwordValidation body) = None ->
                User.b_password (snd (passwordValidation body))
                = User.b_password body).
  { intros _. destruct (passwordValidation_body body) as [-> | ->]; reflexivity. }
  destruct (passwordValidation body) as [[m |] body'] eqn:Hval; [not_200 |].
  cbn [fst snd] in Hmail, Hpw. specialize (Hpw eq_refl).
  unfold UserDAO_readByEmail, try_catch, findOne. cbn [docs UserModel].
  destruct (List.find _ (users w)); [not_200 |].
  unfold hashPassword. rewrite Hpw.
  destruct (User.b_password body) as [p |]; [| not_200].
  cbn [ret].
  unfold UserDAO_create, GlobalDao_create, try_catch, save.
  cbn [instantiate docs with_docs doc_id unique_clash UserModel].
  unfold UserSchema_instantiate.
  cbn [set_body_password User.b_age User.b_firstName User.b_lastName
       User.b_email User.b_password User.b_resetPasswordToken
       User.b_resetPasswordExpires or_empty].
  destruct (User.b_age body') as [a |]; [| not_200].
  match goal with
  | |- context [UserSchema_validators ?d0] => set (d := d0)
  end.
  destruct (UserSchema_validators d) eqn:Hvalid; [not_200 |].
  destruct (existsb _ (users w)) eqn:Hex; [not_200 |].
  cbn. intros [= <- <-] _.
  exists p, d. subst d. cbn [User._id User.email User.password].
  rewrite Hmail.
  repeat match goal with |- _ /\ _ => split end; try reflexivity.
  - unfold UserSchema_validators in Hvalid.
    cbn [User.firstName User.lastName User.age User.email] in Hvalid.
    rewrite Hmail in Hvalid.
    destruct (_ =? ""); [discriminate |].
    destruct (_ =? ""); [discriminate |].
    destruct (_ <? 13)%Z; [discriminate |].
    destruct (String.eqb_spec (or_empty (User.b_email body)) "");
      [discriminate | assumption].
  - intros x Hx.
    pose proof (existsb_false_forall _ _ Hex x Hx) as Hc.
    apply orb_false_iff in Hc. destruct Hc as [Hid Hem].
    unfold has_id in Hid. cbn [doc_id UserModel User._id] in Hid.
    unfold User_same_email in Hem. cbn [User.email] in Hem.
    rewrite Hmail in Hem.
    apply String.eqb_neq in Hid. apply String.eqb_neq in Hem.
    split; congruence.
Qed.

(** X2. Once a registration has been answered 201, a registration with the
    same email is never accepted: it is answered 400 with the message of
    [passwordValidation] when that refuses its passwords, 409 otherwise,
    and the store stays as the first registration left it. *)
Theorem register_twice_conflict {C : Crypto} (h1 h2 : Host)
    (body1 body2 : User.Body) (w w1 : World) (r1 : Response) :
  UserController_create h1 body1 w = (Ok r1, w1) ->
  status r1 = 201%Z ->
  User.b_email body2 = User.b_email body1 ->
  UserController_create h2 body2 w1
  = (Ok (match fst (passwordValidation body2) with
         | Some e => respond 400 (Message e)
         | None => respond 409 (Message "Correo electrónico ya en uso")
         end), w1).
Proof.
  intros Hrun Hok Hsame.
  destruct (register_success h1 body1 w w1 r1 Hrun Hok)
    as (p & d & _ & _ & _ & -> & _ & Hmail & Hne & _ & _).
  unfold UserController_create, try_catch, bind.
  pose proof (passwordValidation_keeps_email body2) as Hmail2.
  destruct (passwordValidation body2) as [[m |] body'];
    cbn [fst snd] in *; [reflexivity |].
  unfold UserDAO_readByEmail, try_catch, findOne.
  cbn [docs UserModel set_users users].
  rewrite Hmail2, Hsame.
  destruct (find_finds (fun u => field_is (User.b_email body1) (User.email u))
              (users w ++ [d]) d) as [u' ->].
  - apply in_or_app. right. now left.
  - rewrite Hmail. destruct (User.b_email body1) as [e |]; cbn [or_empty field_is] in *.
    + apply String.eqb_refl.
    + now contradiction Hne.
  - reflexivity.
Qed.

Lemma register_twice_conflict_witness :
  UserController_create (C := Reference.crypto) Sample.host_later
    (Sample.user_request "eva@lumix.co" "Otr0Secreto?" None)
    Scenario.world_with_eva
  = (Ok (respond 409 (Message "Correo electrónico ya en uso")),
     Scenario.world_with_eva).
Proof.
  apply (register_twice_conflict (C := Reference.crypto) Sample.host
           Sample.host_later Scenario.eva
           (Sample.user_request "eva@lumix.co" "Otr0Secreto?" None)
           Sample.world Scenario.world_with_eva
           (respond 201 (Created "x1"))).
  - vm_compute. reflexivity.
  - reflexivity.
  - reflexivity.
Defined.

(** X3. Registration, login and the middleware compose: after a
    registration answered 201, on a host with the signing secret
    configured and the cookie mode set to one the cookie serializer
    accepts (strict, lax or none), a login with the email and the password of
    that registration is answered 200 with a [token] cookie, and the
    middleware reads from that cookie the identifier the registration
    answered. *)
Theorem register_then_login {C : Crypto} (L : CryptoLaws C) (h h' : Host)
    (body login_ : User.Body) (w w1 : World) (r : Response) :
  UserController_create h body w = (Ok r, w1) ->
  status r = 201%Z ->
  User.b_email login_ = User.b_email body ->
  User.b_password login_ = User.b_password body ->
  truthy (JWT_SECRET (env h')) = true ->
  sameSite_valid (or_empty (COOKIE_CONTROL (env h'))) = true ->
  exists id c,
    r = respond 201 (Created id)
    /\ UserController_login h' login_ w1
       = (Ok {| status := 200;
                json := LoggedIn "Login successful" id
                          (or_empty (User.b_email body));
                cookie := Some c |}, w1)
    /\ authenticateToken h' (Some (cookie_value c)) = Next id.
Proof.
  intros Hrun Hok Hmail Hpw Hsecret Hcookie.
  destruct (register_success h body w w1 r Hrun Hok)
    as (p & d & Hp & _ & -> & -> & Hid & Hdmail & Hne & Hhash & Hfresh).
  exists (User._id d).
  unfold UserController_login, try_catch, bind, UserDAO_readByEmail,
    try_catch, findOne.
  cbn [docs UserModel set_users users].
  rewrite Hmail, Hpw, Hp.
  assert (Hfind : List.find (fun u => field_is (User.b_email body) (User.email u))
                    (users w ++ [d]) = Some d).
  { apply find_app_fresh.
    - intros x Hx. destruct (Hfresh x Hx) as [_ Hx'].
      rewrite Hdmail in Hx'.
      destruct (User.b_email body) as [e |]; cbn [field_is or_empty] in *;
        [now apply String.eqb_neq | reflexivity].
    - rewrite Hdmail.
      destruct (User.b_email body) as [e |]; cbn [field_is or_empty] in *;
        [apply String.eqb_refl | now contradiction Hne]. }
  rewrite Hfind. cbn [compare_password ret].
  rewrite Hhash, compare_hash. cbn [negb].
  rewrite Hsecret, (valid_sameSite_is_set _ Hcookie). cbn [negb].
  unfold res_cookie. cbn [sameSite token_cookie]. rewrite Hcookie. cbn [ret].
  rewrite <- Hdmail.
  eexists. split; [reflexivity |]. split; [reflexivity |].
  cbn [cookie_value token_cookie].
  unfold authenticateToken. rewrite Hsecret.
  assert (Hsigned : truthy (Some (jwt_sign (User._id d)
                                    (or_empty (JWT_SECRET (env h'))) (2 * 3600)
                                    (now h'))) = true).
  { cbn [truthy]. apply negb_true_iff, String.eqb_neq, sign_not_empty. }
  rewrite Hsigned. cbn [negb or_empty].
  rewrite verify_sign; [reflexivity | lia].
Qed.

Lemma register_then_login_witness :
  exists id c,
    respond 201 (Created "x1") = respond 201 (Created id)
    /\ UserController_login (C := Reference.crypto) Sample.host_later
         Scenario.eva Scenario.world_with_eva
       = (Ok {| status := 200;
                json := LoggedIn "Login successful" id "eva@lumix.co";
                cookie := Some c |}, Scenario.world_with_eva)
    /\ authenticateToken (C := Reference.crypto) Sample.host_later
         (Some (cookie_value c)) = Next id.
Proof.
  apply (register_then_login reference_laws Sample.host Sample.host_later
           Scenario.eva Scenario.eva Sample.world Scenario.world_with_eva
           (respond 201 (Created "x1"))).
  - vm_compute. reflexivity.
  - reflexivity.
  - reflexivity.
  - reflexivity.
  - reflexivity.
  - reflexivity.
Defined.

(** ** Login and logout *)

(** X4. [login] answers every request that carries a password and that
    it refuses for its credentials the same way: whether no record has the
    email or the record found holds the hash of another password, the
    answer is 401 with one message, no cookie is set and the world is left
    as it was. A request without a password is told apart: it is answered
    401 for an email no record has and 500 for the email of a stored user,
    [bcrypt.compare] throwing on the missing password; the collections are
    left as they were. *)
Theorem login_rejections {C : Crypto} (h : Host) (body : User.Body)
    (w : World) :
  (forall p,
     User.b_password body = Some p ->
     (forall u,
        List.find (fun u => field_is (User.b_email body) (User.email u))
          (users w) = Some u ->
        bcrypt_compare p (User.password u) = false) ->
     UserController_login h body w
     = (Ok (respond 401 (Message "Correo electrónico o contraseña inválidos")),
        w))
  /\ (User.b_password body = None ->
      exists w',
        UserController_login h body w
        = (Ok (match List.find
                       (fun u => field_is (User.b_email body) (User.email u))
                       (users w) with
               | Some _ => respond 500 (Message "Internal Server Error")
               | None =>
                   respond 401
                     (Message "Correo electrónico o contraseña inválidos")
               end), w')
        /\ users w' = users w /\ reviews w' = reviews w
        /\ favorites w' = favorites w).
Proof.
  unfold UserController_login, try_catch, bind, UserDAO_readByEmail,
    try_catch, findOne.
  cbn [docs UserModel].
  split.
  - intros p Hp Hwrong.
    destruct (List.find _ (users w)) as [u |]; [| reflexivity].
    rewrite Hp. cbn [compare_password ret].
    now rewrite (Hwrong u eq_refl).
  - intros Hp.
    destruct (List.find _ (users w)) as [u |].
    + rewrite Hp. cbn [compare_password throw].
      unfold internal_error, bind.
      destruct (development h); cbn; eexists; repeat split; reflexivity.
    + cbn. eexists. repeat split; reflexivity.
Qed.

(** On the sample store: Ana with a wrong password and an unknown address
    get the same answer; without a password they do not. *)
Example login_rejections_sample :
  UserController_login (C := Reference.crypto) Sample.host
    (Sample.user_request "ana@lumix.co" "Wrong123!" None) Sample.world
  = UserController_login (C := Reference.crypto) Sample.host
      (Sample.user_request "nobody@lumix.co" "Wrong123!" None) Sample.world
  /\ fst (UserController_login (C := Reference.crypto) Sample.host
            Scenario.ana_without_password Sample.world)
     = Ok (respond 500 (Message "Internal Server Error"))
  /\ fst (UserController_login (C := Reference.crypto) Sample.host
            Scenario.nobody_without_password Sample.world)
     = Ok (respond 401 (Message "Correo electrónico o contraseña inválidos")).
Proof. repeat split; vm_compute; reflexivity. Qed.

(** X5. [logout] clears the cookie [login] set: on a host where a login
    set a cookie, [logout] returns, answers 200 and clears [token] with
    the name and the options that cookie was set with. *)
Theorem logout_clears_login_cookie {C : Crypto} (h h' : Host)
    (body : User.Body) (w w' : World) (r : Response) (c : Cookie) :
  UserController_login h body w = (Ok r, w') ->
  cookie r = Some c ->
  env h' = env h ->
  UserController_logout h'
  = Ok {| r_status := 200;
          r_json := AMessage "Logged out successfully";
          r_clearCookie := Some (cookie_name c, options_of c) |}.
Proof.
  unfold UserController_login, try_catch, bind, UserDAO_readByEmail,
    try_catch, findOne, compare_password, internal_error, bind.
  cbn [docs UserModel].
  destruct (List.find _ (users w)) as [u |];
    [| cbn; intros [= <- <-]; discriminate].
  destruct (User.b_password body) as [p |];
    [| destruct (development h); cbn; intros [= <- <-]; discriminate].
  cbn [ret]. destruct (bcrypt_compare p (User.password u));
    cbn [negb]; [| cbn; intros [= <- <-]; discriminate].
  destruct (truthy (JWT_SECRET (env h))); cbn [negb];
    [| destruct (development h); cbn; intros [= <- <-]; discriminate].
  destruct (truthy (COOKIE_CONTROL (env h))) eqn:Hmode; cbn [negb];
    [| destruct (development h); cbn; intros [= <- <-]; discriminate].
  unfold res_cookie. cbn [sameSite token_cookie].
  destruct (sameSite_valid (or_empty (COOKIE_CONTROL (env h)))) eqn:Hvalid;
    [| destruct (development h); cbn; intros [= <- <-]; discriminate].
  cbn. intros [= <- <-]. cbn [cookie]. intros [= <-] Henv.
  unfold UserController_logout. rewrite Henv, Hmode, Hvalid. reflexivity.
Qed.

Lemma logout_clears_login_cookie_witness :
  UserController_logout Sample.host_later
  = Ok {| r_status := 200;
          r_json := AMessage "Logged out successfully";
          r_clearCookie :=
            Some ("token",
                  {| opt_httpOnly := true; opt_secure := true;
                     opt_sameSite := "lax" |}) |}.
Proof.
  exact (logout_clears_login_cookie (C := Reference.crypto) Sample.host
           Sample.host_later
           (Sample.user_request "ana@lumix.co" "Secret123!" None)
           Sample.world Sample.world
           {| status := 200;
              json := LoggedIn "Login successful" "u1" "ana@lumix.co";
              cookie := Some (token_cookie Sample.host
                                (jwt_sign (Crypto := Reference.crypto) "u1" "s3cret"
                                   (2 * 3600) 5000) "lax") |}
           _ eq_refl eq_refl eq_refl).
Defined.

(** ** Reviews: creation, listing and deletion *)

Lemma filter_snoc {A} (f : A -> bool) (l : list A) (d : A) :
  filter f (l ++ [d])%list = (filter f l ++ (if f d then [d] else []))%list.
Proof.
  induction l as [|x l IH]; simpl; [now destruct (f d) |].
  rewrite IH. now destruct (f x).
Qed.

Lemma remove_first_snoc {T D} `{Model T D} (l : list T) (d : T) :
  (forall x, In x l -> doc_id x <> doc_id d) ->
  remove_first (has_id (doc_id d)) (l ++ [d])%list = l.
Proof.
  intros Hfresh. induction l as [|x l IH]; simpl.
  - unfold has_id. now rewrite String.eqb_refl.
  - unfold has_id at 1.
    destruct (String.eqb_spec (doc_id x) (doc_id d)) as [E | _].
    + now contradiction (Hfresh x (or_introl eq_refl)).
    + f_equal. apply IH. intros y Hy. apply Hfresh. now right.
Qed.

(** What a creation answered 201 did: the review the schema built from
    the body was appended, and no stored review had its identifier or its
    user and movie. *)
Lemma review_create_success (h : Host) (body : Review.Body) (w w1 : World)
    (r : Response) :
  ReviewController_create h body w = (Ok r, w1) ->
  status r = 201%Z ->
  exists d,
    ReviewSchema_instantiate h body = Ok d
    /\ r = respond 201 (AReview d)
    /\ w1 = set_reviews (reviews w ++ [d])%list w
    /\ (forall x, In x (reviews w) ->
          Review._id x <> Review._id d /\ Review_same_pair x d = false).
Proof.
  unfold ReviewController_create. cbv zeta.
  match goal with |- context [if ?g then _ else _] => destruct g end;
    [not_200 |].
  unfold try_catch, bind, ReviewDAO_findByUserAndMovie, findOne.
  cbn [docs ReviewModel].
  destruct (List.find _ (reviews w)); [not_200 |].
  unfold ReviewDAO_create, GlobalDao_create, try_catch, save.
  cbn [docs with_docs instantiate doc_id unique_clash ReviewModel].
  destruct (ReviewSchema_instantiate h body) as [d | e]; [| not_200].
  destruct (existsb _ (reviews w)) eqn:Hex; [not_200 |].
  cbn. intros [= <- <-] _. exists d.
  split; [reflexivity |]. split; [reflexivity |]. split; [reflexivity |].
  intros x Hx. pose proof (existsb_false_forall _ _ Hex x Hx) as Hc.
  apply orb_false_iff in Hc. destruct Hc as [Hid Hpair].
  unfold has_id in Hid. cbn [doc_id ReviewModel] in Hid.
  apply String.eqb_neq in Hid. split; [congruence | exact Hpair].
Qed.

Lemma instantiated_review (h : Host) (body : Review.Body) (d : Review.Document) :
  ReviewSchema_instantiate h body = Ok d ->
  Review._id d = objectId h
  /\ Review.userId d = or_empty (Review.b_userId body)
  /\ Review.movieId d = or_empty (Review.b_movieId body)
  /\ Review.comment d = trim (or_empty (Review.b_comment body))
  /\ Review.b_rating body = Some (Review.rating d)
  /\ ReviewSchema_validators d = None.
Proof.
  unfold ReviewSchema_instantiate.
  match goal with
  | |- context [ReviewSchema_validators ?d0] =>
      destruct (ReviewSchema_validators d0) eqn:Hv; [discriminate |]
  end.
  intros [= <-]. cbn [Review._id Review.userId Review.movieId Review.comment
                      Review.rating].
  repeat split; [| exact Hv].
  destruct (Review.b_rating body) as [q |]; [reflexivity |].
  exfalso. revert Hv. unfold ReviewSchema_validators.
  cbn [Review.userId Review.movieId Review.comment Review.rating rating_error].
  destruct (_ =? ""); [discriminate |].
  destruct (_ =? ""); [discriminate |].
  destruct (comment_error _); discriminate.
Qed.



(** The authors of the reviews of a movie, on the sample store: the review
    of a user that is stored carries the name and the email of that user,
    the review of a user that is not carries [null]. *)
Example getByMovie_populates_sample :
  ReviewController_getByMovie "m2" Scenario.world_reviewed
  = (Ok (respond 200
           (PopulatedReviews
              [ {| populated_id := "r3";
                   populated_userId :=
                     Some {| author_id := "u1"; author_firstName := "Ana";
                             author_lastName := "Diaz";
                             author_email := "ana@lumix.co" |};
                   populated_movieId := "m2"; populated_comment := "Too long";
                   populated_rating := Num 2; populated_createdAt := 4000;
                   populated_updatedAt := 4000 |};
                {| populated_id := "x1";
                   populated_userId :=
                     Some {| author_id := "u2"; author_firstName := "Luis";
                             author_lastName := "Mora";
                             author_email := "luis@lumix.co" |};
                   populated_movieId := "m2"; populated_comment := "Worth it";
                   populated_rating := Num 4; populated_createdAt := 5000;
                   populated_updatedAt := 5000 |} ])),
     Scenario.world_reviewed)
  /\ ReviewController_getByMovie "m2"
       (set_users [Sample.ana] Scenario.world_reviewed)
     = (Ok (respond 200
              (PopulatedReviews
                 [ {| populated_id := "r3";
                      populated_userId :=
                        Some {| author_id := "u1"; author_firstName := "Ana";
                                author_lastName := "Diaz";
                                author_email := "ana@lumix.co" |};
                      populated_movieId := "m2"; populated_comment := "Too long";
                      populated_rating := Num 2; populated_createdAt := 4000;
                      populated_updatedAt := 4000 |};
                   {| populated_id := "x1"; populated_userId := None;
                      populated_movieId := "m2"; populated_comment := "Worth it";
                      populated_rating := Num 4; populated_createdAt := 5000;
                      populated_updatedAt := 5000 |} ])),
        set_users [Sample.ana] Scenario.world_reviewed).
Proof. split; reflexivity. Qed.

(** X7. Deleting a review that was just created undoes the creation: the
    deletion by the identifier the creation answered is answered 200 and
    the world is again the one before the creation. *)
Theorem review_create_then_delete (h : Host) (body : Review.Body)
    (w w1 : World) (r : Response) :
  ReviewController_create h body w = (Ok r, w1) ->
  status r = 201%Z ->
  exists d,
    r = respond 201 (AReview d)
    /\ ReviewController_delete (Review._id d) w1
       = (Ok (respond 200 (Message "Reseña eliminada correctamente")), w).
Proof.
  intros Hrun Hok.
  destruct (review_create_success h body w w1 r Hrun Hok)
    as (d & _ & -> & -> & Hfresh).
  exists d. split; [reflexivity |].
  unfold ReviewController_delete, ReviewDAO_delete, GlobalDao_delete,
    try_catch, bind, findByIdAndDelete.
  cbn [docs with_docs ReviewModel set_reviews reviews].
  assert (Hfind : List.find (has_id (Review._id d)) (reviews w ++ [d])%list = Some d).
  { apply find_app_fresh.
    - intros x Hx. unfold has_id. cbn [doc_id ReviewModel].
      apply String.eqb_neq. now apply Hfresh.
    - unfold has_id. apply String.eqb_refl. }
  rewrite Hfind. cbn [ret].
  pose proof (remove_first_snoc (T := Review.Document) (reviews w) d) as Hrm.
  cbn [doc_id ReviewModel] in Hrm.
  rewrite Hrm by (intros x Hx; now apply Hfresh).
  destruct w; reflexivity.
Qed.

Lemma review_create_then_delete_witness :
  exists d,
    respond 201 (AReview Scenario.worth_it) = respond 201 (AReview d)
    /\ ReviewController_delete (Review._id d) Scenario.world_reviewed
       = (Ok (respond 200 (Message "Reseña eliminada correctamente")),
          Sample.world).
Proof.
  exact (review_create_then_delete Sample.host
           (Sample.review_request "u2" "m2" "  Worth it " 4) Sample.world
           Scenario.world_reviewed (respond 201 (AReview Scenario.worth_it))
           eq_refl eq_refl).
Defined.

Lemma remove_first_elements {T D} `{Model T D} (id : string) (l : list T)
    (x : T) :
  NoDup (map doc_id l) ->
  In x (remove_first (has_id id) l) <-> In x l /\ doc_id x <> id.
Proof.
  induction l as [|a l IH]; simpl; [tauto |].
  intros Hnd. inversion Hnd as [|k ks Hnotin Hnd']; subst.
  unfold has_id at 1.
  destruct (String.eqb_spec (doc_id a) id) as [E | NE].
  - split.
    + intros Hx. split; [now right |].
      intros E'. apply Hnotin. rewrite E, <- E'. now apply in_map.
    + intros [[<- | Hx] Hne]; [now contradiction Hne | exact Hx].
  - simpl. rewrite (IH Hnd'). split.
    + intros [<- | [Hx Hne]]; auto.
    + intros [[<- | Hx] Hne]; auto.
Qed.

(** X8. In a store whose reviews have distinct identifiers, a deletion
    answered 200 removed the review with that identifier and no other, and
    the same deletion sent again is answered 500 with the message of the
    DAO, changing nothing. *)
Theorem review_delete_twice (id : string) (w w1 : World) (r : Response) :
  NoDup (map Review._id (reviews w)) ->
  ReviewController_delete id w = (Ok r, w1) ->
  status r = 200%Z ->
  (forall x, In x (reviews w1) <-> In x (reviews w) /\ Review._id x <> id)
  /\ ReviewController_delete id w1
     = (Ok (respond 500
              (Message "Error deleting document by ID: Document not found")),
        w1).
Proof.
  intros Hnd.
  unfold ReviewController_delete, ReviewDAO_delete, GlobalDao_delete,
    try_catch, bind, findByIdAndDelete.
  cbn [docs with_docs ReviewModel].
  destruct (List.find (has_id id) (reviews w)) as [old |]; [| not_200].
  cbn. intros [= <- <-] _. cbn [reviews set_reviews].
  pose proof (fun x => remove_first_elements (T := Review.Document) id
                         (reviews w) x Hnd) as Hrem.
  cbn [doc_id ReviewModel] in Hrem.
  split; [exact Hrem |].
  rewrite (has_id_absent (T := Review.Document) id); [reflexivity |].
  intros x Hx. now apply Hrem in Hx.
Qed.

Lemma review_delete_twice_witness :
  (forall x,
     In x (reviews (set_reviews [Sample.review1; Sample.review3] Sample.world))
     <-> In x (reviews Sample.world) /\ Review._id x <> "r2")
  /\ ReviewController_delete "r2"
       (set_reviews [Sample.review1; Sample.review3] Sample.world)
     = (Ok (respond 500
              (Message "Error deleting document by ID: Document not found")),
        set_reviews [Sample.review1; Sample.review3] Sample.world).
Proof.
  apply (review_delete_twice "r2" Sample.world
           (set_reviews [Sample.review1; Sample.review3] Sample.world)
           (respond 200 (Message "Reseña eliminada correctamente"))).
  - simpl. repeat constructor; simpl; intuition discriminate.
  - reflexivity.
  - reflexivity.
Defined.

(** ** Reviews: update *)

(** X9. An update by user and movie touches one review at most: the users
    and the favorites are left alone, every stored review keeps its
    identifier, its user, its movie and its creation stamp, and a review of
    another user or movie is left as it was. When the answer is 200 the
    review sent back is stored, holds the rating and the trimmed comment
    of the request where the request carries one, and is stamped with the
    time of the update; with any other answer nothing is changed. *)
Theorem review_update_frame (h : Host) (body : Review.Body) (w w1 : World)
    (r : Response) :
  ReviewController_update h body w = (Ok r, w1) ->
  users w1 = users w /\ favorites w1 = favorites w
  /\ Forall2 (fun old new =>
                Review._id new = Review._id old
                /\ Review.userId new = Review.userId old
                /\ Review.movieId new = Review.movieId old
                /\ Review.createdAt new = Review.createdAt old
                /\ (by_user_and_movie (Review.b_userId body)
                      (Review.b_movieId body) old = false -> new = old))
             (reviews w) (reviews w1)
  /\ (status r = 200%Z ->
      exists old new,
        List.find (by_user_and_movie (Review.b_userId body)
                     (Review.b_movieId body)) (reviews w) = Some old
        /\ r = respond 200 (AReview new)
        /\ In new (reviews w1)
        /\ Review.rating new = match Review.b_rating body with
                               | Some q => q
                               | None => Review.rating old
                               end
        /\ Review.comment new = match Review.b_comment body with
                                | Some c => trim c
                                | None => Review.comment old
                                end
        /\ Review.updatedAt new = now h)
  /\ (status r <> 200%Z -> w1 = w).
Proof.
  unfold ReviewController_update, ReviewDAO_updateByUserAndMovie,
    try_catch, bind, findOneAndUpdate.
  cbn [docs with_docs doc_id unique_clash validators restamp ReviewModel].
  assert (Hsame : Forall2
            (fun old new =>
               Review._id new = Review._id old
               /\ Review.userId new = Review.userId old
               /\ Review.movieId new = Review.movieId old
               /\ Review.createdAt new = Review.createdAt old
               /\ (by_user_and_movie (Review.b_userId body)
                     (Review.b_movieId body) old = false -> new = old))
            (reviews w) (reviews w)).
  { apply Forall2_same. intros x. repeat split; reflexivity. }
  destruct (List.find _ (reviews w)) as [old |] eqn:Hfind.
  2:{ cbn. intros [= <- <-]. repeat split; auto; discriminate. }
  cbn [Review._id Review.restamp Review_set]. rewrite String.eqb_refl.
  cbn [negb].
  destruct (existsb _ (reviews w)).
  { cbn. intros [= <- <-]. repeat split; auto; discriminate. }
  cbn. intros [= <- <-]. cbn [users favorites reviews set_reviews status].
  destruct (find_some_in _ _ _ Hfind) as [Hin Hmatch].
  assert (Hpair : Review.userId old = or_empty (Review.b_userId body)
                  /\ Review.movieId old = or_empty (Review.b_movieId body)
                  /\ Review.b_userId body <> None
                  /\ Review.b_movieId body <> None).
  { unfold by_user_and_movie, field_is in Hmatch.
    destruct (Review.b_userId body), (Review.b_movieId body);
      try discriminate; cbn [or_empty].
    - apply andb_true_iff in Hmatch. destruct Hmatch as [Hu Hm].
      apply String.eqb_eq in Hu, Hm. repeat split; auto; discriminate.
    - now rewrite andb_false_r in Hmatch. }
  destruct Hpair as (Hu & Hm & Hub & Hmb).
  split; [reflexivity |]. split; [reflexivity |]. split.
  - apply (replace_first_pointwise (T := Review.Document)) with (old := old).
    + intros x. repeat split; reflexivity.
    + exact Hfind.
    + cbn. rewrite Hu, Hm.
      destruct (Review.b_userId body), (Review.b_movieId body);
        try congruence; cbn [or_empty].
      repeat split; try reflexivity. intros Hno. congruence.
  - split; [| intros Hne; now contradiction Hne].
    intros _. eexists old, _.
    split; [reflexivity |]. split; [reflexivity |].
    split; [| cbn; repeat split; reflexivity].
    clear - Hfind. induction (reviews w) as [|x l IH]; [discriminate |].
    simpl in *. destruct (by_user_and_movie _ _ x).
    + now left.
    + right. now apply IH.
Qed.

(** ** The review routes *)

(** X10. Behind the middleware nothing is served without a token that
    verifies: a request to a route other than the two public ones, with no
    token, or on a host without the signing secret, or with a token
    [jwt.verify] refuses, is answered 401 and the handler does not run:
    the world is left as it was. *)
Theorem review_routes_need_token {C : Crypto} (h : Host)
    (token : option string) (r : ReviewRoute) (w : World) :
  is_public r = false ->
  truthy token = false
  \/ truthy (JWT_SECRET (env h)) = false
  \/ jwt_verify (or_empty token) (or_empty (JWT_SECRET (env h))) (now h) = None ->
  exists m, reviewRoutes h token r w = (Ok (respond 401 (Message m)), w).
Proof.
  intros Hr Htoken.
  assert (Hrej : exists m,
             authenticateToken h token = Rejected (respond 401 (Message m))).
  { unfold authenticateToken.
    destruct (truthy token); cbn [negb]; [| eauto].
    destruct (truthy (JWT_SECRET (env h))); cbn [negb]; [| eauto].
    destruct Htoken as [Ht | [Ht | Ht]]; try discriminate.
    rewrite Ht. eauto. }
  destruct Hrej as [m Hrej]. exists m.
  destruct r; try discriminate; cbn [reviewRoutes]; unfold behind_token;
    now rewrite Hrej.
Qed.

Lemma review_routes_need_token_witness :
  exists m,
    reviewRoutes (C := Reference.crypto) Sample.host (Some "s3cret.1.u1")
      (DeleteReviewById "r1") Sample.world
    = (Ok (respond 401 (Message m)), Sample.world).
Proof.
  apply (review_routes_need_token (C := Reference.crypto)).
  - reflexivity.
  - right. right. vm_compute. reflexivity.
Defined.

(** X11. The middleware lets a request through and the handler does not
    look at whose token it was: with a token that verifies, for whatever
    user, a request to create a review that carries the four fields, whose
    review the schema accepts and clashes with no stored review, is
    answered 201 and stores the review under the [userId] of the body. *)
Theorem review_author_is_taken_from_body {C : Crypto} (h : Host)
    (token : option string) (tokenUser : string) (body : Review.Body)
    (w : World) (d : Review.Document) :
  authenticateToken h token = Next tokenUser ->
  required_fields_present body = true ->
  ReviewSchema_instantiate h body = Ok d ->
  (forall x, In x (reviews w) ->
     Review._id x <> Review._id d /\ Review_same_pair x d = false) ->
  reviewRoutes h token (PostReview body) w
  = (Ok (respond 201 (AReview d)), set_reviews (reviews w ++ [d]) w)
  /\ Review.b_userId body = Some (Review.userId d).
Proof.
  intros Htoken Hreq Hd Hfresh.
  destruct (instantiated_review h body d Hd) as (_ & Hu & Hm & _).
  assert (Hbody : Review.b_userId body = Some (Review.userId d)
                  /\ Review.b_movieId body = Some (Review.movieId d)).
  { unfold required_fields_present in Hreq.
    destruct (Review.b_userId body), (Review.b_movieId body);
      cbn [truthy andb or_empty] in *; try discriminate.
    - now subst.
    - now rewrite andb_false_r in Hreq. }
  destruct Hbody as [Hbu Hbm].
  split; [| exact Hbu].
  cbn [reviewRoutes]. unfold behind_token. rewrite Htoken.
  unfold ReviewController_create. cbv zeta.
  rewrite (guard_of_complete body Hreq).
  unfold try_catch, bind, ReviewDAO_findByUserAndMovie, findOne.
  cbn [docs ReviewModel].
  replace (List.find _ (reviews w)) with (@None Review.Document).
  2:{ symmetry. apply find_none_iff. intros x Hx.
      destruct (Hfresh x Hx) as [_ Hpair].
      unfold by_user_and_movie. rewrite Hbu, Hbm. exact Hpair. }
  unfold ReviewDAO_create, GlobalDao_create, try_catch, save.
  cbn [docs with_docs instantiate doc_id unique_clash ReviewModel].
  rewrite Hd.
  replace (existsb _ (reviews w)) with false; [reflexivity |].
  symmetry. destruct (existsb _ (reviews w)) eqn:Hex; [| reflexivity].
  apply existsb_exists in Hex. destruct Hex as (x & Hx & Hc).
  destruct (Hfresh x Hx) as [Hid Hpair].
  unfold has_id in Hc. cbn [doc_id ReviewModel] in Hc.
  rewrite Hpair, orb_false_r in Hc. apply String.eqb_eq in Hc. congruence.
Qed.

Lemma review_author_is_taken_from_body_witness :
  authenticateToken (C := Reference.crypto) Sample.host (Some "s3cret.11111111.u1")
  = Next "u1"
  /\ reviewRoutes (C := Reference.crypto) Sample.host (Some "s3cret.11111111.u1")
       (PostReview (Sample.review_request "u2" "m2" "Not mine" 1)) Sample.world
     = (Ok (respond 201 (AReview
              {| Review._id := "x1"; Review.userId := "u2";
                 Review.movieId := "m2"; Review.comment := "Not mine";
                 Review.rating := Num 1; Review.createdAt := 5000;
                 Review.updatedAt := 5000 |})),
        set_reviews (reviews Sample.world ++
                     [{| Review._id := "x1"; Review.userId := "u2";
                         Review.movieId := "m2"; Review.comment := "Not mine";
                         Review.rating := Num 1; Review.createdAt := 5000;
                         Review.updatedAt := 5000 |}]) Sample.world)
  /\ Review.b_userId (Sample.review_request "u2" "m2" "Not mine" 1) = Some "u2".
Proof.
  split; [vm_compute; reflexivity |].
  apply (review_author_is_taken_from_body (C := Reference.crypto) Sample.host
           (Some "s3cret.11111111.u1") "u1").
  - vm_compute. reflexivity.
  - reflexivity.
  - vm_compute. reflexivity.
  - simpl. intros x [<- | [<- | [<- | []]]]; split; (discriminate || reflexivity).
Defined.

Lemma review_update_frame_witness :
  users (snd Scenario.rerated) = users Sample.world
  /\ favorites (snd Scenario.rerated) = favorites Sample.world
  /\ Forall2 (fun old new =>
                Review._id new = Review._id old
                /\ Review.userId new = Review.userId old
                /\ Review.movieId new = Review.movieId old
                /\ Review.createdAt new = Review.createdAt old
                /\ (by_user_and_movie (Some "u1") (Some "m1") old = false ->
                    new = old))
             (reviews Sample.world) (reviews (snd Scenario.rerated))
  /\ (status (fst Scenario.rerated) = 200%Z ->
      exists old new,
        List.find (by_user_and_movie (Some "u1") (Some "m1"))
          (reviews Sample.world) = Some old
        /\ fst Scenario.rerated = respond 200 (AReview new)
        /\ In new (reviews (snd Scenario.rerated))
        /\ Review.rating new = Num 4
        /\ Review.comment new = Review.comment old
        /\ Review.updatedAt new = 6000%Z)
  /\ (status (fst Scenario.rerated) <> 200%Z ->
      snd Scenario.rerated = Sample.world).
Proof.
  exact (review_update_frame Sample.host_later (Sample.rating_patch "u1" "m1" 4)
           Sample.world (snd Scenario.rerated) (fst Scenario.rerated) eq_refl).
Defined.

(** ** Every request is answered *)

Lemma may_ret (S : list Z) (r : Response) : In (status r) S -> may_answer S (ret r).
Proof. intros Hin w. exact Hin. Qed.

Lemma may_throw (S : list Z) (e : string) : may_answer S (throw e).
Proof. intros w. exact I. Qed.

Lemma may_bind {A} (S : list Z) (m : M A) (k : A -> M Response) :
  (forall a, may_answer S (k a)) -> may_answer S (bind m k).
Proof.
  intros Hk w. unfold bind. destruct (m w) as [[a | e] w1]; [apply Hk | exact I].
Qed.

Lemma answers_try_catch (S : list Z) (m : M Response) (h : string -> M Response) :
  may_answer S m -> (forall e, answers S (h e)) -> answers S (try_catch m h).
Proof.
  intros Hm Hh w. unfold try_catch. specialize (Hm w).
  destruct (m w) as [[r | e] w1]; [eauto | apply Hh].
Qed.

Lemma answers_ret (S : list Z) (r : Response) : In (status r) S -> answers S (ret r).
Proof. intros Hin w. exists r, w. split; [reflexivity | exact Hin]. Qed.

Lemma answers_internal_error (S : list Z) (h : Host) (label generic e : string) :
  In 500%Z S -> answers S (internal_error h label generic e).
Proof.
  intros Hin w. unfold internal_error, bind.
  destruct (development h); cbn; eexists; eexists; (split; [reflexivity | exact Hin]).
Qed.

Lemma answers_logged_error (S : list Z) (line generic : string) :
  In 500%Z S ->
  answers S (console_write line ;; ret (respond 500 (Message generic))).
Proof.
  intros Hin w. cbn. eexists. eexists. split; [reflexivity | exact Hin].
Qed.

(** The body of a handler, statement by statement. *)
Ltac walk :=
  repeat first
    [ apply may_ret; cbn; tauto
    | apply may_throw
    | apply may_bind; intros
    | match goal with
      | |- may_answer _ (if ?b then _ else _) => destruct b
      | |- may_answer _ (match ?x with _ => _ end) => destruct x
      end ].

(** A branch that ends in an answer of the account handlers. *)
Ltac replied :=
  cbn; eexists; eexists; split; [reflexivity | cbn; tauto].

Lemma served_call_is_answered {C : Crypto} (c : Call) : answers (statuses c) (serve c).
Proof.
  destruct c; cbn [serve statuses].
  - unfold UserController_create.
    apply answers_try_catch; [| intros; apply answers_internal_error; cbn; tauto].
    walk.
  - unfold UserController_login.
    apply answers_try_catch; [| intros; apply answers_internal_error; cbn; tauto].
    walk.
  - unfold UserController_forgotPassword.
    apply answers_try_catch; [| intros; apply answers_logged_error; cbn; tauto].
    walk.
  - unfold UserController_resetPassword.
    apply answers_try_catch; [| intros; apply answers_internal_error; cbn; tauto].
    walk.
  - unfold UserController_editLoggedUser.
    apply answers_try_catch; [| intros; apply answers_logged_error; cbn; tauto].
    walk.
  - unfold ReviewController_create. cbv zeta.
    apply answers_try_catch; [| intros; apply answers_ret; cbn; tauto].
    walk.
  - unfold ReviewController_getByMovie.
    apply answers_try_catch; [| intros; apply answers_ret; cbn; tauto].
    walk.
  - unfold ReviewController_getByUser.
    apply answers_try_catch; [| intros; apply answers_ret; cbn; tauto].
    walk.
  - unfold ReviewController_getAverageRating.
    apply answers_try_catch; [| intros; apply answers_ret; cbn; tauto].
    walk.
  - unfold ReviewController_update.
    apply answers_try_catch; [| intros; apply answers_ret; cbn; tauto].
    walk.
  - unfold ReviewController_delete.
    apply answers_try_catch; [| intros; apply answers_ret; cbn; tauto].
    walk.
  - unfold FavoriteController_create.
    apply answers_try_catch; [| intros; apply answers_internal_error; cbn; tauto].
    walk.
  - unfold FavoriteController_getByUser.
    apply answers_try_catch; [| intros; apply answers_internal_error; cbn; tauto].
    walk.
  - unfold FavoriteController_delete.
    apply answers_try_catch; [| intros; apply answers_internal_error; cbn; tauto].
    walk.
Qed.

(** X12. The handlers of the user, review and favorite controllers, all
    but [logout], let no error escape, and each answers with one of a few
    statuses: whatever the request and the store, each of the fourteen
    handlers of [serve], and [getLoggedUser] and [deleteLoggedUser],
    returns an answer whose status is one of those listed for it. In
    particular the edit of the profile, the profile and the deletion of
    the account, and the deletion of a favorite never answer 404, the
    answer they hold for a missing record. [logout] is the exception: it
    has no [try], answers 200 when the cookie mode is one the cookie
    serializer accepts, and throws otherwise. *)
Theorem requests_are_answered_except_logout {C : Crypto} (h : Host)
    (userId : option string) (body : User.Body) (w : World) :
  (forall c, exists r w', serve c w = (Ok r, w') /\ In (status r) (statuses c))
  /\ (exists r w',
        UserController_getLoggedUser userId w = (Ok r, w')
        /\ In (r_status r) [200; 401; 500]%Z)
  /\ (exists r w',
        UserController_deleteLoggedUser h userId body w = (Ok r, w')
        /\ In (r_status r) [200; 401; 500]%Z)
  /\ (if sameSite_valid (or_empty (COOKIE_CONTROL (env h)))
      then exists r, UserController_logout h = Ok r /\ r_status r = 200%Z
      else exists e, UserController_logout h = Throw e).
Proof.
  split; [intros c; apply served_call_is_answered |]. split; [| split].
  - unfold UserController_getLoggedUser, try_catch, bind.
    destruct (negb (truthy userId)); [replied |].
    unfold UserDAO_read, GlobalDao_read, try_catch, bind, findById, findOne.
    destruct (List.find _ (docs w)); replied.
  - unfold UserController_deleteLoggedUser, try_catch, bind.
    destruct (negb (truthy userId)); [replied |].
    unfold UserDAO_read, GlobalDao_read, try_catch, bind, findById, findOne.
    destruct (List.find _ (docs w)) as [u |]; [| replied].
    cbn [ret is_truthy negb]. unfold compare_password.
    destruct (User.b_password body) as [p |]; [| replied].
    cbn [ret]. destruct (negb (bcrypt_compare p (User.password u)));
      [replied |].
    unfold UserDAO_delete, GlobalDao_delete, try_catch, bind, findByIdAndDelete.
    destruct (List.find _ (docs w)); replied.
  - unfold UserController_logout.
    destruct (sameSite_valid (or_empty (COOKIE_CONTROL (env h)))) eqn:Hvalid.
    + rewrite (valid_sameSite_is_set _ Hvalid). cbn. eexists. split; reflexivity.
    + destruct (truthy (COOKIE_CONTROL (env h))); cbn; eexists; reflexivity.
Qed.

(** ** The account of the logged user *)

(** X13. [getLoggedUser] answers the identifier of a stored user with 200
    and the profile of that user: its identifier, names, age, email and
    stamps, read from the stored record, and the world is left as it was.
    An identifier no stored user has is answered 500, not the 404 the
    handler holds for it: [UserDAO.read] throws before the test, and the
    error is written to the console. *)
Theorem getLoggedUser_answers (userId : string) (w : World) :
  userId <> "" ->
  (forall u, List.find (has_id userId) (users w) = Some u ->
     UserController_getLoggedUser (Some userId) w
     = (Ok {| r_status := 200; r_json := AUser (safe_profile u);
              r_clearCookie := None |}, w)
     /\ p_id (safe_profile u) = userId)
  /\ (List.find (has_id userId) (users w) = None ->
      UserController_getLoggedUser (Some userId) w
      = (Ok (reply 500 "Error getting user information"),
         {| users := users w; reviews := reviews w; favorites := favorites w;
            console := console w
                       ++ ["Error getting document by ID: Document not found"];
            outbox := outbox w |})).
Proof.
  intros Hne.
  assert (Ht : truthy (Some userId) = true).
  { cbn. now apply negb_true_iff, String.eqb_neq. }
  unfold UserController_getLoggedUser, try_catch, bind.
  rewrite Ht. cbn [negb or_empty].
  unfold UserDAO_read, GlobalDao_read, try_catch, bind, findById, findOne.
  cbn [docs UserModel].
  split.
  - intros u Hfind. rewrite Hfind. split; [reflexivity |].
    destruct (find_some_in _ _ _ Hfind) as [_ Hid].
    unfold has_id in Hid. cbn [doc_id UserModel] in Hid.
    now apply String.eqb_eq in Hid.
  - intros Hfind. rewrite Hfind. reflexivity.
Qed.

Lemma getLoggedUser_answers_witness :
  (forall u, List.find (has_id "u2") (users Sample.world) = Some u ->
     UserController_getLoggedUser (Some "u2") Sample.world
     = (Ok {| r_status := 200; r_json := AUser (safe_profile u);
              r_clearCookie := None |}, Sample.world)
     /\ p_id (safe_profile u) = "u2")
  /\ (List.find (has_id "u2") (users Sample.world) = None ->
      UserController_getLoggedUser (Some "u2") Sample.world
      = (Ok (reply 500 "Error getting user information"),
         {| users := users Sample.world; reviews := reviews Sample.world;
            favorites := favorites Sample.world;
            console := console Sample.world
                       ++ ["Error getting document by ID: Document not found"];
            outbox := outbox Sample.world |})).
Proof.
  apply (getLoggedUser_answers "u2" Sample.world). discriminate.
Defined.

(** X14. [deleteLoggedUser] deletes the account only against its
    password and deletes nothing else. Whatever the answer, the reviews
    and the favorites are as before, those of the user included. When the
    answer is 200 the request carried a password that [bcrypt.compare]
    accepts against the stored hash of the user with the identifier of the
    token, that record and no other was removed, and the [token] cookie is
    cleared with [sameSite] set to none; with any other answer the users
    are as before. *)
Theorem deleteLoggedUser_effect {C : Crypto} (h : Host)
    (userId : option string) (body : User.Body) (w w' : World) (r : Reply) :
  UserController_deleteLoggedUser h userId body w = (Ok r, w') ->
  reviews w' = reviews w /\ favorites w' = favorites w
  /\ (r_status r = 200%Z ->
      exists id u p,
        userId = Some id
        /\ List.find (has_id id) (users w) = Some u
        /\ User.b_password body = Some p
        /\ bcrypt_compare p (User.password u) = true
        /\ users w' = remove_first (has_id id) (users w)
        /\ option_map (fun c => (fst c, opt_sameSite (snd c))) (r_clearCookie r)
           = Some ("token", "none"))
  /\ (r_status r <> 200%Z -> users w' = users w).
Proof.
  unfold UserController_deleteLoggedUser, try_catch, bind.
  destruct userId as [id |]; cbn [truthy negb or_empty];
    [| cbn; intros [= <- <-]; repeat split; auto; discriminate].
  destruct (negb (id =? "")); cbn [negb];
    [| cbn; intros [= <- <-]; repeat split; auto; discriminate].
  unfold UserDAO_read, GlobalDao_read, try_catch, bind, findById, findOne.
  cbn [docs UserModel].
  destruct (List.find (has_id id) (users w)) as [u |] eqn:Hfind;
    [| cbn; intros [= <- <-]; repeat split; auto; discriminate].
  cbn [ret is_truthy negb]. unfold compare_password.
  destruct (User.b_password body) as [p |];
    [| cbn; intros [= <- <-]; repeat split; auto; discriminate].
  cbn [ret].
  destruct (bcrypt_compare p (User.password u)) eqn:Hmatch; cbn [negb];
    [| cbn; intros [= <- <-]; repeat split; auto; discriminate].
  unfold UserDAO_delete, GlobalDao_delete, try_catch, bind, findByIdAndDelete.
  cbn [docs with_docs UserModel].
  destruct (find_some_in _ _ _ Hfind) as [_ Hid].
  unfold has_id in Hid. cbn [doc_id UserModel] in Hid.
  apply String.eqb_eq in Hid. rewrite Hid, Hfind.
  cbn. intros [= <- <-]. cbn.
  split; [reflexivity |]. split; [reflexivity |].
  split; [| intros Hne; now contradiction Hne].
  intros _. exists id, u, p. repeat split; auto.
Qed.

(** X15. A deleted account is gone for [login]: in a store whose users
    have distinct identifiers and emails, after [deleteLoggedUser]
    answered 200 for a user, a login with the email of that user is
    answered 401, whatever password it carries. *)
Theorem deleted_user_cannot_login {C : Crypto} (h h' : Host) (id : string)
    (u : User.Document) (body login_ : User.Body) (w w' : World) (r : Reply) :
  unique_users (users w) ->
  List.find (has_id id) (users w) = Some u ->
  UserController_deleteLoggedUser h (Some id) body w = (Ok r, w') ->
  r_status r = 200%Z ->
  User.b_email login_ = Some (User.email u) ->
  UserController_login h' login_ w'
  = (Ok (respond 401 (Message "Correo electrónico o contraseña inválidos")), w').
Proof.
  intros [Hids Hemails] Hfind.
  unfold UserController_deleteLoggedUser, try_catch, bind.
  cbn [truthy negb or_empty].
  destruct (negb (id =? "")); cbn [negb];
    [| cbn; intros [= <- <-]; discriminate].
  unfold UserDAO_read, GlobalDao_read, try_catch, bind, findById, findOne.
  cbn [docs UserModel]. rewrite Hfind.
  cbn [ret is_truthy negb]. unfold compare_password.
  destruct (User.b_password body) as [p |];
    [| cbn; intros [= <- <-]; discriminate].
  cbn [ret].
  destruct (bcrypt_compare p (User.password u)); cbn [negb];
    [| cbn; intros [= <- <-]; discriminate].
  unfold UserDAO_delete, GlobalDao_delete, try_catch, bind, findByIdAndDelete.
  cbn [docs with_docs UserModel].
  destruct (find_some_in _ _ _ Hfind) as [Hin Hid].
  unfold has_id in Hid. cbn [doc_id UserModel] in Hid.
  apply String.eqb_eq in Hid. rewrite Hid, Hfind.
  cbn. intros [= <- <-] _ Hmail.
  unfold UserController_login, try_catch, bind, UserDAO_readByEmail,
    try_catch, findOne.
  cbn [docs UserModel users set_users]. rewrite Hmail.
  replace (List.find _ (remove_first (has_id id) (users w)))
    with (@None User.Document); [reflexivity |].
  symmetry. apply find_none_iff. intros x Hx.
  apply (remove_first_elements (T := User.Document)) in Hx; [| exact Hids].
  destruct Hx as [Hxin Hxid]. cbn [doc_id UserModel] in Hxid.
  cbn [field_is]. apply String.eqb_neq. intros E.
  apply Hxid. rewrite <- Hid. f_equal.
  apply (NoDup_map_inj User.email (users w)); auto.
Qed.

Lemma deleteLoggedUser_effect_witness :
  reviews Scenario.world_without_luis = reviews Sample.world
  /\ favorites Scenario.world_without_luis = favorites Sample.world
  /\ (r_status Scenario.account_deleted = 200%Z ->
      exists id u p,
        Some "u2" = Some id
        /\ List.find (has_id id) (users Sample.world) = Some u
        /\ User.b_password Scenario.luis_leaves = Some p
        /\ bcrypt_compare (Crypto := Reference.crypto) p (User.password u) = true
        /\ users Scenario.world_without_luis
           = remove_first (has_id id) (users Sample.world)
        /\ option_map (fun c => (fst c, opt_sameSite (snd c)))
             (r_clearCookie Scenario.account_deleted)
           = Some ("token", "none"))
  /\ (r_status Scenario.account_deleted <> 200%Z ->
      users Scenario.world_without_luis = users Sample.world).
Proof.
  apply (deleteLoggedUser_effect (C := Reference.crypto) Sample.host (Some "u2")
           Scenario.luis_leaves Sample.world).
  vm_compute. reflexivity.
Defined.

Lemma deleted_user_cannot_login_witness :
  UserController_login (C := Reference.crypto) Sample.host_later
    Scenario.luis_leaves Scenario.world_without_luis
  = (Ok (respond 401 (Message "Correo electrónico o contraseña inválidos")),
     Scenario.world_without_luis).
Proof.
  apply (deleted_user_cannot_login (C := Reference.crypto) Sample.host
           Sample.host_later "u2" Sample.luis Scenario.luis_leaves
           Scenario.luis_leaves Sample.world Scenario.world_without_luis
           Scenario.account_deleted).
  - split; simpl; repeat constructor; simpl; intuition discriminate.
  - reflexivity.
  - vm_compute. reflexivity.
  - reflexivity.
  - reflexivity.
Defined.

(** ** The reset link *)

Lemma find_unique_match {A} (key : A -> string) (f : A -> bool) (l : list A)
    (a : A) :
  NoDup (map key l) -> In a l -> f a = true ->
  (forall x, f x = true -> key x = key a) ->
  List.find f l = Some a.
Proof.
  intros Hnd Hin Hf Hkey.
  destruct (find_finds f l a Hin Hf) as [b Hb]. rewrite Hb. f_equal.
  destruct (find_some_in _ _ _ Hb) as [Hbin Hfb].
  apply (NoDup_map_inj key l); auto.
Qed.

Lemma replace_first_has {A} (f : A -> bool) (d old : A) (l : list A) :
  List.find f l = Some old -> In d (replace_first (T := A) f d l).
Proof.
  induction l as [|x l IH]; simpl; [discriminate |].
  destruct (f x); simpl; [now left |]. intros Hfind. right. now apply IH.
Qed.

(** What a request for a reset answered 200 did: the record of the user
    with the email now holds the token and its expiry, and one mail went
    out to that user with the token in its link. *)
Lemma forgotPassword_success {C : Crypto} (h : Host) (body : User.Body)
    (w w1 : World) (r : Response) :
  unique_users (users w) ->
  UserController_forgotPassword h body w = (Ok r, w1) ->
  status r = 200%Z ->
  exists u baseUrl,
    In u (users w)
    /\ User.b_email body = Some (User.email u)
    /\ users w1 = replace_first (has_id (User._id u)) (pending_reset h u) (users w)
    /\ UserSchema_validators (pending_reset h u) = None
    /\ outbox w1
       = (outbox w ++
          [{| mail_to := User.email u;
              mail_from := EMAIL_USER (env h);
              mail_subject := "Recuperar contraseña - Lumix";
              mail_resetUrl := baseUrl ++ "/#/recover-password?token="
                               ++ reset_token h u ++ "&email=" ++ User.email u |}])%list.
Proof.
  intros [Hids Hemails].
  unfold UserController_forgotPassword, try_catch, bind,
    UserDAO_readByEmail, try_catch, findOne.
  cbn [docs UserModel].
  destruct (List.find _ (users w)) as [u |] eqn:Hfind; [| not_200].
  destruct (find_some_in _ _ _ Hfind) as [Hin Hmail].
  destruct (truthy (JWT_SECRET (env h))); cbn [negb]; [| not_200].
  unfold UserDAO_update, GlobalDao_update, try_catch, bind,
    findByIdAndUpdate, findOneAndUpdate.
  cbn [docs with_docs doc_id validators unique_clash restamp UserModel
       User.set_resetPasswordToken User.set_resetPasswordExpires
       User._id User.email].
  rewrite (find_by_unique_key User._id _ (users w) u Hids Hin)
    by (intros x; reflexivity).
  match goal with
  | |- context [UserSchema_validators ?d0] => change d0 with (pending_reset h u)
  end.
  destruct (UserSchema_validators (pending_reset h u)) eqn:Hvalid; [not_200 |].
  destruct (negb _); [not_200 |].
  destruct (existsb _ _); [not_200 |].
  cbn [ret throw].
  destruct (origins h) as [| baseUrl rest]; [not_200 |].
  unfold sgMail_send. destruct (sendgrid_error h); [not_200 |].
  cbn. intros [= <- <-] _.
  exists u, baseUrl. split; [exact Hin |]. split.
  { destruct (User.b_email body) as [e |]; cbn [field_is] in Hmail;
      [| discriminate]. apply String.eqb_eq in Hmail. now subst. }
  split; [reflexivity |]. split; [exact Hvalid |]. reflexivity.
Qed.

Lemma valid_with_password (d d' : User.Document) :
  UserSchema_validators d = None ->
  User.firstName d' = User.firstName d ->
  User.lastName d' = User.lastName d ->
  User.age d' = User.age d ->
  User.email d' = User.email d ->
  password_error (User.password d') = None ->
  UserSchema_validators d' = None.
Proof.
  unfold UserSchema_validators. intros Hv -> -> -> -> ->.
  destruct (User.firstName d =? ""); [discriminate |].
  destruct (User.lastName d =? ""); [discriminate |].
  destruct (User.age d <? 13)%Z; [discriminate |].
  destruct (User.email d =? ""); [discriminate |]. reflexivity.
Qed.

(** X16. The link [forgotPassword] mails works for an hour. In a store
    whose users have distinct identifiers and emails, after a request for
    a reset answered 200 one mail has gone to the user with that email,
    and its link carries the token signed for that user. A reset with the
    email and that token, and a password the policy and the schema accept,
    is answered 200 and leaves the hash of the new password in the record
    of that user if it comes less than 3600000 milliseconds after the
    request; from then on it is answered 400 and changes nothing. *)
Theorem reset_link_lasts_an_hour {C : Crypto} (h1 h2 : Host)
    (body1 body2 : User.Body) (w w1 : World) (r1 : Response) (p : string) :
  unique_users (users w) ->
  UserController_forgotPassword h1 body1 w = (Ok r1, w1) ->
  status r1 = 200%Z ->
  User.b_email body2 = User.b_email body1 ->
  User.b_password body2 = Some p ->
  User.b_confirmPassword body2 = Some p ->
  passwordRegex_test p = true ->
  password_error (bcrypt_hash p (salt h2)) = None ->
  exists u mail baseUrl,
    In u (users w)
    /\ User.b_email body1 = Some (User.email u)
    /\ outbox w1 = (outbox w ++ [mail])%list
    /\ mail_to mail = User.email u
    /\ mail_resetUrl mail
       = baseUrl ++ "/#/recover-password?token=" ++ reset_token h1 u
         ++ "&email=" ++ User.email u
    /\ (User.b_token body2 = Some (reset_token h1 u) ->
        if (now h2 <? now h1 + 3600000)%Z
        then exists w2,
               UserController_resetPassword h2 body2 w1
               = (Ok (respond 200 (Message "Password has been reset successfully")),
                  w2)
               /\ forall x, In x (users w2) -> User.email x = User.email u ->
                    User.password x = bcrypt_hash p (salt h2)
                    /\ User.resetPasswordToken x = None
        else UserController_resetPassword h2 body2 w1
             = (Ok (respond 400 (Message "Token inválido o expirado")), w1)).
Proof.
  intros Huniq Hrun Hok Hmail2 Hp Hq Hpolicy Hhash.
  destruct (forgotPassword_success h1 body1 w w1 r1 Huniq Hrun Hok)
    as (u & baseUrl & Hin & Hmail1 & Husers & Hvalid & Hout).
  pose proof (keeps_forgotPassword h1 body1 w Huniq) as Huniq1.
  rewrite Hrun in Huniq1. cbn [snd] in Huniq1.
  destruct Huniq as [Hids Hemails]. destruct Huniq1 as [Hids1 Hemails1].
  eexists u, _, baseUrl.
  split; [exact Hin |]. split; [exact Hmail1 |]. split; [exact Hout |].
  split; [reflexivity |]. split; [reflexivity |].
  intros Htoken.
  set (d := pending_reset h1 u) in *.
  assert (Hd1 : In d (users w1)).
  { rewrite Husers.
    apply (replace_first_has _ d u).
    apply (find_by_unique_key User._id _ (users w) u Hids Hin).
    intros x. reflexivity. }
  assert (Hdmail : User.email d = User.email u) by reflexivity.
  assert (Hdid : User._id d = User._id u) by reflexivity.
  unfold UserController_resetPassword, try_catch, bind,
    UserDAO_readByResetToken, try_catch, findOne.
  cbn [docs UserModel].
  rewrite Hmail2, Hmail1, Htoken.
  destruct (now h2 <? now h1 + 3600000)%Z eqn:Htime.
  - (* within the hour *)
    rewrite (find_unique_match User.email _ (users w1) d Hemails1 Hd1).
    2:{ unfold reset_filter. subst d.
        cbn [pending_reset User.restamp User.email
             User.resetPasswordToken User.resetPasswordExpires
             User.set_resetPasswordToken User.set_resetPasswordExpires
             field_is nullable_is date_gt].
        now rewrite !String.eqb_refl, Htime. }
    2:{ intros x Hx. unfold reset_filter in Hx.
        apply andb_true_iff in Hx. destruct Hx as [Hx _].
        apply andb_true_iff in Hx. destruct Hx as [Hx _].
        cbn [field_is] in Hx. apply String.eqb_eq in Hx. congruence. }
    unfold passwordValidation. rewrite Hp, Hq. cbn [loose_eq].
    rewrite String.eqb_refl. cbn [negb delete_confirmPassword User.b_password].
    rewrite Hp. cbn [to_js_string]. rewrite Hpolicy. cbn [negb].
    unfold hashPassword. cbn [delete_confirmPassword User.b_password]. rewrite Hp.
    cbn [ret set_body_password User.b_password or_empty].
    unfold UserDAO_update, GlobalDao_update, try_catch, bind,
      findByIdAndUpdate, findOneAndUpdate.
    cbn [docs with_docs doc_id validators unique_clash restamp UserModel].
    match goal with
    | |- context [List.find (has_id ?i) (users w1)] =>
        change i with (User._id d)
    end.
    rewrite (find_by_unique_key User._id _ (users w1) d Hids1 Hd1)
      by (intros x; reflexivity).
    match goal with
    | |- context [UserSchema_validators ?d0] => set (d2 := d0)
    end.
    rewrite (valid_with_password d d2 Hvalid) by (try reflexivity; exact Hhash).
    change (User._id d2) with (User._id d). rewrite String.eqb_refl.
    cbn [negb].
    rewrite (no_other_user_with_email (users w1) d d2 Hemails1 Hd1)
      by reflexivity.
    cbn [ret]. eexists. split; [reflexivity |].
    cbn [users set_users]. intros x Hx Hxmail.
    apply (replace_first_elements (T := User.Document)) in Hx; [| exact Hids1].
    destruct Hx as [-> | [Hxin Hxid]]; [split; reflexivity |].
    exfalso. apply Hxid. cbn [doc_id UserModel]. f_equal.
    apply (NoDup_map_inj User.email (users w1)); auto; congruence.
  - (* an hour or more after the request *)
    replace (List.find _ (users w1)) with (@None User.Document);
      [reflexivity |].
    symmetry. apply find_none_iff. intros x Hx.
    unfold reset_filter.
    destruct (field_is (Some (User.email u)) (User.email x)) eqn:Hxmail;
      [| reflexivity].
    cbn [field_is] in Hxmail. apply String.eqb_eq in Hxmail.
    assert (x = d) as ->
      by (apply (NoDup_map_inj User.email (users w1)); auto; congruence).
    subst d. cbn [pending_reset User.restamp User.email
                  User.resetPasswordToken User.resetPasswordExpires
                  User.set_resetPasswordToken User.set_resetPasswordExpires
                  date_gt].
    rewrite Htime. now rewrite andb_false_r.
Qed.

Lemma reset_link_lasts_an_hour_witness :
  exists u mail baseUrl,
    In u (users Sample.world)
    /\ User.b_email Scenario.ana_asks = Some (User.email u)
    /\ outbox Scenario.world_asked = (outbox Sample.world ++ [mail])%list
    /\ mail_to mail = User.email u
    /\ mail_resetUrl mail
       = baseUrl ++ "/#/recover-password?token="
         ++ reset_token (C := Reference.crypto) Sample.host u
         ++ "&email=" ++ User.email u
    /\ (User.b_token Scenario.ana_resets
        = Some (reset_token (C := Reference.crypto) Sample.host u) ->
        if (now Sample.host_later <? now Sample.host + 3600000)%Z
        then exists w2,
               UserController_resetPassword (C := Reference.crypto)
                 Sample.host_later Scenario.ana_resets Scenario.world_asked
               = (Ok (respond 200 (Message "Password has been reset successfully")),
                  w2)
               /\ forall x, In x (users w2) -> User.email x = User.email u ->
                    User.password x
                    = bcrypt_hash (Crypto := Reference.crypto) "NewSecret1!"
                        (salt Sample.host_later)
                    /\ User.resetPasswordToken x = None
        else UserController_resetPassword (C := Reference.crypto)
               Sample.host_later Scenario.ana_resets Scenario.world_asked
             = (Ok (respond 400 (Message "Token inválido o expirado")),
                Scenario.world_asked)).
Proof.
  apply (reset_link_lasts_an_hour (C := Reference.crypto) Sample.host
           Sample.host_later Scenario.ana_asks Scenario.ana_resets
           Sample.world Scenario.world_asked
           (respond 200 (Message "Password reset email sent")) "NewSecret1!").
  - split; simpl; repeat constructor; simpl; intuition discriminate.
  - vm_compute. reflexivity.
  - reflexivity.
  - reflexivity.
  - reflexivity.
  - reflexivity.
  - vm_compute. reflexivity.
  - vm_compute. reflexivity.
Defined.

(** ** Favorites *)

(** X17. The favorites have no unique index and the handler looks nothing
    up: a request to add a favorite that carries a user and a movie is
    answered 201 whatever the store holds, also when that user already has
    that movie among the favorites, and the new favorite is listed after
    the favorites the user had. *)
Theorem favorite_create_then_listed (h h' : Host) (body : Favorite.Body)
    (w : World) (u m : string) :
  Favorite.b_userId body = Some u -> u <> "" ->
  Favorite.b_movieId body = Some m -> m <> "" ->
  (forall x, In x (favorites w) -> Favorite._id x <> objectId h) ->
  exists d w1,
    FavoriteController_create h body w = (Ok (respond 201 (AFavorite d)), w1)
    /\ favorites w1 = (favorites w ++ [d])%list
    /\ Favorite.userId d = u /\ Favorite.movieId d = m
    /\ FavoriteController_getByUser h' u w1
       = (Ok (respond 200
                (Favorites (filter (fun f => Favorite.userId f =? u)
                              (favorites w) ++ [d])%list)), w1).
Proof.
  intros Hu Hune Hm Hmne Hfresh.
  unfold FavoriteController_create, try_catch, bind.
  rewrite Hu, Hm. cbn [truthy].
  apply String.eqb_neq in Hune, Hmne. rewrite Hune, Hmne. cbn [negb orb].
  unfold FavoriteDAO_create, GlobalDao_create, try_catch, save.
  cbn [docs with_docs instantiate doc_id unique_clash FavoriteModel].
  unfold FavoriteSchema_instantiate, FavoriteSchema_validators.
  rewrite Hu, Hm.
  cbn [Favorite.userId Favorite.movieId or_empty].
  rewrite Hune, Hmne.
  replace (existsb _ (favorites w)) with false.
  2:{ symmetry. destruct (existsb _ (favorites w)) eqn:Hex; [| reflexivity].
      apply existsb_exists in Hex. destruct Hex as (x & Hx & Hc).
      rewrite orb_false_r in Hc. unfold has_id in Hc.
      cbn [doc_id FavoriteModel Favorite._id] in Hc.
      apply String.eqb_eq in Hc. now contradiction (Hfresh x Hx). }
  cbn [ret]. eexists. eexists. split; [reflexivity |].
  cbn [favorites set_favorites Favorite.userId Favorite.movieId].
  split; [reflexivity |]. split; [reflexivity |]. split; [reflexivity |].
  unfold FavoriteController_getByUser, try_catch, bind. rewrite Hune.
  unfold FavoriteDAO_getByUser, try_catch, find.
  cbn [docs FavoriteModel favorites set_favorites ret].
  rewrite filter_snoc. cbn [Favorite.userId]. rewrite String.eqb_refl.
  reflexivity.
Qed.

Lemma favorite_create_then_listed_witness :
  exists d w1,
    FavoriteController_create Sample.host
      {| Favorite.b_userId := Some "u1"; Favorite.b_movieId := Some "m2" |}
      Sample.world
    = (Ok (respond 201 (AFavorite d)), w1)
    /\ favorites w1 = (favorites Sample.world ++ [d])%list
    /\ Favorite.userId d = "u1" /\ Favorite.movieId d = "m2"
    /\ FavoriteController_getByUser Sample.host_later "u1" w1
       = (Ok (respond 200
                (Favorites (filter (fun f => Favorite.userId f =? "u1")
                              (favorites Sample.world) ++ [d])%list)), w1).
Proof.
  apply (favorite_create_then_listed Sample.host Sample.host_later
           {| Favorite.b_userId := Some "u1"; Favorite.b_movieId := Some "m2" |}
           Sample.world "u1" "m2").
  - reflexivity.
  - discriminate.
  - reflexivity.
  - discriminate.
  - simpl. intros x [<- | []]. discriminate.
Defined.

(** ** The generic DAO, on any model *)

Section AnyModel.
Context {T D : Type} `{Model T D}.

(** X18. [GlobalDao]: what [create] returned is what [read] returns for
    its identifier, on any model whose collection is what was last written
    to it. *)
Theorem GlobalDao_create_then_read (h : Host) (data : D) (w w1 : World) (d : T) :
  (forall l w0, docs (with_docs l w0) = l) ->
  GlobalDao_create h data w = (Ok d, w1) ->
  GlobalDao_read (doc_id d) w1 = (Ok d, w1)
  /\ docs w1 = (docs w ++ [d])%list.
Proof.
  intros Hlens.
  unfold GlobalDao_create, try_catch, save.
  destruct (instantiate h data) as [d0 | e]; [| discriminate].
  destruct (existsb _ (docs w)) eqn:Hex; [discriminate |].
  intros [= <- <-].
  unfold GlobalDao_read, try_catch, bind, findById, findOne.
  rewrite Hlens. split; [| reflexivity].
  rewrite find_app_fresh; [reflexivity | |].
  - intros x Hx. pose proof (existsb_false_forall _ _ Hex x Hx) as Hc.
    now apply orb_false_iff in Hc.
  - unfold has_id. apply String.eqb_refl.
Qed.

(** X19. [GlobalDao]: in a collection with distinct identifiers, what
    [delete] removed [read] no longer finds, and every other document it
    still returns. *)
Theorem GlobalDao_delete_then_read (id : string) (w w1 : World) (d : T) :
  (forall l w0, docs (with_docs l w0) = l) ->
  NoDup (map doc_id (docs w)) ->
  GlobalDao_delete id w = (Ok d, w1) ->
  doc_id d = id
  /\ GlobalDao_read id w1
     = (Throw "Error getting document by ID: Document not found", w1)
  /\ (forall x, In x (docs w) -> doc_id x <> id ->
        GlobalDao_read (doc_id x) w1 = (Ok x, w1)).
Proof.
  intros Hlens Hnd.
  unfold GlobalDao_delete, try_catch, bind, findByIdAndDelete.
  destruct (List.find (has_id id) (docs w)) as [old |] eqn:Hfind;
    [| discriminate].
  cbn. intros [= <- <-].
  destruct (find_some_in _ _ _ Hfind) as [Hin Hid].
  unfold has_id in Hid. apply String.eqb_eq in Hid.
  split; [exact Hid |].
  unfold GlobalDao_read, try_catch, bind, findById, findOne.
  rewrite Hlens. split.
  - rewrite (has_id_absent id); [reflexivity |].
    intros x Hx. now apply (remove_first_elements id) in Hx.
  - intros x Hx Hne.
    assert (Hnd' : NoDup (map doc_id (remove_first (has_id id) (docs w)))).
    { clear - Hnd. induction (docs w) as [|a l IH]; simpl; [constructor |].
      inversion Hnd as [|k ks Hnotin Hnd']; subst.
      destruct (has_id id a); [exact Hnd' |].
      simpl. constructor; [| now apply IH].
      intros Hina. apply Hnotin. apply in_map_iff in Hina.
      destruct Hina as (y & E & Hy). rewrite <- E. apply in_map.
      clear - Hy. induction l as [|b l IH]; simpl in *; [contradiction |].
      destruct (has_id id b); [now right |].
      destruct Hy as [<- | Hy]; auto. }
    rewrite (find_by_unique_key doc_id _ _ x Hnd');
      [reflexivity | | intros y; reflexivity].
    apply (remove_first_elements id); auto.
Qed.

End AnyModel.

Lemma GlobalDao_create_then_read_witness :
  GlobalDao_read (doc_id Scenario.worth_it) Scenario.world_reviewed
  = (Ok Scenario.worth_it, Scenario.world_reviewed)
  /\ docs Scenario.world_reviewed
     = (docs Sample.world ++ [Scenario.worth_it])%list.
Proof.
  apply (GlobalDao_create_then_read (T := Review.Document) Sample.host
           (Sample.review_request "u2" "m2" "  Worth it " 4) Sample.world
           Scenario.world_reviewed Scenario.worth_it).
  - intros l w0. reflexivity.
  - vm_compute. reflexivity.
Defined.

Lemma GlobalDao_delete_then_read_witness :
  doc_id Sample.review2 = "r2"
  /\ GlobalDao_read (T := Review.Document) "r2"
       (set_reviews [Sample.review1; Sample.review3] Sample.world)
     = (Throw "Error getting document by ID: Document not found",
        set_reviews [Sample.review1; Sample.review3] Sample.world)
  /\ (forall x : Review.Document,
        In x (docs Sample.world) -> doc_id x <> "r2" ->
        GlobalDao_read (doc_id x)
          (set_reviews [Sample.review1; Sample.review3] Sample.world)
        = (Ok x, set_reviews [Sample.review1; Sample.review3] Sample.world)).
Proof.
  apply (GlobalDao_delete_then_read (T := Review.Document) "r2" Sample.world
           (set_reviews [Sample.review1; Sample.review3] Sample.world)
           Sample.review2).
  - intros l w0. reflexivity.
  - simpl. repeat constructor; simpl; intuition discriminate.
  - reflexivity.
Defined.

(** ** The users collection *)

(** X20. Whatever requests the server has answered since the store was
    empty, no two stored users share an identifier and no two share an
    email. *)
Theorem users_stay_unique {C : Crypto} (calls : list Call) :
  unique_users (users (serve_all calls empty_world)).
Proof.
  apply (served_users_indexed calls empty_world), empty_world_indexed.
Qed.

(** ** Movies: the title read from the address of a video *)

Lemma trim_start_no_leading (s : string) : no_leading_space (trim_start s).
Proof.
  induction s as [|c s IH]; simpl; [exact I |].
  destruct (is_space c) eqn:Hc; [exact IH | exact Hc].
Qed.

Lemma trim_start_fixed (s : string) : no_leading_space s -> trim_start s = s.
Proof. destruct s as [|c s]; simpl; [reflexivity |]. now intros ->. Qed.

Lemma trim_end_no_leading (s : string) :
  no_leading_space s -> no_leading_space (trim_end s).
Proof.
  destruct s as [|c s]; simpl; [exact id |].
  intros Hc. destruct (trim_end s); [rewrite Hc |]; exact Hc.
Qed.

Lemma trim_end_idempotent (s : string) : trim_end (trim_end s) = trim_end s.
Proof.
  induction s as [|c s IH]; simpl; [reflexivity |].
  destruct (trim_end s) as [|c' r] eqn:Hr.
  - destruct (is_space c) eqn:Hc; simpl; [reflexivity | now rewrite Hc].
  - change (trim_end (String c (String c' r))
            = String c (String c' r)).
    cbn [trim_end] in *. now rewrite IH.
Qed.

Lemma trim_idempotent (s : string) : trim (trim s) = trim s.
Proof.
  unfold trim.
  rewrite (trim_start_fixed (trim_end (trim_start s))).
  - apply trim_end_idempotent.
  - apply trim_end_no_leading, trim_start_no_leading.
Qed.

Section Kept.
Variable X : ascii -> bool.

Lemma trim_start_keeps (s : string) :
  all_chars X s = true -> all_chars X (trim_start s) = true.
Proof.
  induction s as [|c s IH]; simpl; [reflexivity |].
  intros Hall. destruct (is_space c); [| exact Hall].
  apply andb_true_iff in Hall. now apply IH.
Qed.

Lemma trim_end_keeps (s : string) :
  all_chars X s = true -> all_chars X (trim_end s) = true.
Proof.
  induction s as [|c s IH]; simpl; [reflexivity |].
  intros Hall. apply andb_true_iff in Hall. destruct Hall as [Hc Hs].
  specialize (IH Hs).
  destruct (trim_end s).
  - destruct (is_space c); simpl; [reflexivity | now rewrite Hc].
  - cbn [all_chars] in *. now rewrite Hc, IH.
Qed.

Lemma strip_trailing_number_keeps (s : string) :
  all_chars X s = true -> all_chars X (strip_trailing_number s) = true.
Proof.
  induction s as [|c s IH]; [reflexivity |].
  intros Hall. cbn [all_chars] in Hall.
  apply andb_true_iff in Hall. destruct Hall as [Hc Hs].
  cbn [strip_trailing_number].
  destruct (digits_to_end false (String c s)); [reflexivity |].
  cbn [all_chars]. now rewrite Hc, IH.
Qed.

End Kept.

Lemma replace_dashes_has_none (s : string) :
  all_chars (fun c => negb (Ascii.eqb c "-"%char)) (replace_dashes s) = true.
Proof.
  induction s as [|c s IH]; simpl; [reflexivity |].
  rewrite IH, andb_true_r.
  destruct (Ascii.eqb_spec c "-"%char) as [-> | NE]; [reflexivity |].
  now apply negb_true_iff, Ascii.eqb_neq.
Qed.

(** X21. The title [formatTitleFromUrl] gives a movie is never empty, holds
    no dash and has no white space at either end, whatever the address of
    the video, and whether or not there is one: the [title] path of the
    schema, which is required, is never the one that fails. *)
Theorem formatTitleFromUrl_clean (url : option string) :
  formatTitleFromUrl url <> ""
  /\ all_chars (fun c => negb (Ascii.eqb c "-"%char)) (formatTitleFromUrl url)
     = true
  /\ trim (formatTitleFromUrl url) = formatTitleFromUrl url.
Proof.
  unfold formatTitleFromUrl, title_of_url.
  destruct url as [u |]; [| repeat split; vm_compute; congruence].
  destruct (nth_error (split_string "/video/" u) 1) as [piece |];
    [| repeat split; vm_compute; congruence].
  destruct (String.eqb_spec
              (trim (strip_trailing_number (replace_dashes piece))) "")
    as [E | NE]; [repeat split; vm_compute; congruence |].
  split; [exact NE |]. split.
  - unfold trim. apply trim_end_keeps, trim_start_keeps,
      strip_trailing_number_keeps, replace_dashes_has_none.
  - apply trim_idempotent.
Qed.

(** ** Movies: what is stored from Pexels *)

Lemma NoDup_snoc_key {A K} (key : A -> K) (l : list A) (d : A) :
  NoDup (map key l) ->
  (forall x, In x l -> key x <> key d) ->
  NoDup (map key (l ++ [d])).
Proof.
  intros Hnd Hfresh. induction l as [|a l IH]; simpl.
  - constructor; [intros [] | constructor].
  - inversion Hnd as [|k ks Hnotin Hnd']; subst. constructor.
    + rewrite map_app, in_app_iff. intros [Hin | [E | []]].
      * now apply Hnotin.
      * apply (Hfresh a); [now left | now symmetry].
    + apply IH; [exact Hnd' |]. intros x Hx. apply Hfresh. now right.
Qed.

(** What one call of [createMovieFromPexelsData] does, case by case. *)
Lemma createMovie_cases (h : MovieHost) (v : Video) (s : Library) :
  (exists m,
     List.find (fun m => (Movie.pexelsId m =? video_id v)%Z) (movies s) = Some m
     /\ createMovieFromPexelsData h v s = (Ok (Some m), s))
  \/ (List.find (fun m => (Movie.pexelsId m =? video_id v)%Z) (movies s) = None
      /\ exists s',
           createMovieFromPexelsData h v s = (Ok None, s')
           /\ movies s' = movies s)
  \/ (List.find (fun m => (Movie.pexelsId m =? video_id v)%Z) (movies s) = None
      /\ exists m,
           createMovieFromPexelsData h v s
           = (Ok (Some m),
              {| world := world s; movies := movies s ++ [m];
                 built := S (built s) |})
           /\ Movie.pexelsId m = video_id v
           /\ MovieSchema_validators m = None).
Proof.
  unfold createMovieFromPexelsData, ltry_catch, lbind, MovieDAO_findByPexelsId,
    ltry_catch, Movie_findOne.
  destruct (List.find _ (movies s)) as [m |] eqn:Hfind.
  - left. exists m. split; reflexivity.
  - right. unfold MovieDAO_create, ltry_catch, Movie_save.
    unfold MovieSchema_instantiate.
    match goal with
    | |- context [MovieSchema_validators ?d0] => set (d := d0)
    end.
    destruct (MovieSchema_validators d) eqn:Hvalid.
    + left. split; [reflexivity |]. cbn. eexists. split; reflexivity.
    + destruct (existsb _ (movies s)).
      * left. split; [reflexivity |]. cbn. eexists. split; reflexivity.
      * right. split; [reflexivity |]. exists d. cbn.
        split; [reflexivity |]. split; [reflexivity | exact Hvalid].
Qed.

Lemma createMovie_keeps_unique (h : MovieHost) (v : Video) (s : Library) :
  NoDup (map Movie.pexelsId (movies s)) ->
  NoDup (map Movie.pexelsId (movies (snd (createMovieFromPexelsData h v s)))).
Proof.
  intros Hnd.
  destruct (createMovie_cases h v s)
    as [(m & _ & ->) | [(_ & s' & -> & Hsame) | (Hnone & m & -> & Hid & _)]];
    cbn [snd movies]; [exact Hnd | now rewrite Hsame |].
  apply NoDup_snoc_key; [exact Hnd |].
  intros x Hx. rewrite find_none_iff in Hnone.
  specialize (Hnone x Hx). apply Z.eqb_neq in Hnone. congruence.
Qed.

Lemma store_videos_keeps_unique (h : MovieHost) (videos : list Video)
    (acc : list Movie.Document) (s : Library) :
  NoDup (map Movie.pexelsId (movies s)) ->
  NoDup (map Movie.pexelsId (movies (snd (store_videos h videos acc s)))).
Proof.
  revert acc s. induction videos as [|v videos IH]; intros acc s Hnd;
    [exact Hnd |].
  cbn [store_videos]. unfold lbind.
  pose proof (createMovie_keeps_unique h v s Hnd) as Hstep.
  destruct (createMovieFromPexelsData h v s) as [[movie | e] s1];
    cbn [snd] in *; [| exact Hstep].
  now apply IH.
Qed.

Lemma console_error_movies (line : string) (s : Library) :
  movies (snd (console_error line s)) = movies s.
Proof. reflexivity. Qed.

(** X22. However often Pexels returns a video, in one answer or over many
    requests, it is stored once: both handlers that store what Pexels
    returns keep the [pexelsId] of the stored movies distinct, although
    the schema declares no index on it. *)
Theorem pexelsId_stays_unique (h : MovieHost) (pages : string)
    (body : SearchBody) (s : Library) :
  NoDup (map Movie.pexelsId (movies s)) ->
  NoDup (map Movie.pexelsId
           (movies (snd (MovieController_getPopularMovies h pages s))))
  /\ NoDup (map Movie.pexelsId
              (movies (snd (MovieController_searchMoviesByCategory h body s)))).
Proof.
  intros Hnd. split.
  - unfold MovieController_getPopularMovies, ltry_catch, lbind, getPopularVideos.
    destruct (videos_popular h pages) as [videos | error | message];
      cbn; try exact Hnd.
    pose proof (store_videos_keeps_unique h videos [] s Hnd) as Hloop.
    destruct (store_videos h videos [] s) as [[l | e] s1]; exact Hloop.
  - unfold MovieController_searchMoviesByCategory, ltry_catch, lbind,
      searchVideos.
    destruct (to_js_string (b_category body) =? ""); [exact Hnd |].
    destruct (videos_search h _ _) as [videos | error | message];
      cbn; try exact Hnd.
    pose proof (store_videos_keeps_unique h videos [] s Hnd) as Hloop.
    destruct (store_videos h videos [] s) as [[l | e] s1]; exact Hloop.
Qed.

Lemma pexelsId_stays_unique_witness :
  NoDup (map Movie.pexelsId
           (movies (snd (MovieController_getPopularMovies Cinema.pexels "3"
                           Cinema.empty_library))))
  /\ NoDup (map Movie.pexelsId
              (movies (snd (MovieController_searchMoviesByCategory Cinema.pexels
                              {| b_category := Some "walk"; b_pages := None |}
                              Cinema.empty_library)))).
Proof.
  apply (pexelsId_stays_unique Cinema.pexels "3"
           {| b_category := Some "walk"; b_pages := None |}
           Cinema.empty_library).
  constructor.
Defined.

(** X23. Storing a video is idempotent: when [createMovieFromPexelsData]
    has returned a movie for a video, calling it again for that video
    returns the same movie and leaves the library as it is; the movie
    carries the identifier of the video. *)
Theorem createMovie_twice (h : MovieHost) (v : Video) (s s1 : Library)
    (m : Movie.Document) :
  createMovieFromPexelsData h v s = (Ok (Some m), s1) ->
  createMovieFromPexelsData h v s1 = (Ok (Some m), s1)
  /\ Movie.pexelsId m = video_id v
  /\ In m (movies s1).
Proof.
  intros Hrun.
  destruct (createMovie_cases h v s)
    as [(m' & Hfind & Hr) | [(_ & s' & Hr & _) | (Hnone & m' & Hr & Hid & _)]];
    rewrite Hr in Hrun.
  - injection Hrun as <- <-. split; [exact Hr |].
    destruct (find_some_in _ _ _ Hfind) as [Hin Hm].
    split; [now apply Z.eqb_eq | exact Hin].
  - discriminate.
  - injection Hrun as <- <-. split.
    + unfold createMovieFromPexelsData, ltry_catch, lbind,
        MovieDAO_findByPexelsId, ltry_catch, Movie_findOne.
      cbn [movies].
      rewrite find_app_fresh; [reflexivity | |].
      * now apply find_none_iff.
      * now apply Z.eqb_eq.
    + split; [exact Hid |]. cbn [movies]. apply in_or_app. right. now left.
Qed.

Lemma createMovie_twice_witness :
  exists m s1,
    createMovieFromPexelsData Cinema.pexels Cinema.walk_video Cinema.empty_library
    = (Ok (Some m), s1)
    /\ createMovieFromPexelsData Cinema.pexels Cinema.walk_video s1
       = (Ok (Some m), s1)
    /\ Movie.pexelsId m = video_id Cinema.walk_video
    /\ In m (movies s1).
Proof.
  eexists. eexists. split; [vm_compute; reflexivity |].
  apply (createMovie_twice Cinema.pexels Cinema.walk_video Cinema.empty_library).
  vm_compute. reflexivity.
Defined.

(** The loop over the videos returns: the list it was given, followed by
    movies that are stored and come from the videos; nothing stored is
    lost. *)
Lemma store_videos_result (h : MovieHost) (videos : list Video) :
  forall (acc : list Movie.Document) (s : Library),
  exists l s',
    store_videos h videos acc s = (Ok (acc ++ l)%list, s')
    /\ (forall m, In m l ->
          In m (movies s')
          /\ exists v, In v videos /\ Movie.pexelsId m = video_id v)
    /\ (forall m, In m (movies s) -> In m (movies s')).
Proof.
  induction videos as [|v videos IH]; intros acc s.
  - exists [], s. cbn. rewrite app_nil_r. repeat split; auto; contradiction.
  - cbn [store_videos]. unfold lbind.
    destruct (createMovie_cases h v s)
      as [(m & Hfind & ->) | [(_ & s1 & -> & Hsame) | (_ & m & -> & Hid & _)]].
    + destruct (IH (acc ++ [m])%list s) as (l & s' & -> & Hl & Hkeep).
      exists (m :: l), s'. rewrite <- app_assoc. split; [reflexivity |].
      destruct (find_some_in _ _ _ Hfind) as [Hin Hm]. apply Z.eqb_eq in Hm.
      split; [| exact Hkeep].
      intros x [<- | Hx].
      * split; [now apply Hkeep |]. exists v. split; [now left | exact Hm].
      * destruct (Hl x Hx) as (Hin' & v' & Hv' & E).
        split; [exact Hin' |]. exists v'. split; [now right | exact E].
    + destruct (IH acc s1) as (l & s' & -> & Hl & Hkeep).
      exists l, s'. split; [reflexivity |]. split.
      * intros x Hx. destruct (Hl x Hx) as (Hin' & v' & Hv' & E).
        split; [exact Hin' |]. exists v'. split; [now right | exact E].
      * intros x Hx. apply Hkeep. now rewrite Hsame.
    + match goal with
      | |- context [store_videos h videos ?a ?s0] =>
          destruct (IH a s0) as (l & s' & -> & Hl & Hkeep)
      end.
      cbn [movies] in Hkeep.
      exists (m :: l), s'. rewrite <- app_assoc. split; [reflexivity |].
      split.
      * intros x [<- | Hx].
        -- split; [apply Hkeep, in_or_app; right; now left |].
           exists v. split; [now left | exact Hid].
        -- destruct (Hl x Hx) as (Hin' & v' & Hv' & E).
           split; [exact Hin' |]. exists v'. split; [now right | exact E].
      * intros x Hx. apply Hkeep, in_or_app. now left.
Qed.

(** X24. [getPopularMovies] answers 200 whenever Pexels returns videos,
    whatever the videos: a video whose movie the schema refuses is passed
    over. Every movie of the answer is stored and carries the identifier
    of one of the videos, and no movie stored before is lost. When Pexels
    answers with an error, or the call fails, the answer is 500 and the
    movies are as before. *)
Theorem getPopularMovies_answers (h : MovieHost) (pages : string) (s : Library) :
  match videos_popular h pages with
  | Videos videos =>
      exists l s',
        MovieController_getPopularMovies h pages s
        = (Ok {| m_status := 200; m_json := MovieList l |}, s')
        /\ (forall m, In m l ->
              In m (movies s')
              /\ exists v, In v videos /\ Movie.pexelsId m = video_id v)
        /\ (forall m, In m (movies s) -> In m (movies s'))
  | _ =>
      exists s',
        MovieController_getPopularMovies h pages s
        = (Ok {| m_status := 500;
                 m_json := MMessage "Error al obtener películas populares." |},
           s')
        /\ movies s' = movies s
  end.
Proof.
  unfold MovieController_getPopularMovies, ltry_catch, lbind, getPopularVideos.
  destruct (videos_popular h pages) as [videos | error | message].
  - cbn [lret].
    destruct (store_videos_result h videos [] s) as (l & s' & -> & Hl & Hkeep).
    exists l, s'. split; [reflexivity |]. split; assumption.
  - cbn. eexists. split; reflexivity.
  - cbn. eexists. split; reflexivity.
Qed.

(** X25. [searchMoviesByCategory] refuses a search only for the empty
    category: it always answers, with 400 exactly when [category] is the
    empty string, and then nothing is asked of Pexels or stored; a request
    without [category] is not refused. *)
Theorem search_refuses_only_empty_category (h : MovieHost) (body : SearchBody)
    (s : Library) :
  exists r s',
    MovieController_searchMoviesByCategory h body s = (Ok r, s')
    /\ (m_status r = 400%Z <-> b_category body = Some "")
    /\ (m_status r = 400%Z -> s' = s).
Proof.
  unfold MovieController_searchMoviesByCategory, ltry_catch, lbind, searchVideos.
  destruct (b_category body) as [c |]; cbn [to_js_string].
  - destruct (String.eqb_spec c "") as [-> | NE].
    + eexists. eexists. split; [reflexivity |]. cbn. tauto.
    + destruct (videos_search h c (b_pages body)) as [videos | error | message].
      * cbn [lret].
        destruct (store_videos_result h videos [] s) as (l & s' & -> & _).
        eexists. eexists. split; [reflexivity |]. cbn.
        split; [split; [discriminate | congruence] | discriminate].
      * cbn. eexists. eexists. split; [reflexivity |]. cbn.
        split; [split; [discriminate | congruence] | discriminate].
      * cbn. eexists. eexists. split; [reflexivity |]. cbn.
        split; [split; [discriminate | congruence] | discriminate].
  - cbn [String.eqb].
    destruct (videos_search h "undefined" (b_pages body))
      as [videos | error | message].
    + cbn [lret].
      destruct (store_videos_result h videos [] s) as (l & s' & -> & _).
      eexists. eexists. split; [reflexivity |]. cbn.
      split; [split; discriminate | discriminate].
    + cbn. eexists. eexists. split; [reflexivity |]. cbn.
      split; [split; discriminate | discriminate].
    + cbn. eexists. eexists. split; [reflexivity |]. cbn.
      split; [split; discriminate | discriminate].
Qed.

(** X26. [getMovieById] answers the identifier of a stored movie with 200
    and that movie; an identifier no stored movie has is answered 500, not
    the 404 the handler holds for it: [MovieDAO.read] throws before the
    test. Either way the movies are left as they were. *)
Theorem getMovieById_answers (id : string) (s : Library) :
  match List.find (fun m => Movie._id m =? id) (movies s) with
  | Some m =>
      MovieController_getMovieById id s
      = (Ok {| m_status := 200; m_json := AMovie m |}, s)
  | None =>
      exists s',
        MovieController_getMovieById id s
        = (Ok {| m_status := 500;
                 m_json := MMessage "Error al obtener la película." |}, s')
        /\ movies s' = movies s
  end.
Proof.
  unfold MovieController_getMovieById, ltry_catch, lbind, MovieDAO_read,
    ltry_catch, lbind, Movie_findOne.
  destruct (List.find _ (movies s)) as [m |].
  - reflexivity.
  - cbn. eexists. split; reflexivity.
Qed.

(** ** The edit of the profile *)

(** What [Object.assign] leaves in the four fields of the profile. *)
Lemma assigned_profile (u : User.Document) (body : User.Body) :
  let u' :=
    Object_assign u
      (map (fun field => (field, body_get body field))
           (filter (fun field => match body_get body field with
                                 | Some _ => true
                                 | None => false
                                 end) allowedFields)) in
  User.firstName u' = match User.b_firstName body with
                      | Some v => v
                      | None => User.firstName u
                      end
  /\ User.lastName u' = match User.b_lastName body with
                        | Some v => v
                        | None => User.lastName u
                        end
  /\ User.age u' = match User.b_age body with
                   | Some v => v
                   | None => User.age u
                   end
  /\ User.email u' = match User.b_email body with
                     | Some v => v
                     | None => User.email u
                     end.
Proof.
  destruct body as [fn ln ag em pw cp tk rt re].
  destruct fn, ln, ag, em; cbn; repeat split; reflexivity.
Qed.

(** X27. An edit of the profile answered 200 stored what the request
    asked for and nothing invalid: the record of the logged user holds
    each of [firstName], [lastName], [age] and [email] as the body gives
    it, or as it was when the body does not give it, it is stamped with
    the time of the edit, and it passes the validators of the schema. *)
Theorem editLoggedUser_sets_fields (h : Host) (id : string) (body : User.Body)
    (w w1 : World) (r : Response) :
  UserController_editLoggedUser h (Some id) body w = (Ok r, w1) ->
  status r = 200%Z ->
  exists old new,
    List.find (has_id id) (users w) = Some old
    /\ In new (users w1)
    /\ User._id new = id
    /\ User.firstName new = match User.b_firstName body with
                            | Some v => v
                            | None => User.firstName old
                            end
    /\ User.lastName new = match User.b_lastName body with
                           | Some v => v
                           | None => User.lastName old
                           end
    /\ User.age new = match User.b_age body with
                      | Some v => v
                      | None => User.age old
                      end
    /\ User.email new = match User.b_email body with
                        | Some v => v
                        | None => User.email old
                        end
    /\ User.updatedAt new = now h
    /\ UserSchema_validators new = None.
Proof.
  unfold UserController_editLoggedUser.
  destruct (truthy (Some id)); cbn [negb]; [| not_200].
  unfold try_catch, bind, UserDAO_read, GlobalDao_read, try_catch, bind,
    findById, findOne.
  cbn [docs UserModel or_empty].
  destruct (List.find (has_id id) (users w)) as [u |] eqn:Hfind; [| not_200].
  cbn [ret throw is_truthy negb].
  pose proof (assigned_profile u body) as Hfields. cbv zeta in Hfields.
  match goal with
  | |- context [Object_assign u ?ups] => set (updates := ups) in *
  end.
  assert (Hkeep : without_profile (Object_assign u updates) = without_profile u).
  { apply Object_assign_allowed. subst updates.
    apply Forall_forall. intros entry Hentry.
    apply in_map_iff in Hentry. destruct Hentry as (field & <- & Hfield).
    apply filter_In in Hfield. exact (proj1 Hfield). }
  assert (Hid : User._id (Object_assign u updates) = User._id u).
  { now apply (f_equal User._id) in Hkeep. }
  destruct (find_some_in _ _ _ Hfind) as [_ Hu].
  unfold has_id in Hu. cbn [doc_id UserModel] in Hu. apply String.eqb_eq in Hu.
  unfold UserDAO_update, GlobalDao_update, try_catch, bind,
    findByIdAndUpdate, findOneAndUpdate.
  cbn [docs with_docs doc_id validators unique_clash restamp UserModel].
  rewrite Hid, Hu, Hfind.
  match goal with
  | |- context [UserSchema_validators ?d0] => set (d := d0)
  end.
  destruct (UserSchema_validators d) eqn:Hvalid; [not_200 |].
  destruct (negb _); [not_200 |].
  destruct (existsb _ _); [not_200 |].
  cbn. intros [= <- <-] _. exists u, d.
  split; [reflexivity |]. split.
  { cbn [users set_users]. now apply (replace_first_has _ d u). }
  destruct Hfields as (Hfn & Hln & Hag & Hem).
  subst d. cbn [User.restamp User._id User.firstName User.lastName User.age
                User.email User.updatedAt].
  rewrite Hid, Hu. repeat split; auto.
Qed.

Lemma editLoggedUser_sets_fields_witness :
  exists old new,
    List.find (has_id "u1") (users Sample.world) = Some old
    /\ In new (users (snd (UserController_editLoggedUser Sample.host (Some "u1")
                             Sample.new_first_name Sample.world)))
    /\ User._id new = "u1"
    /\ User.firstName new = "Anita"
    /\ User.lastName new = User.lastName old
    /\ User.age new = User.age old
    /\ User.email new = User.email old
    /\ User.updatedAt new = 5000%Z
    /\ UserSchema_validators new = None.
Proof.
  exact (editLoggedUser_sets_fields Sample.host "u1" Sample.new_first_name
           Sample.world _
           (respond 200 (Message "User information updated successfully"))
           eq_refl eq_refl).
Defined.
